(** * spectopus: the schema conversion engine

    A shallow embedding of the two schema adapters of spectopus
    ([src/adapters/zod.ts], [src/adapters/joi.ts]) and of the schema
    resolver ([src/builder/_zodResolver.ts]), followed by the properties
    of the conversion that the specification states.

    Conventions of the embedding:
    - a JavaScript value is a [JSValue]; numbers are only copied by the
      adapters (or obtained from a list length), so they are carried as
      integers;
    - a [SchemaObject] is a record with one optional field per key the
      adapters read or write; a field is [None] when the object has no
      such own key.  Key order is not observable in the record;
    - object spread [{...a, ...b}] is [spread a b]; a property write
      [o.k = v] is [with_k v o];
    - a Zod schema is the tree of its [_def] objects, tagged by
      [typeName]; a Joi schema is seen through its [describe()] output. *)

From Stdlib Require Import List String Ascii ZArith Bool Lia.
Import ListNotations.
Open Scope string_scope.
Set Warnings "-register-all".

(** Left-to-right application, to write successive property writes in
    program order. *)
Notation "x |> f" := (f x) (at level 45, left associativity, only parsing).

(* ================================================================== *)
(** ** JavaScript values *)
(* ================================================================== *)

Module JS.

Record RegExp : Type := mkRegExp { source : string; flags : string }.

Inductive JSValue : Type :=
| JUndefined
| JNull
| JBoolean (b : bool)
| JNumber (n : Z)
| JString (s : string)
| JRegExp (r : RegExp)
| JFunction (name : string)
| JArray (elements : list JSValue)
| JObject (members : list (string * JSValue)).

(** [typeof v] *)
Definition typeof (v : JSValue) : string :=
  match v with
  | JUndefined => "undefined"
  | JNull => "object"
  | JBoolean _ => "boolean"
  | JNumber _ => "number"
  | JString _ => "string"
  | JRegExp _ => "object"
  | JFunction _ => "function"
  | JArray _ => "object"
  | JObject _ => "object"
  end.

(** [v === undefined] and [v === null] *)
Definition isUndefined (v : JSValue) : bool :=
  match v with JUndefined => true | _ => false end.

Definition isNull (v : JSValue) : bool :=
  match v with JNull => true | _ => false end.

(** Truthiness of a string and of a value. *)
Definition truthyString (s : string) : bool :=
  negb (s =? "").

Definition truthy (v : JSValue) : bool :=
  match v with
  | JUndefined | JNull => false
  | JBoolean b => b
  | JNumber n => negb (n =? 0)%Z
  | JString s => truthyString s
  | JRegExp _ | JFunction _ | JArray _ | JObject _ => true
  end.

(** Own-property lookup in an object literal; the last write wins. *)
Fixpoint getMember (k : string) (members : list (string * JSValue)) : option JSValue :=
  match members with
  | [] => None
  | (k', v) :: rest =>
      match getMember k rest with
      | Some w => Some w
      | None => if k' =? k then Some v else None
      end
  end.

(** [k in v] for an object value. *)
Definition hasMember (k : string) (v : JSValue) : bool :=
  match v with
  | JObject members => match getMember k members with Some _ => true | None => false end
  | _ => false
  end.

(** [v[k]], [undefined] when absent. *)
Definition member (k : string) (v : JSValue) : JSValue :=
  match v with
  | JObject members => match getMember k members with Some w => w | None => JUndefined end
  | _ => JUndefined
  end.

(** [xs.length] as a JavaScript number. *)
Definition lengthOf {A : Type} (xs : list A) : JSValue :=
  JNumber (Z.of_nat (List.length xs)).

End JS.

(* ================================================================== *)
(** ** The target model: OpenAPI 3.1 schema objects *)
(* ================================================================== *)

Module OpenAPI.
Import JS.

(** [type] is one name or an array of names. *)
Inductive SchemaType : Type :=
| TypeName (t : string)
| TypeNames (ts : list string).

(** A field that holds either a boolean or a schema
    ([additionalProperties], [items]). *)
Inductive BoolOr (A : Type) : Type :=
| IsBool (b : bool)
| IsSchema (s : A).
Arguments IsBool {A} b.
Arguments IsSchema {A} s.

Inductive SchemaObject : Type := mkSchema {
  type : option SchemaType;
  format : option string;
  description : option string;
  default : option JSValue;
  const : option JSValue;
  enum : option (list JSValue);
  not_ : option SchemaObject;
  anyOf : option (list SchemaObject);
  allOf : option (list SchemaObject);
  properties : option (list (string * SchemaObject));
  required : option (list string);
  additionalProperties : option (BoolOr SchemaObject);
  items : option (BoolOr SchemaObject);
  prefixItems : option (list SchemaObject);
  minItems : option JSValue;
  maxItems : option JSValue;
  uniqueItems : option bool;
  minLength : option JSValue;
  maxLength : option JSValue;
  pattern : option string;
  contentEncoding : option string;
  minimum : option JSValue;
  maximum : option JSValue;
  exclusiveMinimum : option JSValue;
  exclusiveMaximum : option JSValue;
  multipleOf : option JSValue;
  readOnly : option bool }.

(** The object literal [{}]. *)
Definition emptySchema : SchemaObject :=
  mkSchema None None None None None None None None None None None None None None
           None None None None None None None None None None None None None.

(** Property writes [n.k = v], one per key. *)
Definition with_type (v : SchemaType) (n : SchemaObject) : SchemaObject :=
  mkSchema
    (Some v) (format n) (description n) (default n) (const n) (enum n) (not_ n) (anyOf n)
    (allOf n) (properties n) (required n) (additionalProperties n) (items n)
    (prefixItems n) (minItems n) (maxItems n) (uniqueItems n) (minLength n) (maxLength n)
    (pattern n) (contentEncoding n) (minimum n) (maximum n) (exclusiveMinimum n)
    (exclusiveMaximum n) (multipleOf n) (readOnly n).

Definition with_format (v : string) (n : SchemaObject) : SchemaObject :=
  mkSchema
    (type n) (Some v) (description n) (default n) (const n) (enum n) (not_ n) (anyOf n)
    (allOf n) (properties n) (required n) (additionalProperties n) (items n)
    (prefixItems n) (minItems n) (maxItems n) (uniqueItems n) (minLength n) (maxLength n)
    (pattern n) (contentEncoding n) (minimum n) (maximum n) (exclusiveMinimum n)
    (exclusiveMaximum n) (multipleOf n) (readOnly n).

Definition with_description (v : string) (n : SchemaObject) : SchemaObject :=
  mkSchema
    (type n) (format n) (Some v) (default n) (const n) (enum n) (not_ n) (anyOf n)
    (allOf n) (properties n) (required n) (additionalProperties n) (items n)
    (prefixItems n) (minItems n) (maxItems n) (uniqueItems n) (minLength n) (maxLength n)
    (pattern n) (contentEncoding n) (minimum n) (maximum n) (exclusiveMinimum n)
    (exclusiveMaximum n) (multipleOf n) (readOnly n).

Definition with_default (v : JSValue) (n : SchemaObject) : SchemaObject :=
  mkSchema
    (type n) (format n) (description n) (Some v) (const n) (enum n) (not_ n) (anyOf n)
    (allOf n) (properties n) (required n) (additionalProperties n) (items n)
    (prefixItems n) (minItems n) (maxItems n) (uniqueItems n) (minLength n) (maxLength n)
    (pattern n) (contentEncoding n) (minimum n) (maximum n) (exclusiveMinimum n)
    (exclusiveMaximum n) (multipleOf n) (readOnly n).

Definition with_const (v : JSValue) (n : SchemaObject) : SchemaObject :=
  mkSchema
    (type n) (format n) (description n) (default n) (Some v) (enum n) (not_ n) (anyOf n)
    (allOf n) (properties n) (required n) (additionalProperties n) (items n)
    (prefixItems n) (minItems n) (maxItems n) (uniqueItems n) (minLength n) (maxLength n)
    (pattern n) (contentEncoding n) (minimum n) (maximum n) (exclusiveMinimum n)
    (exclusiveMaximum n) (multipleOf n) (readOnly n).

Definition with_enum (v : list JSValue) (n : SchemaObject) : SchemaObject :=
  mkSchema
    (type n) (format n) (description n) (default n) (const n) (Some v) (not_ n) (anyOf n)
    (allOf n) (properties n) (required n) (additionalProperties n) (items n)
    (prefixItems n) (minItems n) (maxItems n) (uniqueItems n) (minLength n) (maxLength n)
    (pattern n) (contentEncoding n) (minimum n) (maximum n) (exclusiveMinimum n)
    (exclusiveMaximum n) (multipleOf n) (readOnly n).

Definition with_not (v : SchemaObject) (n : SchemaObject) : SchemaObject :=
  mkSchema
    (type n) (format n) (description n) (default n) (const n) (enum n) (Some v) (anyOf n)
    (allOf n) (properties n) (required n) (additionalProperties n) (items n)
    (prefixItems n) (minItems n) (maxItems n) (uniqueItems n) (minLength n) (maxLength n)
    (pattern n) (contentEncoding n) (minimum n) (maximum n) (exclusiveMinimum n)
    (exclusiveMaximum n) (multipleOf n) (readOnly n).

Definition with_anyOf (v : list SchemaObject) (n : SchemaObject) : SchemaObject :=
  mkSchema
    (type n) (format n) (description n) (default n) (const n) (enum n) (not_ n) (Some v)
    (allOf n) (properties n) (required n) (additionalProperties n) (items n)
    (prefixItems n) (minItems n) (maxItems n) (uniqueItems n) (minLength n) (maxLength n)
    (pattern n) (contentEncoding n) (minimum n) (maximum n) (exclusiveMinimum n)
    (exclusiveMaximum n) (multipleOf n) (readOnly n).

Definition with_allOf (v : list SchemaObject) (n : SchemaObject) : SchemaObject :=
  mkSchema
    (type n) (format n) (description n) (default n) (const n) (enum n) (not_ n) (anyOf n)
    (Some v) (properties n) (required n) (additionalProperties n) (items n) (prefixItems n)
    (minItems n) (maxItems n) (uniqueItems n) (minLength n) (maxLength n) (pattern n)
    (contentEncoding n) (minimum n) (maximum n) (exclusiveMinimum n) (exclusiveMaximum n)
    (multipleOf n) (readOnly n).

Definition with_properties (v : list (string * SchemaObject)) (n : SchemaObject) : SchemaObject :=
  mkSchema
    (type n) (format n) (description n) (default n) (const n) (enum n) (not_ n) (anyOf n)
    (allOf n) (Some v) (required n) (additionalProperties n) (items n) (prefixItems n)
    (minItems n) (maxItems n) (uniqueItems n) (minLength n) (maxLength n) (pattern n)
    (contentEncoding n) (minimum n) (maximum n) (exclusiveMinimum n) (exclusiveMaximum n)
    (multipleOf n) (readOnly n).

Definition with_required (v : list string) (n : SchemaObject) : SchemaObject :=
  mkSchema
    (type n) (format n) (description n) (default n) (const n) (enum n) (not_ n) (anyOf n)
    (allOf n) (properties n) (Some v) (additionalProperties n) (items n) (prefixItems n)
    (minItems n) (maxItems n) (uniqueItems n) (minLength n) (maxLength n) (pattern n)
    (contentEncoding n) (minimum n) (maximum n) (exclusiveMinimum n) (exclusiveMaximum n)
    (multipleOf n) (readOnly n).

Definition with_additionalProperties (v : BoolOr SchemaObject) (n : SchemaObject) : SchemaObject :=
  mkSchema
    (type n) (format n) (description n) (default n) (const n) (enum n) (not_ n) (anyOf n)
    (allOf n) (properties n) (required n) (Some v) (items n) (prefixItems n) (minItems n)
    (maxItems n) (uniqueItems n) (minLength n) (maxLength n) (pattern n)
    (contentEncoding n) (minimum n) (maximum n) (exclusiveMinimum n) (exclusiveMaximum n)
    (multipleOf n) (readOnly n).

Definition with_items (v : BoolOr SchemaObject) (n : SchemaObject) : SchemaObject :=
  mkSchema
    (type n) (format n) (description n) (default n) (const n) (enum n) (not_ n) (anyOf n)
    (allOf n) (properties n) (required n) (additionalProperties n) (Some v) (prefixItems n)
    (minItems n) (maxItems n) (uniqueItems n) (minLength n) (maxLength n) (pattern n)
    (contentEncoding n) (minimum n) (maximum n) (exclusiveMinimum n) (exclusiveMaximum n)
    (multipleOf n) (readOnly n).

Definition with_prefixItems (v : list SchemaObject) (n : SchemaObject) : SchemaObject :=
  mkSchema
    (type n) (format n) (description n) (default n) (const n) (enum n) (not_ n) (anyOf n)
    (allOf n) (properties n) (required n) (additionalProperties n) (items n) (Some v)
    (minItems n) (maxItems n) (uniqueItems n) (minLength n) (maxLength n) (pattern n)
    (contentEncoding n) (minimum n) (maximum n) (exclusiveMinimum n) (exclusiveMaximum n)
    (multipleOf n) (readOnly n).

Definition with_minItems (v : JSValue) (n : SchemaObject) : SchemaObject :=
  mkSchema
    (type n) (format n) (description n) (default n) (const n) (enum n) (not_ n) (anyOf n)
    (allOf n) (properties n) (required n) (additionalProperties n) (items n)
    (prefixItems n) (Some v) (maxItems n) (uniqueItems n) (minLength n) (maxLength n)
    (pattern n) (contentEncoding n) (minimum n) (maximum n) (exclusiveMinimum n)
    (exclusiveMaximum n) (multipleOf n) (readOnly n).

Definition with_maxItems (v : JSValue) (n : SchemaObject) : SchemaObject :=
  mkSchema
    (type n) (format n) (description n) (default n) (const n) (enum n) (not_ n) (anyOf n)
    (allOf n) (properties n) (required n) (additionalProperties n) (items n)
    (prefixItems n) (minItems n) (Some v) (uniqueItems n) (minLength n) (maxLength n)
    (pattern n) (contentEncoding n) (minimum n) (maximum n) (exclusiveMinimum n)
    (exclusiveMaximum n) (multipleOf n) (readOnly n).

Definition with_uniqueItems (v : bool) (n : SchemaObject) : SchemaObject :=
  mkSchema
    (type n) (format n) (description n) (default n) (const n) (enum n) (not_ n) (anyOf n)
    (allOf n) (properties n) (required n) (additionalProperties n) (items n)
    (prefixItems n) (minItems n) (maxItems n) (Some v) (minLength n) (maxLength n)
    (pattern n) (contentEncoding n) (minimum n) (maximum n) (exclusiveMinimum n)
    (exclusiveMaximum n) (multipleOf n) (readOnly n).

Definition with_minLength (v : JSValue) (n : SchemaObject) : SchemaObject :=
  mkSchema
    (type n) (format n) (description n) (default n) (const n) (enum n) (not_ n) (anyOf n)
    (allOf n) (properties n) (required n) (additionalProperties n) (items n)
    (prefixItems n) (minItems n) (maxItems n) (uniqueItems n) (Some v) (maxLength n)
    (pattern n) (contentEncoding n) (minimum n) (maximum n) (exclusiveMinimum n)
    (exclusiveMaximum n) (multipleOf n) (readOnly n).

Definition with_maxLength (v : JSValue) (n : SchemaObject) : SchemaObject :=
  mkSchema
    (type n) (format n) (description n) (default n) (const n) (enum n) (not_ n) (anyOf n)
    (allOf n) (properties n) (required n) (additionalProperties n) (items n)
    (prefixItems n) (minItems n) (maxItems n) (uniqueItems n) (minLength n) (Some v)
    (pattern n) (contentEncoding n) (minimum n) (maximum n) (exclusiveMinimum n)
    (exclusiveMaximum n) (multipleOf n) (readOnly n).

Definition with_pattern (v : string) (n : SchemaObject) : SchemaObject :=
  mkSchema
    (type n) (format n) (description n) (default n) (const n) (enum n) (not_ n) (anyOf n)
    (allOf n) (properties n) (required n) (additionalProperties n) (items n)
    (prefixItems n) (minItems n) (maxItems n) (uniqueItems n) (minLength n) (maxLength n)
    (Some v) (contentEncoding n) (minimum n) (maximum n) (exclusiveMinimum n)
    (exclusiveMaximum n) (multipleOf n) (readOnly n).

Definition with_contentEncoding (v : string) (n : SchemaObject) : SchemaObject :=
  mkSchema
    (type n) (format n) (description n) (default n) (const n) (enum n) (not_ n) (anyOf n)
    (allOf n) (properties n) (required n) (additionalProperties n) (items n)
    (prefixItems n) (minItems n) (maxItems n) (uniqueItems n) (minLength n) (maxLength n)
    (pattern n) (Some v) (minimum n) (maximum n) (exclusiveMinimum n) (exclusiveMaximum n)
    (multipleOf n) (readOnly n).

Definition with_minimum (v : JSValue) (n : SchemaObject) : SchemaObject :=
  mkSchema
    (type n) (format n) (description n) (default n) (const n) (enum n) (not_ n) (anyOf n)
    (allOf n) (properties n) (required n) (additionalProperties n) (items n)
    (prefixItems n) (minItems n) (maxItems n) (uniqueItems n) (minLength n) (maxLength n)
    (pattern n) (contentEncoding n) (Some v) (maximum n) (exclusiveMinimum n)
    (exclusiveMaximum n) (multipleOf n) (readOnly n).

Definition with_maximum (v : JSValue) (n : SchemaObject) : SchemaObject :=
  mkSchema
    (type n) (format n) (description n) (default n) (const n) (enum n) (not_ n) (anyOf n)
    (allOf n) (properties n) (required n) (additionalProperties n) (items n)
    (prefixItems n) (minItems n) (maxItems n) (uniqueItems n) (minLength n) (maxLength n)
    (pattern n) (contentEncoding n) (minimum n) (Some v) (exclusiveMinimum n)
    (exclusiveMaximum n) (multipleOf n) (readOnly n).

Definition with_exclusiveMinimum (v : JSValue) (n : SchemaObject) : SchemaObject :=
  mkSchema
    (type n) (format n) (description n) (default n) (const n) (enum n) (not_ n) (anyOf n)
    (allOf n) (properties n) (required n) (additionalProperties n) (items n)
    (prefixItems n) (minItems n) (maxItems n) (uniqueItems n) (minLength n) (maxLength n)
    (pattern n) (contentEncoding n) (minimum n) (maximum n) (Some v) (exclusiveMaximum n)
    (multipleOf n) (readOnly n).

Definition with_exclusiveMaximum (v : JSValue) (n : SchemaObject) : SchemaObject :=
  mkSchema
    (type n) (format n) (description n) (default n) (const n) (enum n) (not_ n) (anyOf n)
    (allOf n) (properties n) (required n) (additionalProperties n) (items n)
    (prefixItems n) (minItems n) (maxItems n) (uniqueItems n) (minLength n) (maxLength n)
    (pattern n) (contentEncoding n) (minimum n) (maximum n) (exclusiveMinimum n) (Some v)
    (multipleOf n) (readOnly n).

Definition with_multipleOf (v : JSValue) (n : SchemaObject) : SchemaObject :=
  mkSchema
    (type n) (format n) (description n) (default n) (const n) (enum n) (not_ n) (anyOf n)
    (allOf n) (properties n) (required n) (additionalProperties n) (items n)
    (prefixItems n) (minItems n) (maxItems n) (uniqueItems n) (minLength n) (maxLength n)
    (pattern n) (contentEncoding n) (minimum n) (maximum n) (exclusiveMinimum n)
    (exclusiveMaximum n) (Some v) (readOnly n).

Definition with_readOnly (v : bool) (n : SchemaObject) : SchemaObject :=
  mkSchema
    (type n) (format n) (description n) (default n) (const n) (enum n) (not_ n) (anyOf n)
    (allOf n) (properties n) (required n) (additionalProperties n) (items n)
    (prefixItems n) (minItems n) (maxItems n) (uniqueItems n) (minLength n) (maxLength n)
    (pattern n) (contentEncoding n) (minimum n) (maximum n) (exclusiveMinimum n)
    (exclusiveMaximum n) (multipleOf n) (Some v).

(** In [{...a, ...b}] a key of [b] overrides the same key of [a]. *)
Definition later {A : Type} (x y : option A) : option A :=
  match y with
  | Some _ => y
  | None => x
  end.

Definition spread (a b : SchemaObject) : SchemaObject :=
  mkSchema
    (later (type a) (type b))
    (later (format a) (format b))
    (later (description a) (description b))
    (later (default a) (default b))
    (later (const a) (const b))
    (later (enum a) (enum b))
    (later (not_ a) (not_ b))
    (later (anyOf a) (anyOf b))
    (later (allOf a) (allOf b))
    (later (properties a) (properties b))
    (later (required a) (required b))
    (later (additionalProperties a) (additionalProperties b))
    (later (items a) (items b))
    (later (prefixItems a) (prefixItems b))
    (later (minItems a) (minItems b))
    (later (maxItems a) (maxItems b))
    (later (uniqueItems a) (uniqueItems b))
    (later (minLength a) (minLength b))
    (later (maxLength a) (maxLength b))
    (later (pattern a) (pattern b))
    (later (contentEncoding a) (contentEncoding b))
    (later (minimum a) (minimum b))
    (later (maximum a) (maximum b))
    (later (exclusiveMinimum a) (exclusiveMinimum b))
    (later (exclusiveMaximum a) (exclusiveMaximum b))
    (later (multipleOf a) (multipleOf b))
    (later (readOnly a) (readOnly b)).

(** [Object.keys(n)] *)
Definition key {A : Type} (name : string) (field : option A) : list string :=
  match field with
  | Some _ => [name]
  | None => []
  end.

Definition ownKeys (n : SchemaObject) : list string :=
  key "type" (type n)
  ++ key "format" (format n)
  ++ key "description" (description n)
  ++ key "default" (default n)
  ++ key "const" (const n)
  ++ key "enum" (enum n)
  ++ key "not" (not_ n)
  ++ key "anyOf" (anyOf n)
  ++ key "allOf" (allOf n)
  ++ key "properties" (properties n)
  ++ key "required" (required n)
  ++ key "additionalProperties" (additionalProperties n)
  ++ key "items" (items n)
  ++ key "prefixItems" (prefixItems n)
  ++ key "minItems" (minItems n)
  ++ key "maxItems" (maxItems n)
  ++ key "uniqueItems" (uniqueItems n)
  ++ key "minLength" (minLength n)
  ++ key "maxLength" (maxLength n)
  ++ key "pattern" (pattern n)
  ++ key "contentEncoding" (contentEncoding n)
  ++ key "minimum" (minimum n)
  ++ key "maximum" (maximum n)
  ++ key "exclusiveMinimum" (exclusiveMinimum n)
  ++ key "exclusiveMaximum" (exclusiveMaximum n)
  ++ key "multipleOf" (multipleOf n)
  ++ key "readOnly" (readOnly n).

(** [Object.keys(n).length > 0] *)
Definition hasKeys (n : SchemaObject) : bool :=
  (0 <? List.length (ownKeys n))%nat.

(** The own property [k] of an object defined or overwritten with [v]:
    an existing key keeps its place, a new key comes last. *)
Fixpoint setProperty (k : string) (v : SchemaObject) (ps : list (string * SchemaObject))
  : list (string * SchemaObject) :=
  match ps with
  | [] => [(k, v)]
  | (k', v') :: rest =>
      if k' =? k then (k', v) :: rest else (k', v') :: setProperty k v rest
  end.

(** The assignment [properties[key] = value] on an object created by
    the literal [{}].  For the key [__proto__] the assignment reaches
    the accessor of [Object.prototype]: it replaces the prototype of
    [properties] and creates no own key, so the own keys are left as
    they are.  Every other key becomes an own property. *)
Definition assignProperty (k : string) (v : SchemaObject)
    (ps : list (string * SchemaObject)) : list (string * SchemaObject) :=
  if k =? "__proto__" then ps else setProperty k v ps.

(** [n.default === undefined] *)
Definition defaultIsUndefined (n : SchemaObject) : bool :=
  match default n with
  | None => true
  | Some v => isUndefined v
  end.

(** The list of required names of a node, empty when the key is absent. *)
Definition requiredNames (n : SchemaObject) : list string :=
  match required n with
  | Some names => names
  | None => []
  end.

End OpenAPI.

(* ================================================================== *)
(** ** The Zod adapter ([src/adapters/zod.ts]) *)
(* ================================================================== *)

Module Zod.
Import JS OpenAPI.

(** [Required<ZodToOpenAPIOptions>] *)
Record Options : Type := mkOptions {
  includeDescriptions : bool;
  includeDefaults : bool;
  maxDepth : Z }.

(** [ZodToOpenAPIOptions]: every member may be left out. *)
Record ZodToOpenAPIOptions : Type := mkZodToOpenAPIOptions {
  includeDescriptions_opt : option bool;
  includeDefaults_opt : option bool;
  maxDepth_opt : option Z }.

(** The entries of [_def.checks] of a string schema, by [kind]. *)
Inductive ZodStringCheck : Type :=
| CheckMin (value : JSValue)
| CheckMax (value : JSValue)
| CheckLength (value : JSValue)
| CheckRegex (regex : RegExp)
| CheckEmail
| CheckUrl
| CheckUuid
| CheckCuid
| CheckCuid2
| CheckUlid
| CheckDatetime
| CheckDate
| CheckTime
| CheckDuration
| CheckIp
| CheckEmoji
| CheckBase64
| CheckStartsWith (value : string)
| CheckEndsWith (value : string)
| CheckIncludes (value : string)
| CheckToLowerCase
| CheckToUpperCase
| CheckTrim
| CheckOtherKind (kind : string).

(** The entries of [_def.checks] of a number schema, by [kind]. *)
Inductive ZodNumberCheck : Type :=
| NumInt
| NumMin (value : JSValue) (inclusive : bool)
| NumMax (value : JSValue) (inclusive : bool)
| NumMultipleOf (value : JSValue)
| NumFinite
| NumOtherKind (kind : string).

(** The [_def] of a schema, by [typeName], with the members the adapter
    reads.  [T] is the type of schemas.  [ZodOther] stands for a [_def]
    whose [typeName] is none of the first-party names (or is missing):
    the adapter reads no other member of it. *)
Inductive ZodDef (T : Type) : Type :=
| ZodString (checks : list ZodStringCheck)
| ZodNumber (checks : list ZodNumberCheck)
| ZodBigInt
| ZodBoolean
| ZodNull
| ZodUndefined
| ZodLiteral (value : JSValue)
| ZodEnum (values : list JSValue)
| ZodNativeEnum (values : list (string * JSValue))
| ZodObject (shape : option (list (string * T))) (unknownKeys : option string)
            (catchall : option T)
| ZodArray (type : option T) (minLength maxLength exactLength : option JSValue)
| ZodTuple (items : list T) (rest : option T)
| ZodUnion (options : list T)
| ZodDiscriminatedUnion (options : list T)
| ZodIntersection (left right : T)
| ZodOptional (innerType : T)
| ZodNullable (innerType : T)
| ZodDefault (innerType : T) (defaultValue : JSValue)
| ZodCatch (innerType : T)
| ZodBranded (type : T)
| ZodReadonly (innerType : T)
| ZodRecord (valueType : option T)
| ZodMap
| ZodSet (valueType : option T)
| ZodFunction
| ZodLazy
| ZodPromise
| ZodUnknown
| ZodAny
| ZodNever
| ZodVoid
| ZodDate
| ZodSymbol
| ZodPipeline (in_ : T)
| ZodEffects (schema : T)
| ZodOther (typeName : string).

Arguments ZodString {T}. Arguments ZodNumber {T}. Arguments ZodBigInt {T}.
Arguments ZodBoolean {T}. Arguments ZodNull {T}. Arguments ZodUndefined {T}.
Arguments ZodLiteral {T}. Arguments ZodEnum {T}. Arguments ZodNativeEnum {T}.
Arguments ZodObject {T}. Arguments ZodArray {T}. Arguments ZodTuple {T}.
Arguments ZodUnion {T}. Arguments ZodDiscriminatedUnion {T}.
Arguments ZodIntersection {T}. Arguments ZodOptional {T}. Arguments ZodNullable {T}.
Arguments ZodDefault {T}. Arguments ZodCatch {T}. Arguments ZodBranded {T}.
Arguments ZodReadonly {T}. Arguments ZodRecord {T}. Arguments ZodMap {T}.
Arguments ZodSet {T}. Arguments ZodFunction {T}. Arguments ZodLazy {T}.
Arguments ZodPromise {T}. Arguments ZodUnknown {T}. Arguments ZodAny {T}.
Arguments ZodNever {T}. Arguments ZodVoid {T}. Arguments ZodDate {T}.
Arguments ZodSymbol {T}. Arguments ZodPipeline {T}. Arguments ZodEffects {T}.
Arguments ZodOther {T}.

(** A schema: [_def.description] and the tagged rest of [_def]. *)
Inductive ZodTypeAny : Type := mkZod {
  _description : option string;
  _def : ZodDef ZodTypeAny }.

(** [schema._def?.typeName ?? ''] *)
Definition typeName (schema : ZodTypeAny) : string :=
  match _def schema with
  | ZodString _ => "ZodString"
  | ZodNumber _ => "ZodNumber"
  | ZodBigInt => "ZodBigInt"
  | ZodBoolean => "ZodBoolean"
  | ZodNull => "ZodNull"
  | ZodUndefined => "ZodUndefined"
  | ZodLiteral _ => "ZodLiteral"
  | ZodEnum _ => "ZodEnum"
  | ZodNativeEnum _ => "ZodNativeEnum"
  | ZodObject _ _ _ => "ZodObject"
  | ZodArray _ _ _ _ => "ZodArray"
  | ZodTuple _ _ => "ZodTuple"
  | ZodUnion _ => "ZodUnion"
  | ZodDiscriminatedUnion _ => "ZodDiscriminatedUnion"
  | ZodIntersection _ _ => "ZodIntersection"
  | ZodOptional _ => "ZodOptional"
  | ZodNullable _ => "ZodNullable"
  | ZodDefault _ _ => "ZodDefault"
  | ZodCatch _ => "ZodCatch"
  | ZodBranded _ => "ZodBranded"
  | ZodReadonly _ => "ZodReadonly"
  | ZodRecord _ => "ZodRecord"
  | ZodMap => "ZodMap"
  | ZodSet _ => "ZodSet"
  | ZodFunction => "ZodFunction"
  | ZodLazy => "ZodLazy"
  | ZodPromise => "ZodPromise"
  | ZodUnknown => "ZodUnknown"
  | ZodAny => "ZodAny"
  | ZodNever => "ZodNever"
  | ZodVoid => "ZodVoid"
  | ZodDate => "ZodDate"
  | ZodSymbol => "ZodSymbol"
  | ZodPipeline _ => "ZodPipeline"
  | ZodEffects _ => "ZodEffects"
  | ZodOther name => name
  end.

(** The [case] labels of the [switch] in [convertZodType]. *)
Definition recognizedTypeNames : list string :=
  [ "ZodString"; "ZodNumber"; "ZodBigInt"; "ZodBoolean"; "ZodNull"; "ZodUndefined";
    "ZodLiteral"; "ZodEnum"; "ZodNativeEnum"; "ZodObject"; "ZodArray"; "ZodTuple";
    "ZodUnion"; "ZodDiscriminatedUnion"; "ZodIntersection"; "ZodOptional"; "ZodNullable";
    "ZodDefault"; "ZodCatch"; "ZodBranded"; "ZodReadonly"; "ZodRecord"; "ZodMap"; "ZodSet";
    "ZodFunction"; "ZodLazy"; "ZodPromise"; "ZodUnknown"; "ZodAny"; "ZodNever"; "ZodVoid";
    "ZodDate"; "ZodSymbol"; "ZodPipeline"; "ZodEffects" ].

(** Whether a type name is one of the [case] labels; any other name
    selects the [default] arm. *)
Definition isRecognized (name : string) : bool :=
  existsb (String.eqb name) recognizedTypeNames.

(** [escapeRegex]: every character of the class of regex specials is
    preceded by a backslash. *)
Definition backslash : ascii := ascii_of_nat 92.

Definition regexSpecials : list ascii :=
  list_ascii_of_string ".*+?^${}()|[]" ++ [backslash].

Fixpoint escapeRegex (str : string) : string :=
  match str with
  | EmptyString => EmptyString
  | String c rest =>
      if existsb (Ascii.eqb c) regexSpecials
      then String backslash (String c (escapeRegex rest))
      else String c (escapeRegex rest)
  end.

(** One iteration of the loop over the checks in [convertZodString]. *)
Definition stringCheck (result : SchemaObject) (check : ZodStringCheck) : SchemaObject :=
  match check with
  | CheckMin value => result |> with_minLength value
  | CheckMax value => result |> with_maxLength value
  | CheckLength value => result |> with_minLength value |> with_maxLength value
  | CheckRegex regex => result |> with_pattern (source regex)
  | CheckEmail => result |> with_format "email"
  | CheckUrl => result |> with_format "uri"
  | CheckUuid => result |> with_format "uuid"
  | CheckCuid | CheckCuid2 | CheckUlid => result
  | CheckDatetime => result |> with_format "date-time"
  | CheckDate => result |> with_format "date"
  | CheckTime => result |> with_format "time"
  | CheckDuration => result |> with_format "duration"
  | CheckIp => result
  | CheckEmoji => result
  | CheckBase64 => result |> with_contentEncoding "base64"
  | CheckStartsWith value => result |> with_pattern ("^" ++ escapeRegex value)
  | CheckEndsWith value => result |> with_pattern (escapeRegex value ++ "$")
  | CheckIncludes value => result |> with_pattern (escapeRegex value)
  | CheckToLowerCase | CheckToUpperCase | CheckTrim => result
  | CheckOtherKind _ => result
  end.

(** [convertZodString], [convertZodNumber] and the converters of
    composite schemas below receive the members of [schema._def] that
    they read, in place of [schema]. *)
Definition convertZodString (checks : list ZodStringCheck) : SchemaObject :=
  let result := emptySchema |> with_type (TypeName "string") in
  fold_left stringCheck checks result.

(** One iteration of the loop in [convertZodNumber]; the state is
    [isInteger] and [result]. *)
Definition numberCheck (state : bool * SchemaObject) (check : ZodNumberCheck)
  : bool * SchemaObject :=
  let '(isInteger, result) := state in
  match check with
  | NumInt => (true, result)
  | NumMin value inclusive =>
      if inclusive
      then (isInteger, result |> with_minimum value)
      else (isInteger, result |> with_exclusiveMinimum value)
  | NumMax value inclusive =>
      if inclusive
      then (isInteger, result |> with_maximum value)
      else (isInteger, result |> with_exclusiveMaximum value)
  | NumMultipleOf value => (isInteger, result |> with_multipleOf value)
  | NumFinite => (isInteger, result)
  | NumOtherKind _ => (isInteger, result)
  end.

Definition convertZodNumber (checks : list ZodNumberCheck) : SchemaObject :=
  let '(isInteger, result) := fold_left numberCheck checks (false, emptySchema) in
  result |> with_type (TypeName (if isInteger then "integer" else "number")).

Definition isZodOptional (schema : ZodTypeAny) : bool :=
  let typeName := typeName schema in
  if typeName =? "ZodOptional" then true
  else if typeName =? "ZodDefault" then true
  else false.

Definition unwrapZodOptional (schema : ZodTypeAny) : ZodTypeAny :=
  match _def schema with
  | ZodOptional innerType => innerType
  | ZodDefault innerType _ => innerType
  | _ => schema
  end.

(** [schema._def?.defaultValue?.()] *)
Definition callDefaultValue (schema : ZodTypeAny) : JSValue :=
  match _def schema with
  | ZodDefault _ defaultValue => defaultValue
  | _ => JUndefined
  end.

(** The values of a native enum, string members preferred. *)
Definition nativeEnumValues (values : list (string * JSValue)) : list JSValue :=
  let nativeEnumValues := map snd values in
  let stringValues := filter (fun v => typeof v =? "string") nativeEnumValues in
  let numValues := filter (fun v => typeof v =? "number") nativeEnumValues in
  if (0 <? List.length stringValues)%nat then stringValues else numValues.

(** The description collected before the dispatch. *)
Definition collected (opts : Options) (schema : ZodTypeAny) : SchemaObject :=
  match _description schema with
  | Some d =>
      if includeDescriptions opts && truthyString d
      then emptySchema |> with_description d
      else emptySchema
  | None => emptySchema
  end.

(** The converters of composite schemas call back into [convertZodType];
    they are written over the callee [convert]. *)
Section Composite.
Variable convert : ZodTypeAny -> Options -> Z -> SchemaObject.

(** One iteration of the loop over [Object.entries(shape)]; the state
    is [properties] and [required]. *)
Definition objectField (opts : Options) (depth : Z)
    (state : list (string * SchemaObject) * list string)
    (entry : string * ZodTypeAny) : list (string * SchemaObject) * list string :=
  let '(properties, required) := state in
  let '(key, fieldSchema) := entry in
  let isOptional := isZodOptional fieldSchema in
  let innerSchema := unwrapZodOptional fieldSchema in
  let converted := convert innerSchema opts (depth + 1)%Z in
  let converted :=
    if includeDefaults opts
       && (typeName fieldSchema =? "ZodDefault")
       && defaultIsUndefined converted
    then
      let defaultVal := callDefaultValue fieldSchema in
      if negb (isUndefined defaultVal)
      then converted |> with_default defaultVal
      else converted
    else converted in
  (assignProperty key converted properties,
   if negb isOptional then (required ++ [key])%list else required).

Definition convertZodObject
    (shape : option (list (string * ZodTypeAny))) (unknownKeys : option string)
    (catchall : option ZodTypeAny) (opts : Options) (depth : Z) : SchemaObject :=
  let result := emptySchema |> with_type (TypeName "object") in
  let '(properties, required) :=
    match shape with
    | Some entries => fold_left (objectField opts depth) entries ([], [])
    | None => ([], [])
    end in
  let result :=
    if (0 <? List.length properties)%nat
    then result |> with_properties properties else result in
  let result :=
    if (0 <? List.length required)%nat
    then result |> with_required required else result in
  let result :=
    match unknownKeys with
    | Some mode =>
        if mode =? "strict" then result |> with_additionalProperties (IsBool false)
        else if mode =? "passthrough"
             then result |> with_additionalProperties (IsBool true)
             else result
    | None => result
    end in
  match catchall with
  | Some c =>
      if negb (typeName c =? "ZodNever")
      then result |> with_additionalProperties (IsSchema (convert c opts (depth + 1)%Z))
      else result
  | None => result
  end.

Definition convertZodArray
    (itemSchema : option ZodTypeAny) (minLength maxLength exactLength : option JSValue)
    (opts : Options) (depth : Z) : SchemaObject :=
  let result := emptySchema |> with_type (TypeName "array") in
  let result :=
    match itemSchema with
    | Some item => result |> with_items (IsSchema (convert item opts (depth + 1)%Z))
    | None => result
    end in
  match exactLength with
  | Some exact => result |> with_minItems exact |> with_maxItems exact
  | None =>
      let result :=
        match minLength with
        | Some m => result |> with_minItems m
        | None => result
        end in
      match maxLength with
      | Some m => result |> with_maxItems m
      | None => result
      end
  end.

Definition convertZodTuple
    (items : list ZodTypeAny) (rest : option ZodTypeAny)
    (opts : Options) (depth : Z) : SchemaObject :=
  let result :=
    emptySchema
    |> with_type (TypeName "array")
    |> with_prefixItems (map (fun item => convert item opts (depth + 1)%Z) items) in
  let result :=
    match rest with
    | Some r => result |> with_items (IsSchema (convert r opts (depth + 1)%Z))
    | None => result |> with_items (IsBool false)
    end in
  let result := result |> with_minItems (lengthOf items) in
  match rest with
  | Some _ => result
  | None => result |> with_maxItems (lengthOf items)
  end.
End Composite.

(** [inner.type && typeof inner.type === 'string'], giving the name. *)
Definition scalarType (n : SchemaObject) : option string :=
  match OpenAPI.type n with
  | Some (TypeName t) => if truthyString t then Some t else None
  | _ => None
  end.

Fixpoint convertZodType (schema : ZodTypeAny) (opts : Options) (depth : Z) {struct schema}
  : SchemaObject :=
  if (depth >? maxDepth opts)%Z then emptySchema else
  let result := collected opts schema in
  match _def schema with
  | ZodString checks => spread result (convertZodString checks)
  | ZodNumber checks => spread result (convertZodNumber checks)
  | ZodBigInt => result |> with_type (TypeName "integer") |> with_format "int64"
  | ZodBoolean => result |> with_type (TypeName "boolean")
  | ZodNull => result |> with_type (TypeName "null")
  | ZodUndefined => result |> with_not emptySchema
  | ZodLiteral value => result |> with_const value
  | ZodEnum values => result |> with_type (TypeName "string") |> with_enum values
  | ZodNativeEnum values => result |> with_enum (nativeEnumValues values)
  | ZodObject shape unknownKeys catchall =>
      spread result (convertZodObject convertZodType shape unknownKeys catchall opts depth)
  | ZodArray itemSchema minLength maxLength exactLength =>
      spread result
        (convertZodArray convertZodType itemSchema minLength maxLength exactLength opts depth)
  | ZodTuple items rest =>
      spread result (convertZodTuple convertZodType items rest opts depth)
  | ZodUnion options_ | ZodDiscriminatedUnion options_ =>
      result |> with_anyOf (map (fun o => convertZodType o opts (depth + 1)%Z) options_)
  | ZodIntersection l r =>
      let left := convertZodType l opts (depth + 1)%Z in
      let right := convertZodType r opts (depth + 1)%Z in
      result |> with_allOf [left; right]
  | ZodOptional innerType =>
      let inner := convertZodType innerType opts (depth + 1)%Z in
      spread result inner
  | ZodNullable innerType =>
      let inner := convertZodType innerType opts (depth + 1)%Z in
      match scalarType inner with
      | Some t => spread result inner |> with_type (TypeNames [t; "null"])
      | None =>
          result |> with_anyOf [inner; emptySchema |> with_type (TypeName "null")]
      end
  | ZodDefault innerType defaultVal =>
      let inner := convertZodType innerType opts (depth + 1)%Z in
      let out := spread result inner in
      if includeDefaults opts && negb (isUndefined defaultVal)
      then out |> with_default defaultVal
      else out
  | ZodCatch innerType => convertZodType innerType opts (depth + 1)%Z
  | ZodBranded type => convertZodType type opts (depth + 1)%Z
  | ZodReadonly innerType =>
      let inner := convertZodType innerType opts (depth + 1)%Z in
      spread result inner |> with_readOnly true
  | ZodRecord valueSchema =>
      let out := result |> with_type (TypeName "object") in
      match valueSchema with
      | Some v =>
          out |> with_additionalProperties (IsSchema (convertZodType v opts (depth + 1)%Z))
      | None => out |> with_additionalProperties (IsBool true)
      end
  | ZodMap => result |> with_type (TypeName "object")
  | ZodSet valueSchema =>
      let out := result |> with_type (TypeName "array") |> with_uniqueItems true in
      match valueSchema with
      | Some v => out |> with_items (IsSchema (convertZodType v opts (depth + 1)%Z))
      | None => out
      end
  | ZodFunction | ZodLazy | ZodPromise | ZodUnknown | ZodAny => result
  | ZodNever => result |> with_not emptySchema
  | ZodVoid => result |> with_type (TypeName "null")
  | ZodDate => result |> with_type (TypeName "string") |> with_format "date-time"
  | ZodSymbol => result |> with_type (TypeName "string")
  | ZodPipeline input => convertZodType input opts (depth + 1)%Z
  | ZodEffects inner => convertZodType inner opts (depth + 1)%Z
  | ZodOther _ => result
  end.

(** The public entry point. *)
Definition zodToOpenAPI (schema : ZodTypeAny) (options : ZodToOpenAPIOptions)
  : SchemaObject :=
  let opts :=
    mkOptions
      (match includeDescriptions_opt options with Some b => b | None => true end)
      (match includeDefaults_opt options with Some b => b | None => true end)
      (match maxDepth_opt options with Some d => d | None => 20%Z end) in
  convertZodType schema opts 0%Z.

End Zod.

(* ================================================================== *)
(** ** The Joi adapter ([src/adapters/joi.ts]) *)
(* ================================================================== *)

Module Joi.
Import JS OpenAPI.

(** [Required<JoiToOpenAPIOptions>] *)
Record Options : Type := mkOptions {
  includeDescriptions : bool;
  includeDefaults : bool;
  maxDepth : Z }.

(** [JoiToOpenAPIOptions]: every member may be left out. *)
Record JoiToOpenAPIOptions : Type := mkJoiToOpenAPIOptions {
  includeDescriptions_opt : option bool;
  includeDefaults_opt : option bool;
  maxDepth_opt : option Z }.

(** [JoiFlags], with the members the adapter reads.  [default] is
    [undefined] when the flag is absent. *)
Record JoiFlags : Type := mkFlags {
  presence : option string;
  default : JSValue;
  description : option string;
  only : option bool;
  allowUnknown : option bool;
  unknown : option bool }.

(** [rule.args], with the members the adapter reads; a member is
    [undefined] when absent.  [value] is the schema description carried
    by an object [pattern] rule.  [D] is the type of descriptions. *)
Record JoiRuleArgs (D : Type) : Type := mkArgs {
  limit : JSValue;
  base : JSValue;
  version : JSValue;
  regex : JSValue;
  value : option D }.
Arguments mkArgs {D}. Arguments limit {D}. Arguments base {D}.
Arguments version {D}. Arguments regex {D}. Arguments value {D}.

Record JoiRule (D : Type) : Type := mkRule {
  name : string;
  args : option (JoiRuleArgs D) }.
Arguments mkRule {D}. Arguments name {D}. Arguments args {D}.

(** [JoiAlternativeMatch]; the adapter reads [schema] only. *)
Record JoiAlternativeMatch (D : Type) : Type := mkMatch {
  schema : option D }.
Arguments mkMatch {D}. Arguments schema {D}.

(** [JoiDescription], the output of [describe()]. *)
Inductive JoiDescription : Type := mkDescription {
  type : string;
  flags : option JoiFlags;
  rules : option (list (JoiRule JoiDescription));
  keys : option (list (string * JoiDescription));
  items : option (list JoiDescription);
  ordered : option (list JoiDescription);
  matches : option (list (JoiAlternativeMatch JoiDescription));
  allow : option (list JSValue) }.

(** [rule.args ?? {}] *)
Definition noArgs {D : Type} : JoiRuleArgs D :=
  mkArgs JUndefined JUndefined JUndefined JUndefined None.

Definition argsOf {D : Type} (rule : JoiRule D) : JoiRuleArgs D :=
  match args rule with
  | Some a => a
  | None => noArgs
  end.

(** [desc.flags?.description], [desc.flags?.default], [desc.flags?.only],
    [desc.flags?.presence] *)
Definition flagDescription (desc : JoiDescription) : option string :=
  match flags desc with
  | Some f => description f
  | None => None
  end.

Definition flagDefault (desc : JoiDescription) : JSValue :=
  match flags desc with
  | Some f => default f
  | None => JUndefined
  end.

Definition flagOnly (desc : JoiDescription) : bool :=
  match flags desc with
  | Some f => match only f with Some b => b | None => false end
  | None => false
  end.

Definition flagPresence (desc : JoiDescription) : option string :=
  match flags desc with
  | Some f => presence f
  | None => None
  end.

(** [desc.flags?.allowUnknown ?? desc.flags?.unknown] *)
Definition flagAllowUnknown (desc : JoiDescription) : option bool :=
  match flags desc with
  | Some f =>
      match allowUnknown f with
      | Some b => Some b
      | None => unknown f
      end
  | None => None
  end.

(** [text.includes(v)] on a string: [v] occurs in [text]. *)
Fixpoint includesText (v text : string) : bool :=
  String.prefix v text
  || match text with
     | EmptyString => false
     | String _ rest => includesText v rest
     end.

(** [versions?.includes(v)] for the string [v].  [undefined] and [null]
    stop at the optional chaining; an array is searched for an element
    equal to [v], a string for an occurrence of [v].  The declared type
    of [args.version] is [string[] | undefined]: a value of any other
    kind has no [includes] method and lies outside the inputs of the
    adapter. *)
Definition includesString (versions : JSValue) (v : string) : bool :=
  match versions with
  | JArray elements =>
      existsb (fun e => match e with JString s => s =? v | _ => false end) elements
  | JString text => includesText v text
  | _ => false
  end.

(** The regular expression that strips the delimiters of a serialized
    regex (slash, greedy body, slash, flag letters among g i m s u y,
    anchored at both ends) applied to a string: the text between the
    leading slash and the last slash, when what follows the last slash
    is made of flag letters and the text has no line terminator.
    Strings are read as UTF-8. *)
Fixpoint splitLast (sep : ascii) (s : string) : option (string * string) :=
  match s with
  | EmptyString => None
  | String c rest =>
      match splitLast sep rest with
      | Some (before, after) => Some (String c before, after)
      | None => if Ascii.eqb c sep then Some (EmptyString, rest) else None
      end
  end.

Fixpoint allFlagLetters (s : string) : bool :=
  match s with
  | EmptyString => true
  | String c rest =>
      existsb (Ascii.eqb c) (list_ascii_of_string "gimsuy") && allFlagLetters rest
  end.

Fixpoint hasLineTerminator (s : string) : bool :=
  match s with
  | EmptyString => false
  | String c rest =>
      let n := nat_of_ascii c in
      if (n =? 10)%nat || (n =? 13)%nat then true
      else
        match rest with
        | String c1 (String c2 _) =>
            if (n =? 226)%nat && (nat_of_ascii c1 =? 128)%nat
               && ((nat_of_ascii c2 =? 168)%nat || (nat_of_ascii c2 =? 169)%nat)
            then true
            else hasLineTerminator rest
        | _ => hasLineTerminator rest
        end
  end.

Definition slash : ascii := ascii_of_nat 47.

Definition execDelimited (regex : string) : option string :=
  match regex with
  | String c rest =>
      if Ascii.eqb c slash then
        match splitLast slash rest with
        | Some (body, letters) =>
            if allFlagLetters letters && negb (hasLineTerminator body)
            then Some body
            else None
        | None => None
        end
      else None
  | EmptyString => None
  end.

(** The metadata collected before the dispatch: description, default. *)
Definition collected (opts : Options) (desc : JoiDescription) : SchemaObject :=
  let result := emptySchema in
  let result :=
    match flagDescription desc with
    | Some d =>
        if includeDescriptions opts && truthyString d
        then result |> with_description d
        else result
    | None => result
    end in
  if includeDefaults opts && negb (isUndefined (flagDefault desc))
  then result |> with_default (flagDefault desc)
  else result.

(** [desc.flags?.only && Array.isArray(desc.allow) && desc.allow.length > 0] *)
Definition isEnum (desc : JoiDescription) : bool :=
  flagOnly desc
  && match allow desc with
     | Some values => (0 <? List.length values)%nat
     | None => false
     end.

(** [Array.isArray(desc.allow) && desc.allow.includes(null)] *)
Definition hasNullAllow (desc : JoiDescription) : bool :=
  match allow desc with
  | Some values => existsb isNull values
  | None => false
  end.

(** The node returned for an enum. *)
Definition convertEnum (result : SchemaObject) (values : list JSValue) : SchemaObject :=
  let enumValues := filter (fun v => negb (isNull v)) values in
  let hasNull := existsb isNull values in
  if hasNull
  then result |> with_enum values
  else result |> with_enum enumValues.

(** One iteration of the loop over the rules in [convertString]. *)
Definition stringRule {D : Type} (result : SchemaObject) (rule : JoiRule D)
  : SchemaObject :=
  let args := argsOf rule in
  let name := name rule in
  if name =? "min" then result |> with_minLength (limit args)
  else if name =? "max" then result |> with_maxLength (limit args)
  else if name =? "length"
  then result |> with_minLength (limit args) |> with_maxLength (limit args)
  else if name =? "email" then result |> with_format "email"
  else if name =? "uri" then result |> with_format "uri"
  else if (name =? "guid") || (name =? "uuid") then result |> with_format "uuid"
  else if name =? "isoDate" then result |> with_format "date-time"
  else if name =? "isoDuration" then result |> with_format "duration"
  else if name =? "hostname" then result |> with_format "hostname"
  else if name =? "ip" then
    let versions := version args in
    if includesString versions "ipv6" && negb (includesString versions "ipv4")
    then result |> with_format "ipv6"
    else if includesString versions "ipv4" && negb (includesString versions "ipv6")
         then result |> with_format "ipv4"
         else result
  else if (name =? "pattern") || (name =? "regex") then
    match regex args with
    | JRegExp r => result |> with_pattern (source r)
    | JString text =>
        match execDelimited text with
        | Some body => result |> with_pattern body
        | None => result |> with_pattern text
        end
    | _ => result
    end
  else if name =? "alphanum" then result |> with_pattern "^[a-zA-Z0-9]*$"
  else if name =? "token" then result |> with_pattern "^[a-zA-Z0-9_]*$"
  else if name =? "hex" then result |> with_pattern "^[a-fA-F0-9]*$"
  else if name =? "base64" then result |> with_contentEncoding "base64"
  else if name =? "dataUri" then result |> with_pattern "^data:.*;base64,"
  else if name =? "creditCard" then result
  else if name =? "case" then result
  else if name =? "trim" then result
  else result.

Definition convertString (desc : JoiDescription) (opts : Options) : SchemaObject :=
  let result := emptySchema |> with_type (TypeName "string") in
  let rules := match rules desc with Some rs => rs | None => [] end in
  fold_left stringRule rules result.

(** One iteration of the loop in [convertNumber]; the state is
    [isInteger] and [result]. *)
Definition numberRule {D : Type} (state : bool * SchemaObject) (rule : JoiRule D)
  : bool * SchemaObject :=
  let '(isInteger, result) := state in
  let args := argsOf rule in
  let name := name rule in
  if name =? "integer" then (true, result)
  else if name =? "min" then (isInteger, result |> with_minimum (limit args))
  else if name =? "max" then (isInteger, result |> with_maximum (limit args))
  else if name =? "greater" then (isInteger, result |> with_exclusiveMinimum (limit args))
  else if name =? "less" then (isInteger, result |> with_exclusiveMaximum (limit args))
  else if name =? "multiple" then (isInteger, result |> with_multipleOf (base args))
  else if name =? "precision" then (isInteger, result)
  else (isInteger, result).

Definition convertNumber (desc : JoiDescription) : SchemaObject :=
  let rules := match rules desc with Some rs => rs | None => [] end in
  let '(isInteger, result) := fold_left numberRule rules (false, emptySchema) in
  result |> with_type (TypeName (if isInteger then "integer" else "number")).

Definition convertBoolean (desc : JoiDescription) : SchemaObject :=
  emptySchema |> with_type (TypeName "boolean").

(** One iteration of the loop over the length rules in [convertArray]. *)
Definition arrayRule {D : Type} (result : SchemaObject) (rule : JoiRule D)
  : SchemaObject :=
  let args := argsOf rule in
  let name := name rule in
  if name =? "min" then result |> with_minItems (limit args)
  else if name =? "max" then result |> with_maxItems (limit args)
  else if name =? "length"
  then result |> with_minItems (limit args) |> with_maxItems (limit args)
  else if name =? "unique" then result |> with_uniqueItems true
  else result.

(** The entries of a list of optional values that are present
    ([.filter(s => s !== null)]). *)
Fixpoint present {A : Type} (xs : list (option A)) : list A :=
  match xs with
  | [] => []
  | Some x :: rest => x :: present rest
  | None :: rest => present rest
  end.

(** The converters of composite descriptions call back into
    [convertJoiDescription]; they are written over the callee [convert]. *)
Section Composite.
Variable convert : JoiDescription -> Options -> Z -> SchemaObject.

(** One iteration of the loop over [Object.entries(desc.keys)]; the
    state is [properties] and [required]. *)
Definition objectKey (opts : Options) (depth : Z)
    (state : list (string * SchemaObject) * list string)
    (entry : string * JoiDescription) : list (string * SchemaObject) * list string :=
  let '(properties, required) := state in
  let '(key, fieldDesc) := entry in
  let converted := convert fieldDesc opts (depth + 1)%Z in
  let presence := flagPresence fieldDesc in
  (assignProperty key converted properties,
   match presence with
   | Some p => if p =? "required" then (required ++ [key])%list else required
   | None => required
   end).

(** The value schema of each rule, converted; only the one of
    [patternRules[0]] is used by [convertObject]. *)
Definition ruleValue (opts : Options) (depth : Z) (rule : JoiRule JoiDescription)
  : string * option SchemaObject :=
  (name rule,
   match args rule with
   | Some a =>
       match value a with
       | Some valueDesc => Some (convert valueDesc opts (depth + 1)%Z)
       | None => None
       end
   | None => None
   end).

Definition convertObject (desc : JoiDescription) (opts : Options) (depth : Z)
  : SchemaObject :=
  let result := emptySchema |> with_type (TypeName "object") in
  let '(properties, required) :=
    match keys desc with
    | Some entries => fold_left (objectKey opts depth) entries ([], [])
    | None => ([], [])
    end in
  let result :=
    if (0 <? List.length properties)%nat
    then result |> with_properties properties else result in
  let result :=
    if (0 <? List.length required)%nat
    then result |> with_required required else result in
  let result :=
    match flagAllowUnknown desc with
    | Some false => result |> with_additionalProperties (IsBool false)
    | _ => result
    end in
  let patternRules :=
    match rules desc with
    | Some rs => filter (fun r => fst r =? "pattern") (map (ruleValue opts depth) rs)
    | None => []
    end in
  match patternRules with
  | (_, Some converted) :: _ => result |> with_additionalProperties (IsSchema converted)
  | _ => result
  end.

(** The statements of [convertArray] that follow the ordered case:
    the items, then the loop over the length rules. *)
Definition plainArray (desc : JoiDescription) (opts : Options) (depth : Z)
  : SchemaObject :=
  let result := emptySchema |> with_type (TypeName "array") in
  let result :=
    match items desc with
    | Some [] => result
    | Some [item] => result |> with_items (IsSchema (convert item opts (depth + 1)%Z))
    | Some its =>
        result
        |> with_items
             (IsSchema
                (emptySchema
                 |> with_anyOf (map (fun item => convert item opts (depth + 1)%Z) its)))
    | None => result
    end in
  match rules desc with
  | Some rs => fold_left arrayRule rs result
  | None => result
  end.

Definition convertArray (desc : JoiDescription) (opts : Options) (depth : Z)
  : SchemaObject :=
  let result := emptySchema |> with_type (TypeName "array") in
  match ordered desc with
  | Some slots =>
      if (0 <? List.length slots)%nat
      then
        result
        |> with_prefixItems (map (fun item => convert item opts (depth + 1)%Z) slots)
        |> with_items (IsBool false)
        |> with_minItems (lengthOf slots)
        |> with_maxItems (lengthOf slots)
      else plainArray desc opts depth
  | None => plainArray desc opts depth
  end.

Definition convertAlternatives (desc : JoiDescription) (opts : Options) (depth : Z)
  : SchemaObject :=
  let schemas :=
    match matches desc with
    | Some ms =>
        present
          (map (fun m =>
                  match schema m with
                  | Some s => Some (convert s opts (depth + 1)%Z)
                  | None => None
                  end) ms)
    | None => []
    end in
  match schemas with
  | [] => emptySchema
  | [only] => only
  | _ => emptySchema |> with_anyOf schemas
  end.

(** The [switch] on [desc.type]. *)
Definition typeSchema (desc : JoiDescription) (opts : Options) (depth : Z)
  : SchemaObject :=
  let type := type desc in
  if type =? "string" then convertString desc opts
  else if type =? "number" then convertNumber desc
  else if type =? "boolean" then convertBoolean desc
  else if type =? "object" then convertObject desc opts depth
  else if type =? "array" then convertArray desc opts depth
  else if type =? "alternatives" then convertAlternatives desc opts depth
  else if type =? "date"
  then emptySchema |> with_type (TypeName "string") |> with_format "date-time"
  else if type =? "binary"
  then emptySchema |> with_type (TypeName "string") |> with_contentEncoding "base64"
  else if type =? "any" then emptySchema
  else emptySchema.

(** [{ ...result, ...typeSchema }] *)
Definition combinedSchema (desc : JoiDescription) (opts : Options) (depth : Z)
  : SchemaObject :=
  spread (collected opts desc) (typeSchema desc opts depth).
End Composite.

(** The [case] labels of the [switch] in [convertJoiDescription]. *)
Definition recognizedTypes : list string :=
  [ "string"; "number"; "boolean"; "object"; "array"; "alternatives"; "date";
    "binary"; "any" ].

(** The node [{ anyOf: [rest, { type: 'null' }] }]. *)
Definition orNull (rest : SchemaObject) : SchemaObject :=
  emptySchema |> with_anyOf [rest; emptySchema |> with_type (TypeName "null")].

(** The statements that follow [combined] when [allow] holds [null] and
    the description is not an enum. *)
Definition applyNullable (combined : SchemaObject) : SchemaObject :=
  let wrapWhenTypeless :=
    if hasKeys combined then orNull combined else combined in
  match OpenAPI.type combined with
  | Some (TypeName t) =>
      if truthyString t
      then combined |> with_type (TypeNames [t; "null"])
      else wrapWhenTypeless
  | Some (TypeNames ts) =>
      if negb (existsb (String.eqb "null") ts)
      then combined |> with_type (TypeNames (ts ++ ["null"]))
      else combined
  | None => wrapWhenTypeless
  end.

Fixpoint convertJoiDescription (desc : JoiDescription) (opts : Options) (depth : Z)
  {struct desc} : SchemaObject :=
  if (depth >? maxDepth opts)%Z then emptySchema else
  let result := collected opts desc in
  if isEnum desc then
    match allow desc with
    | Some values => convertEnum result values
    | None => result
    end
  else
    let hasNullAllow := hasNullAllow desc in
    let combined := combinedSchema convertJoiDescription desc opts depth in
    if hasNullAllow && negb (flagOnly desc)
    then applyNullable combined
    else combined.

(** The public entry points. *)
Definition joiDescriptionToOpenAPI (description : JoiDescription)
    (options : JoiToOpenAPIOptions) : SchemaObject :=
  let opts :=
    mkOptions
      (match includeDescriptions_opt options with Some b => b | None => true end)
      (match includeDefaults_opt options with Some b => b | None => true end)
      (match maxDepth_opt options with Some d => d | None => 20%Z end) in
  convertJoiDescription description opts 0%Z.

End Joi.

(* ================================================================== *)
(** ** The schema resolver ([src/builder/_zodResolver.ts]) *)
(* ================================================================== *)

Module Resolver.
Import JS OpenAPI.

(** The JavaScript object that a schema node is. *)
Definition entry {A : Type} (name : string) (encode : A -> JSValue) (field : option A)
  : list (string * JSValue) :=
  match field with
  | Some v => [(name, encode v)]
  | None => []
  end.

Definition valueOfType (t : SchemaType) : JSValue :=
  match t with
  | TypeName name => JString name
  | TypeNames names => JArray (map JString names)
  end.

Fixpoint valueOfSchema (n : SchemaObject) : JSValue :=
  let schemas (l : list SchemaObject) := JArray (map valueOfSchema l) in
  let boolOr (b : BoolOr SchemaObject) :=
    match b with
    | IsBool flag => JBoolean flag
    | IsSchema s => valueOfSchema s
    end in
  let id (v : JSValue) := v in
  JObject
    (entry "type" valueOfType (type n)
     ++ entry "format" JString (format n)
     ++ entry "description" JString (description n)
     ++ entry "default" id (default n)
     ++ entry "const" id (const n)
     ++ entry "enum" JArray (enum n)
     ++ entry "not" valueOfSchema (not_ n)
     ++ entry "anyOf" schemas (anyOf n)
     ++ entry "allOf" schemas (allOf n)
     ++ entry "properties"
          (fun ps => JObject (map (fun p => (fst p, valueOfSchema (snd p))) ps))
          (properties n)
     ++ entry "required" (fun names => JArray (map JString names)) (required n)
     ++ entry "additionalProperties" boolOr (additionalProperties n)
     ++ entry "items" boolOr (items n)
     ++ entry "prefixItems" schemas (prefixItems n)
     ++ entry "minItems" id (minItems n)
     ++ entry "maxItems" id (maxItems n)
     ++ entry "uniqueItems" JBoolean (uniqueItems n)
     ++ entry "minLength" id (minLength n)
     ++ entry "maxLength" id (maxLength n)
     ++ entry "pattern" JString (pattern n)
     ++ entry "contentEncoding" JString (contentEncoding n)
     ++ entry "minimum" id (minimum n)
     ++ entry "maximum" id (maximum n)
     ++ entry "exclusiveMinimum" id (exclusiveMinimum n)
     ++ entry "exclusiveMaximum" id (exclusiveMaximum n)
     ++ entry "multipleOf" id (multipleOf n)
     ++ entry "readOnly" JBoolean (readOnly n))%list.

(** [isZodSchema] of [src/builder/SchemaBuilder.ts]. *)
Definition isZodSchema (value : JSValue) : bool :=
  (typeof value =? "object")
  && negb (isNull value)
  && hasMember "_def" value
  && hasMember "parse" value
  && (typeof (member "parse" value) =? "function").

(** Modelled from the spec: [isJoiSchema] of [src/builder/SchemaBuilder.ts]
    is imported by the resolver but its definition is not part of the
    sources at hand.  The specification describes it as duck typing on a
    callable [describe] member. *)
Definition isJoiSchema (value : JSValue) : bool :=
  (typeof value =? "object")
  && negb (isNull value)
  && (typeof (member "describe" value) =? "function").

Section ResolveSchemaInput.
(** The schema that a value classified as a Zod schema is (the cast
    [schema as ZodSchema]), and the result of calling [describe()] on a
    value classified as a Joi schema. *)
Variable asZodSchema : JSValue -> Zod.ZodTypeAny.
Variable describe : JSValue -> Joi.JoiDescription.

Definition noZodOptions : Zod.ZodToOpenAPIOptions :=
  Zod.mkZodToOpenAPIOptions None None None.

Definition noJoiOptions : Joi.JoiToOpenAPIOptions :=
  Joi.mkJoiToOpenAPIOptions None None None.

(** [joiToOpenAPI(schema)] *)
Definition joiToOpenAPI (schema : JSValue) (options : Joi.JoiToOpenAPIOptions)
  : SchemaObject :=
  Joi.joiDescriptionToOpenAPI (describe schema) options.

Definition resolveSchemaInput (schema : JSValue) : JSValue :=
  if typeof schema =? "string" then JObject [("$ref", schema)]
  else if isZodSchema schema
  then valueOfSchema (Zod.zodToOpenAPI (asZodSchema schema) noZodOptions)
  else if isJoiSchema schema
  then valueOfSchema (joiToOpenAPI schema noJoiOptions)
  else schema.
End ResolveSchemaInput.

End Resolver.

(* ================================================================== *)
(** ** The fluent builder: src/builder/SchemaBuilder.ts *)
(* ================================================================== *)

(** A [SchemaBuilder] holds one schema object, [this._schema], and
    every method returns a new builder; a builder is modelled by the
    node it holds, restricted to the keys of [SchemaObject]. *)
Module Builder.
Import JS OpenAPI.

(** [property(name, schema, required)] *)
Definition property (name : string) (schema : SchemaObject) (required : bool)
    (this : SchemaObject) : SchemaObject :=
  let properties :=
    setProperty name schema
      match OpenAPI.properties this with
      | Some entries => entries
      | None => []
      end in
  let requiredList :=
    match OpenAPI.required this with
    | Some names => names
    | None => []
    end in
  let requiredList :=
    if required && negb (existsb (String.eqb name) requiredList)
    then (requiredList ++ [name])%list
    else requiredList in
  let out := this |> with_properties properties in
  if (0 <? List.length requiredList)%nat
  then out |> with_required requiredList
  else out.

(** [nullable()] *)
Definition nullable (this : SchemaObject) : SchemaObject :=
  match OpenAPI.type this with
  | Some (TypeName current) => this |> with_type (TypeNames [current; "null"])
  | _ => this |> with_anyOf [this; emptySchema |> with_type (TypeName "null")]
  end.

End Builder.

(* ================================================================== *)
(** ** Properties *)
(* ================================================================== *)

Import JS OpenAPI.

(** *** Vocabulary of the statements *)

(** The default options of both adapters. *)
Definition zodDefaults : Zod.Options := Zod.mkOptions true true 20.
Definition joiDefaults : Joi.Options := Joi.mkOptions true true 20.

Definition zod (def : Zod.ZodDef Zod.ZodTypeAny) : Zod.ZodTypeAny := Zod.mkZod None def.
Definition zodDescribed (text : string) (def : Zod.ZodDef Zod.ZodTypeAny)
  : Zod.ZodTypeAny := Zod.mkZod (Some text) def.

Definition joi (type : string) : Joi.JoiDescription :=
  Joi.mkDescription type None None None None None None None.
Definition joiRule (name : string) (limit : Z) : Joi.JoiRule Joi.JoiDescription :=
  Joi.mkRule name (Some (Joi.mkArgs (JNumber limit) JUndefined JUndefined JUndefined None)).
Definition joiFlag (presence : string) : Joi.JoiFlags :=
  Joi.mkFlags (Some presence) JUndefined None None None None.

(** [Object.entries(o)] of an object that may be [undefined]. *)
Definition entriesOf {A : Type} (o : option (list A)) : list A :=
  match o with
  | Some entries => entries
  | None => []
  end.

(** [fieldDesc.flags?.presence === 'required'] *)
Definition presenceRequired (fieldDesc : Joi.JoiDescription) : bool :=
  match Joi.flagPresence fieldDesc with
  | Some p => p =? "required"
  | None => false
  end.

(** The checks of a string schema that write [result.pattern]. *)
Definition isPatternCheck (check : Zod.ZodStringCheck) : bool :=
  match check with
  | Zod.CheckRegex _ | Zod.CheckStartsWith _ | Zod.CheckEndsWith _
  | Zod.CheckIncludes _ => true
  | _ => false
  end.

(** The last such check of a list, if any. *)
Definition lastPatternCheck (checks : list Zod.ZodStringCheck)
  : option Zod.ZodStringCheck :=
  fold_left (fun found check => if isPatternCheck check then Some check else found)
            checks None.

(** The pattern that one check alone produces. *)
Definition patternOfCheck (check : Zod.ZodStringCheck) : option string :=
  pattern (Zod.convertZodString [check]).

(** The node [{ type: 'null' }]. *)
Definition nullSchema : SchemaObject :=
  emptySchema |> with_type (TypeName "null").

(** A tuple node without and with a rest element: the four fields that
    describe the slots. *)
Definition closedTuple (slots : list SchemaObject) (node : SchemaObject) : Prop :=
  prefixItems node = Some slots
  /\ items node = Some (IsBool false)
  /\ minItems node = Some (lengthOf slots)
  /\ maxItems node = Some (lengthOf slots).

Definition openTuple (slots : list SchemaObject) (restNode node : SchemaObject) : Prop :=
  prefixItems node = Some slots
  /\ items node = Some (IsSchema restNode)
  /\ minItems node = Some (lengthOf slots)
  /\ maxItems node = None.

(** The output of a nullable schema as a function of the inner result
    alone: the type array when the inner result has one scalar type
    name, the [anyOf] wrap otherwise. *)
Definition nullableOf (inner : SchemaObject) : SchemaObject :=
  match Zod.scalarType inner with
  | Some t => inner |> with_type (TypeNames [t; "null"])
  | None => emptySchema |> with_anyOf [inner; nullSchema]
  end.

(** A node that carries at most the metadata keys. *)
Definition onlyMetadata (node : SchemaObject) : Prop :=
  forall k, In k (ownKeys node) -> k = "description" \/ k = "default".

(** *** Removing a metadata key from every node *)

Inductive MetaKey : Type :=
| DescriptionKey
| DefaultKey.

Definition keyName (k : MetaKey) : string :=
  match k with
  | DescriptionKey => "description"
  | DefaultKey => "default"
  end.

(** [without k n] is [n] with the key [k] removed from [n] and from
    every node below it.  Literal values ([const], [enum], [default])
    are not nodes and are left as they are. *)
Fixpoint without (k : MetaKey) (n : SchemaObject) : SchemaObject :=
  let withoutIn (b : BoolOr SchemaObject) :=
    match b with
    | IsBool flag => IsBool flag
    | IsSchema s => IsSchema (without k s)
    end in
  mkSchema
    (type n) (format n)
    (match k with DescriptionKey => None | DefaultKey => description n end)
    (match k with DescriptionKey => default n | DefaultKey => None end)
    (const n) (enum n)
    (option_map (without k) (not_ n))
    (option_map (map (without k)) (anyOf n))
    (option_map (map (without k)) (allOf n))
    (option_map (map (fun p => (fst p, without k (snd p)))) (properties n))
    (required n)
    (option_map withoutIn (additionalProperties n))
    (option_map withoutIn (items n))
    (option_map (map (without k)) (prefixItems n))
    (minItems n) (maxItems n) (uniqueItems n) (minLength n) (maxLength n) (pattern n)
    (contentEncoding n) (minimum n) (maximum n) (exclusiveMinimum n) (exclusiveMaximum n)
    (multipleOf n) (readOnly n).

Definition withoutIn (k : MetaKey) (b : BoolOr SchemaObject) : BoolOr SchemaObject :=
  match b with
  | IsBool flag => IsBool flag
  | IsSchema s => IsSchema (without k s)
  end.

Definition withoutEach (k : MetaKey) (ps : list (string * SchemaObject))
  : list (string * SchemaObject) :=
  map (fun p => (fst p, without k (snd p))) ps.

(** The options with the inclusion of key [k] switched on or off. *)
Definition zodInclude (k : MetaKey) (on : bool) (opts : Zod.Options) : Zod.Options :=
  match k with
  | DescriptionKey => Zod.mkOptions on (Zod.includeDefaults opts) (Zod.maxDepth opts)
  | DefaultKey => Zod.mkOptions (Zod.includeDescriptions opts) on (Zod.maxDepth opts)
  end.

Definition joiInclude (k : MetaKey) (on : bool) (opts : Joi.Options) : Joi.Options :=
  match k with
  | DescriptionKey => Joi.mkOptions on (Joi.includeDefaults opts) (Joi.maxDepth opts)
  | DefaultKey => Joi.mkOptions (Joi.includeDescriptions opts) on (Joi.maxDepth opts)
  end.

(** A node whose only key is [k]: it has a key, and none is left once
    [k] is removed. *)
Definition onlyKey (k : MetaKey) (n : SchemaObject) : bool :=
  hasKeys n && negb (hasKeys (without k n)).

(** A description is a vacuous nullable for [k] when it allows [null],
    is not an enum, and its combined node, with [k] included, has no key
    but [k]: the null fold wraps that node, and leaves the empty node
    that remains without [k] as it is. *)
Definition vacuousNullable (k : MetaKey) (opts : Joi.Options) (depth : Z)
    (desc : Joi.JoiDescription) : bool :=
  Joi.hasNullAllow desc
  && negb (Joi.flagOnly desc)
  && onlyKey k (Joi.combinedSchema Joi.convertJoiDescription desc
                  (joiInclude k true opts) depth).

(** The descriptions that the dispatch on [desc.type] converts: the
    keys and the value schema of the first [pattern] rule of an object,
    the ordered entries or else the items of an array, the schemas of
    the matches of alternatives. *)
Definition firstPatternValue (rs : list (Joi.JoiRule Joi.JoiDescription))
  : option Joi.JoiDescription :=
  match filter (fun rule => Joi.name rule =? "pattern") rs with
  | rule :: _ =>
      match Joi.args rule with
      | Some a => Joi.value a
      | None => None
      end
  | [] => None
  end.

Definition visitedItems (desc : Joi.JoiDescription) : list Joi.JoiDescription :=
  match Joi.ordered desc with
  | Some slots =>
      if (0 <? List.length slots)%nat then slots else entriesOf (Joi.items desc)
  | None => entriesOf (Joi.items desc)
  end.

Definition matchSchemas (desc : Joi.JoiDescription) : list Joi.JoiDescription :=
  flat_map (fun m => match Joi.schema m with Some s => [s] | None => [] end)
           (entriesOf (Joi.matches desc)).

Definition joiVisited (desc : Joi.JoiDescription) : list Joi.JoiDescription :=
  let type := Joi.type desc in
  if type =? "string" then []
  else if type =? "number" then []
  else if type =? "boolean" then []
  else if type =? "object" then
    map snd (entriesOf (Joi.keys desc))
    ++ match firstPatternValue (entriesOf (Joi.rules desc)) with
       | Some valueDesc => [valueDesc]
       | None => []
       end
  else if type =? "array" then visitedItems desc
  else if type =? "alternatives" then matchSchemas desc
  else [].

(** [visitedBelow below desc]: [below] holds of every description of
    [joiVisited desc]; written by cases so that it can be used in a
    structural recursion. *)
Section Visit.
Variable below : Joi.JoiDescription -> bool.

Fixpoint firstPatternBelow (rs : list (Joi.JoiRule Joi.JoiDescription)) : bool :=
  match rs with
  | [] => true
  | rule :: rest =>
      if Joi.name rule =? "pattern" then
        match Joi.args rule with
        | Some a =>
            match Joi.value a with
            | Some valueDesc => below valueDesc
            | None => true
            end
        | None => true
        end
      else firstPatternBelow rest
  end.

Definition visitedBelow (desc : Joi.JoiDescription) : bool :=
  let type := Joi.type desc in
  if type =? "string" then true
  else if type =? "number" then true
  else if type =? "boolean" then true
  else if type =? "object" then
    match Joi.keys desc with
    | Some entries => forallb (fun e => below (snd e)) entries
    | None => true
    end
    && match Joi.rules desc with
       | Some rs => firstPatternBelow rs
       | None => true
       end
  else if type =? "array" then
    match Joi.ordered desc with
    | Some slots =>
        if (0 <? List.length slots)%nat then forallb below slots
        else match Joi.items desc with
             | Some its => forallb below its
             | None => true
             end
    | None =>
        match Joi.items desc with
        | Some its => forallb below its
        | None => true
        end
    end
  else if type =? "alternatives" then
    match Joi.matches desc with
    | Some ms =>
        forallb (fun m => match Joi.schema m with
                          | Some s => below s
                          | None => true
                          end) ms
    | None => true
    end
  else true.
End Visit.

(** [noVacuousNullable k opts depth desc]: no description that the
    conversion of [desc] at [depth] visits is a vacuous nullable for
    [k].  The visit follows the converter: nothing past the depth bound
    and nothing below an enum. *)
Fixpoint noVacuousNullable (k : MetaKey) (opts : Joi.Options) (depth : Z)
    (desc : Joi.JoiDescription) {struct desc} : bool :=
  if (depth >? Joi.maxDepth opts)%Z then true
  else if Joi.isEnum desc then true
  else
    negb (vacuousNullable k opts depth desc)
    && visitedBelow (fun d => noVacuousNullable k opts (depth + 1)%Z d) desc.

(** *** Sub-schemas *)

Definition optional {A : Type} (o : option A) : list A :=
  match o with
  | Some x => [x]
  | None => []
  end.

(** The schemas directly below a Zod schema. *)
Definition zodChildren (schema : Zod.ZodTypeAny) : list Zod.ZodTypeAny :=
  match Zod._def schema with
  | Zod.ZodObject shape _ catchall => map snd (entriesOf shape) ++ optional catchall
  | Zod.ZodArray itemSchema _ _ _ => optional itemSchema
  | Zod.ZodTuple items rest => items ++ optional rest
  | Zod.ZodUnion options | Zod.ZodDiscriminatedUnion options => options
  | Zod.ZodIntersection l r => [l; r]
  | Zod.ZodOptional inner | Zod.ZodNullable inner | Zod.ZodDefault inner _
  | Zod.ZodCatch inner | Zod.ZodBranded inner | Zod.ZodReadonly inner
  | Zod.ZodPipeline inner | Zod.ZodEffects inner => [inner]
  | Zod.ZodRecord valueType | Zod.ZodSet valueType => optional valueType
  | _ => []
  end.

(** The descriptions directly below a Joi description. *)
Definition ruleValues (rs : list (Joi.JoiRule Joi.JoiDescription))
  : list Joi.JoiDescription :=
  flat_map (fun rule => match Joi.args rule with
                        | Some a => optional (Joi.value a)
                        | None => []
                        end) rs.

Definition joiChildren (desc : Joi.JoiDescription) : list Joi.JoiDescription :=
  map snd (entriesOf (Joi.keys desc))
  ++ entriesOf (Joi.items desc)
  ++ entriesOf (Joi.ordered desc)
  ++ flat_map (fun m => optional (Joi.schema m)) (entriesOf (Joi.matches desc))
  ++ ruleValues (entriesOf (Joi.rules desc)).

(** *** The option toggles as equations *)

(** Converting without [k] is converting with [k] and removing [k] from
    every node of the result. *)
Definition zodToggle (k : MetaKey) (schema : Zod.ZodTypeAny) : Prop :=
  forall opts depth,
    Zod.convertZodType schema (zodInclude k false opts) depth
    = without k (Zod.convertZodType schema (zodInclude k true opts) depth).

Definition joiToggle (k : MetaKey) (opts : Joi.Options) (depth : Z)
    (desc : Joi.JoiDescription) : Prop :=
  Joi.convertJoiDescription desc (joiInclude k false opts) depth
  = without k (Joi.convertJoiDescription desc (joiInclude k true opts) depth).

(** The type names of the wrapper arms of [convertZodType]. *)
Definition isWrapperName (name : string) : bool :=
  existsb (String.eqb name)
    [ "ZodOptional"; "ZodNullable"; "ZodDefault"; "ZodCatch"; "ZodBranded";
      "ZodReadonly"; "ZodPipeline"; "ZodEffects" ].

(** *** Sample inputs *)

(** [Joi.any().allow(null)] *)
Definition nullableAny : Joi.JoiDescription :=
  Joi.mkDescription "any" None None None None None None (Some [JNull]).

(** A hand-written schema object, as a JavaScript value. *)
Definition handWritten : JSValue :=
  JObject [("type", JString "string"); ("minLength", JNumber 1)].

(** [z.string().nullable().describe('note')] *)
Definition describedNullableString : Zod.ZodTypeAny :=
  zodDescribed "note" (Zod.ZodNullable (zod (Zod.ZodString []))).

(** [z.string().brand().describe('User id')] and its read-only sibling *)
Definition describedBrand : Zod.ZodTypeAny :=
  zodDescribed "User id" (Zod.ZodBranded (zod (Zod.ZodString []))).

Definition describedReadonly : Zod.ZodTypeAny :=
  zodDescribed "User id" (Zod.ZodReadonly (zod (Zod.ZodString []))).

(** [z.string().describe('inner').optional().describe('outer')] *)
Definition redescribedOptional : Zod.ZodTypeAny :=
  zodDescribed "outer" (Zod.ZodOptional (zodDescribed "inner" (Zod.ZodString []))).

(** An array description whose [ordered] list is present and empty. *)
Definition emptyOrdered : Joi.JoiDescription :=
  Joi.mkDescription "array" None None None None (Some []) None None.

(** [Joi.array().ordered(Joi.string(), Joi.number())] *)
Definition orderedPair : Joi.JoiDescription :=
  Joi.mkDescription "array" None None None None (Some [joi "string"; joi "number"])
    None None.

(** [Joi.symbol().valid('a')]: an unrecognized type that is an enum. *)
Definition symbolEnum : Joi.JoiDescription :=
  Joi.mkDescription "symbol"
    (Some (Joi.mkFlags None JUndefined None (Some true) None None))
    None None None None None (Some [JString "a"]).

(** [Joi.function().allow(null).description('callback')] *)
Definition nullableFunction : Joi.JoiDescription :=
  Joi.mkDescription "function"
    (Some (Joi.mkFlags None JUndefined (Some "callback") None None None))
    None None None None None (Some [JNull]).

(** [Joi.any().default(5).allow(null)] and
    [Joi.any().description('x').allow(null)] *)
Definition nullableAnyWithDefault : Joi.JoiDescription :=
  Joi.mkDescription "any"
    (Some (Joi.mkFlags None (JNumber 5) None None None None))
    None None None None None (Some [JNull]).

Definition nullableAnyWithDescription : Joi.JoiDescription :=
  Joi.mkDescription "any"
    (Some (Joi.mkFlags None JUndefined (Some "x") None None None))
    None None None None None (Some [JNull]).

(** [Joi.object({ name: Joi.string().allow(null).default('anon')
    .description('display name').required(), tags: Joi.array().items(
    Joi.any().description('tag').allow(null)) })]: the nullable items
    are vacuous for the descriptions, not for the defaults. *)
Definition profile : Joi.JoiDescription :=
  Joi.mkDescription "object" None None
    (Some [("name",
            Joi.mkDescription "string"
              (Some (Joi.mkFlags (Some "required") (JString "anon")
                       (Some "display name") None None None))
              None None None None None (Some [JNull]));
           ("tags",
            Joi.mkDescription "array" None None None
              (Some [nullableAnyWithDescription]) None None None)])
    None None None None.

(** *** Depth budgets *)

(** The options with another depth bound. *)
Definition zodWithMaxDepth (bound : Z) (opts : Zod.Options) : Zod.Options :=
  Zod.mkOptions (Zod.includeDescriptions opts) (Zod.includeDefaults opts) bound.

Definition joiWithMaxDepth (bound : Z) (opts : Joi.Options) : Joi.Options :=
  Joi.mkOptions (Joi.includeDescriptions opts) (Joi.includeDefaults opts) bound.

(** Two option records that differ in the depth bound at most. *)
Definition zodSameFlags (o1 o2 : Zod.Options) : Prop :=
  Zod.includeDescriptions o1 = Zod.includeDescriptions o2
  /\ Zod.includeDefaults o1 = Zod.includeDefaults o2.

Definition joiSameFlags (o1 o2 : Joi.Options) : Prop :=
  Joi.includeDescriptions o1 = Joi.includeDescriptions o2
  /\ Joi.includeDefaults o1 = Joi.includeDefaults o2.

(** The number of levels above a list of sub-conversions: none when
    there is no sub-conversion, one more than the deepest otherwise. *)
Definition levels (below : list nat) : nat :=
  match below with
  | [] => 0%nat
  | _ => S (list_max below)
  end.

(** [zodHeight schema]: how many nested calls the conversion of
    [schema] makes when nothing stops it.  It follows [convertZodType]:
    the fields of an object are counted unwrapped, a [ZodNever] catchall
    is not converted. *)
Fixpoint zodHeight (schema : Zod.ZodTypeAny) : nat :=
  match Zod._def schema with
  | Zod.ZodObject shape _ catchall =>
      levels
        (match shape with
         | Some entries =>
             map (fun e => zodHeight (Zod.unwrapZodOptional (snd e))) entries
         | None => []
         end
         ++ match catchall with
            | Some c => if negb (Zod.typeName c =? "ZodNever") then [zodHeight c] else []
            | None => []
            end)
  | Zod.ZodArray itemSchema _ _ _ =>
      levels match itemSchema with Some item => [zodHeight item] | None => [] end
  | Zod.ZodTuple items rest =>
      levels (map zodHeight items
              ++ match rest with Some r => [zodHeight r] | None => [] end)
  | Zod.ZodUnion options | Zod.ZodDiscriminatedUnion options =>
      levels (map zodHeight options)
  | Zod.ZodIntersection l r => levels [zodHeight l; zodHeight r]
  | Zod.ZodOptional inner | Zod.ZodNullable inner | Zod.ZodDefault inner _
  | Zod.ZodCatch inner | Zod.ZodBranded inner | Zod.ZodReadonly inner
  | Zod.ZodPipeline inner | Zod.ZodEffects inner => levels [zodHeight inner]
  | Zod.ZodRecord valueType | Zod.ZodSet valueType =>
      levels match valueType with Some v => [zodHeight v] | None => [] end
  | _ => 0%nat
  end.

(** [joiHeight desc]: the same for [convertJoiDescription]; an enum is
    converted without any nested call. *)
Fixpoint joiHeight (desc : Joi.JoiDescription) : nat :=
  if Joi.isEnum desc then 0%nat
  else
    let type := Joi.type desc in
    if type =? "object" then
      levels
        (match Joi.keys desc with
         | Some entries => map (fun e => joiHeight (snd e)) entries
         | None => []
         end
         ++ match Joi.rules desc with
            | Some rs =>
                (fix firstPattern (rs : list (Joi.JoiRule Joi.JoiDescription))
                   : list nat :=
                   match rs with
                   | [] => []
                   | rule :: rest =>
                       if Joi.name rule =? "pattern" then
                         match Joi.args rule with
                         | Some a =>
                             match Joi.value a with
                             | Some valueDesc => [joiHeight valueDesc]
                             | None => []
                             end
                         | None => []
                         end
                       else firstPattern rest
                   end) rs
            | None => []
            end)
    else if type =? "array" then
      levels
        match Joi.ordered desc with
        | Some slots =>
            if (0 <? List.length slots)%nat then map joiHeight slots
            else match Joi.items desc with
                 | Some its => map joiHeight its
                 | None => []
                 end
        | None =>
            match Joi.items desc with
            | Some its => map joiHeight its
            | None => []
            end
        end
    else if type =? "alternatives" then
      levels
        match Joi.matches desc with
        | Some ms =>
            flat_map (fun m => match Joi.schema m with
                               | Some s => [joiHeight s]
                               | None => []
                               end) ms
        | None => []
        end
    else 0%nat.

(** Two remaining budgets (depth bound minus depth) are the same for a
    conversion of height [h] when they are equal or both cover [h]. *)
Definition sameBudget (h : nat) (b1 b2 : Z) : Prop :=
  b1 = b2 \/ (Z.of_nat h <= b1 /\ Z.of_nat h <= b2)%Z.


(** *** Vocabulary for the scalar converters *)

(** The check that [z.number().int()] records. *)
Definition isIntCheck (check : Zod.ZodNumberCheck) : bool :=
  match check with
  | Zod.NumInt => true
  | _ => false
  end.

(** The rule that [Joi.number().integer()] records. *)
Definition isIntegerRule (rule : Joi.JoiRule Joi.JoiDescription) : bool :=
  Joi.name rule =? "integer".

(** A character of the class that [escapeRegex] escapes, and a text
    that holds none. *)
Definition isRegexSpecial (c : ascii) : bool :=
  existsb (Ascii.eqb c) Zod.regexSpecials.

Fixpoint plainText (s : string) : bool :=
  match s with
  | EmptyString => true
  | String c rest => negb (isRegexSpecial c) && plainText rest
  end.

(** The serialized form of a regular expression: slash, body, slash,
    flags. *)
Definition delimited (body flags : string) : string :=
  String Joi.slash (body ++ String Joi.slash flags).

Definition isStringValue (v : JSValue) : bool := typeof v =? "string".
Definition isNumberValue (v : JSValue) : bool := typeof v =? "number".


(** *** Vocabulary for object nodes *)

(** The entries of [properties], none when the key is absent, and
    [properties[key]]. *)
Definition propertyEntries (n : SchemaObject) : list (string * SchemaObject) :=
  match properties n with
  | Some entries => entries
  | None => []
  end.

Definition propertyOf (key : string) (entries : list (string * SchemaObject))
  : option SchemaObject :=
  option_map snd (find (fun e => fst e =? key) entries).

(** The node that one iteration of the loop of [convertZodObject]
    stores for a field: the iteration run on its own. *)
Definition zodFieldNode (opts : Zod.Options) (depth : Z) (fieldSchema : Zod.ZodTypeAny)
  : SchemaObject :=
  match fst (Zod.objectField Zod.convertZodType opts depth ([], []) ("", fieldSchema)) with
  | (_, stored) :: _ => stored
  | [] => emptySchema
  end.

(** [z.object({ id: z.string().uuid(), nick: z.string().optional(),
    visits: z.number().int().default(0) })] *)
Definition account : option (list (string * Zod.ZodTypeAny)) :=
  Some [("id", zod (Zod.ZodString [Zod.CheckUuid]));
        ("nick", zod (Zod.ZodOptional (zod (Zod.ZodString []))));
        ("visits", zod (Zod.ZodDefault (zod (Zod.ZodNumber [Zod.NumInt])) (JNumber 0)))].


(** The schema that the pass-through arms of [convertZodType]
    ([ZodCatch], [ZodBranded], [ZodPipeline], [ZodEffects]) convert in
    place of the schema itself. *)
Definition passThroughInner (schema : Zod.ZodTypeAny) : option Zod.ZodTypeAny :=
  match Zod._def schema with
  | Zod.ZodCatch inner | Zod.ZodBranded inner
  | Zod.ZodPipeline inner | Zod.ZodEffects inner => Some inner
  | _ => None
  end.

(** The schema below a [ZodOptional]. *)
Definition optionalInner (schema : Zod.ZodTypeAny) : option Zod.ZodTypeAny :=
  match Zod._def schema with
  | Zod.ZodOptional inner => Some inner
  | _ => None
  end.

(** [z.string().email().refine(...).brand()] under a description. *)
Definition refinedBrand : Zod.ZodTypeAny :=
  zodDescribed "login"
    (Zod.ZodBranded (zod (Zod.ZodEffects (zod (Zod.ZodString [Zod.CheckEmail]))))).

(** [z.number().optional()] *)
Definition optionalNumber : Zod.ZodTypeAny :=
  zod (Zod.ZodOptional (zod (Zod.ZodNumber []))).


(** *** Vocabulary for alternatives *)

(** A match that carries a schema, as opposed to a conditional. *)
Definition hasSchema (m : Joi.JoiAlternativeMatch Joi.JoiDescription) : bool :=
  match Joi.schema m with
  | Some _ => true
  | None => false
  end.

(** The description with its conditional matches removed. *)
Definition withoutConditionals (desc : Joi.JoiDescription) : Joi.JoiDescription :=
  Joi.mkDescription (Joi.type desc) (Joi.flags desc) (Joi.rules desc) (Joi.keys desc)
    (Joi.items desc) (Joi.ordered desc)
    (option_map (filter hasSchema) (Joi.matches desc)) (Joi.allow desc).


(** *** Vocabulary for typed nodes *)

(** The type names of JSON Schema. *)
Definition jsonTypes : list string :=
  [ "string"; "number"; "integer"; "boolean"; "object"; "array"; "null" ].

Definition isJsonType (name : string) : bool := existsb (String.eqb name) jsonTypes.

Definition validType (t : SchemaType) : bool :=
  match t with
  | TypeName name => isJsonType name
  | TypeNames names => forallb isJsonType names
  end.

(** A test that a key passes when it is absent. *)
Definition holds {A : Type} (test : A -> bool) (o : option A) : bool :=
  match o with
  | Some x => test x
  | None => true
  end.

(** [wellTyped n]: the [type] of [n] and of every node below [n], at
    any depth, is made of JSON Schema type names. *)
Fixpoint wellTyped (n : SchemaObject) : bool :=
  let inBoolOr (b : BoolOr SchemaObject) :=
    match b with
    | IsBool _ => true
    | IsSchema s => wellTyped s
    end in
  holds validType (type n)
  && holds wellTyped (not_ n)
  && holds (forallb wellTyped) (anyOf n)
  && holds (forallb wellTyped) (allOf n)
  && holds (forallb (fun p => wellTyped (snd p))) (properties n)
  && holds inBoolOr (additionalProperties n)
  && holds inBoolOr (items n)
  && holds (forallb wellTyped) (prefixItems n).

Definition wellTypedIn (b : BoolOr SchemaObject) : bool :=
  match b with
  | IsBool _ => true
  | IsSchema s => wellTyped s
  end.


(** *** Vocabulary for the builder *)

(** A node whose [required] list is duplicate-free and names
    properties only: what [property] keeps. *)
Definition requiredAreProperties (n : SchemaObject) : Prop :=
  NoDup (requiredNames n)
  /\ incl (requiredNames n) (map fst (propertyEntries n)).

(** [new SchemaBuilder().type('object').property('id', { type:
    'string' }, true)] *)
Definition withId : SchemaObject :=
  emptySchema |> with_type (TypeName "object")
  |> Builder.property "id" (emptySchema |> with_type (TypeName "string")) true.


(** *** Vocabulary for metadata *)

(** The two keys collected before the dispatch. *)
Definition metadata (n : SchemaObject) : option string * option JSValue :=
  (OpenAPI.description n, OpenAPI.default n).

(** The Joi types whose converter sets a [type]. *)
Definition joiTypedKind (type : string) : bool :=
  existsb (String.eqb type)
    [ "string"; "number"; "boolean"; "object"; "array"; "date"; "binary" ].

(** [Joi.string().min(2).allow(null).description('code').default('xx')] *)
Definition describedCode : Joi.JoiDescription :=
  Joi.mkDescription "string"
    (Some (Joi.mkFlags None (JString "xx") (Some "code") None None None))
    (Some [joiRule "min" 2]) None None None None (Some [JNull]).

(** [z.array(z.string()).describe('tags')] *)
Definition describedArray : Zod.ZodTypeAny :=
  zodDescribed "tags" (Zod.ZodArray (Some (zod (Zod.ZodString []))) None None None).


(** *** Vocabulary for the entry points *)

(** The caller's options with [maxDepth] set or left out. *)
Definition zodMaxDepthOption (bound : option Z) (options : Zod.ZodToOpenAPIOptions)
  : Zod.ZodToOpenAPIOptions :=
  Zod.mkZodToOpenAPIOptions (Zod.includeDescriptions_opt options)
    (Zod.includeDefaults_opt options) bound.

Definition joiMaxDepthOption (bound : option Z) (options : Joi.JoiToOpenAPIOptions)
  : Joi.JoiToOpenAPIOptions :=
  Joi.mkJoiToOpenAPIOptions (Joi.includeDescriptions_opt options)
    (Joi.includeDefaults_opt options) bound.

(** The object that TypeScript emits for [enum Level { Low, High }]:
    the reverse mappings come first. *)
Definition levelEnum : list (string * JSValue) :=
  [("0", JString "Low"); ("1", JString "High"); ("Low", JNumber 0); ("High", JNumber 1)].

(** An object shape and a keys record with an own [__proto__] key, as
    [JSON.parse] or a computed key produce them: [{ ["__proto__"]:
    z.string(), a: z.string() }] and [{ ["__proto__"]:
    Joi.string().required() }]. *)
Definition protoShape : option (list (string * Zod.ZodTypeAny)) :=
  Some [("__proto__", zod (Zod.ZodString [])); ("a", zod (Zod.ZodString []))].

Definition protoKeys : Joi.JoiDescription :=
  Joi.mkDescription "object" None None
    (Some [("__proto__",
            Joi.mkDescription "string" (Some (joiFlag "required")) None None None None
              None None)])
    None None None None.

(** [z.object(account)] *)
Definition accountSchema : Zod.ZodTypeAny := zod (Zod.ZodObject account None None).

(** An object description with a required key that is also an enum
    ([flags.only] with a non-empty [allow]), as [.valid(...)] makes of
    [Joi.object({ a: Joi.string().required() })]. *)
Definition enumObject : Joi.JoiDescription :=
  Joi.mkDescription "object"
    (Some (Joi.mkFlags None JUndefined None (Some true) None None))
    None
    (Some [("a",
            Joi.mkDescription "string" (Some (joiFlag "required")) None None None None
              None None)])
    None None None (Some [JObject [("a", JString "x")]]).

(** The description with its [ordered] member left out. *)
Definition withoutOrdered (desc : Joi.JoiDescription) : Joi.JoiDescription :=
  Joi.mkDescription (Joi.type desc) (Joi.flags desc) (Joi.rules desc) (Joi.keys desc)
    (Joi.items desc) None (Joi.matches desc) (Joi.allow desc).

(** An ordered array description that is also an enum ([flags.only]
    with a non-empty [allow]), as [.valid(...)] makes of
    [Joi.array().ordered(Joi.string())]. *)
Definition enumPair : Joi.JoiDescription :=
  Joi.mkDescription "array"
    (Some (Joi.mkFlags None JUndefined None (Some true) None None))
    None None None (Some [joi "string"]) None (Some [JArray [JString "a"]]).

(** [Joi.array().ordered(Joi.string(), Joi.number()).allow(null)
    .description('pair')] *)
Definition nullablePair : Joi.JoiDescription :=
  Joi.mkDescription "array"
    (Some (Joi.mkFlags None JUndefined (Some "pair") None None None))
    None None None (Some [joi "string"; joi "number"]) None (Some [JNull]).

(** [z.tuple([z.string(), z.number()]).describe('pair')] and the same
    with [.rest(z.boolean())] *)
Definition describedPair : Zod.ZodTypeAny :=
  zodDescribed "pair"
    (Zod.ZodTuple [zod (Zod.ZodString []); zod (Zod.ZodNumber [])] None).

Definition describedPairWithRest : Zod.ZodTypeAny :=
  zodDescribed "pair"
    (Zod.ZodTuple [zod (Zod.ZodString []); zod (Zod.ZodNumber [])]
       (Some (zod Zod.ZodBoolean))).

(** [Joi.alternatives().try(Joi.string().valid('a')).allow(null)]: the
    single match is an enum, whose node has [enum] and no [type]. *)
Definition nullableChoice : Joi.JoiDescription :=
  Joi.mkDescription "alternatives" None None None None None
    (Some [Joi.mkMatch
             (Some (Joi.mkDescription "string"
                      (Some (Joi.mkFlags None JUndefined None (Some true) None None))
                      None None None None None (Some [JString "a"])))])
    (Some [JNull]).

(* ------------------------------------------------------------------ *)
(** *** Worked conversions *)

Example zod_string_min_max :
  Zod.convertZodType
    (zod (Zod.ZodString [Zod.CheckMin (JNumber 2); Zod.CheckMax (JNumber 10)]))
    zodDefaults 0
  = emptySchema |> with_type (TypeName "string") |> with_minLength (JNumber 2)
    |> with_maxLength (JNumber 10).
Proof. reflexivity. Qed.

Example joi_integer_min_max :
  Joi.convertJoiDescription
    (Joi.mkDescription "number" None
       (Some [Joi.mkRule "integer" None; joiRule "min" 0; joiRule "max" 150])
       None None None None None)
    joiDefaults 0
  = emptySchema |> with_type (TypeName "integer") |> with_minimum (JNumber 0)
    |> with_maximum (JNumber 150).
Proof. reflexivity. Qed.

Example zod_object_id_age :
  Zod.convertZodType
    (zod (Zod.ZodObject
            (Some [("id", zod (Zod.ZodString [Zod.CheckUuid]));
                   ("age", zod (Zod.ZodOptional (zod (Zod.ZodNumber [Zod.NumInt]))))])
            (Some "strip") None))
    zodDefaults 0
  = emptySchema |> with_type (TypeName "object")
    |> with_properties
         [("id", emptySchema |> with_type (TypeName "string") |> with_format "uuid");
          ("age", emptySchema |> with_type (TypeName "integer"))]
    |> with_required ["id"].
Proof. reflexivity. Qed.

Example joi_array_unique :
  Joi.convertJoiDescription
    (Joi.mkDescription "array" None (Some [Joi.mkRule "unique" None]) None
       (Some [joi "string"]) None None None)
    joiDefaults 0
  = emptySchema |> with_type (TypeName "array")
    |> with_items (IsSchema (emptySchema |> with_type (TypeName "string")))
    |> with_uniqueItems true.
Proof. reflexivity. Qed.

Example zod_union_string_number :
  Zod.convertZodType
    (zod (Zod.ZodUnion [zod (Zod.ZodString []); zod (Zod.ZodNumber [])])) zodDefaults 0
  = emptySchema
    |> with_anyOf [emptySchema |> with_type (TypeName "string");
                   emptySchema |> with_type (TypeName "number")].
Proof. reflexivity. Qed.

Example escapeRegex_dot :
  Zod.escapeRegex "a.b" = String "a" (String Zod.backslash ".b").
Proof. reflexivity. Qed.

Example execDelimited_flags :
  Joi.execDelimited "/^[A-Z]+$/i" = Some "^[A-Z]+$".
Proof. reflexivity. Qed.

(** *** Depth guard *)

(** C2.  At a depth strictly greater than [maxDepth], both converters
    return the empty node [{}], whatever the input and the other
    options are. *)
Theorem C2_depth_guard_returns_empty :
  (forall (schema : Zod.ZodTypeAny) (opts : Zod.Options) (depth : Z),
      (depth > Zod.maxDepth opts)%Z ->
      Zod.convertZodType schema opts depth = emptySchema)
  /\ (forall (desc : Joi.JoiDescription) (opts : Joi.Options) (depth : Z),
         (depth > Joi.maxDepth opts)%Z ->
         Joi.convertJoiDescription desc opts depth = emptySchema).
Proof.
  split.
  - intros schema opts depth Hdepth.
    apply Z.gtb_gt in Hdepth.
    destruct schema as [d def]; destruct def; simpl; rewrite Hdepth; reflexivity.
  - intros desc opts depth Hdepth.
    apply Z.gtb_gt in Hdepth.
    destruct desc; simpl; rewrite Hdepth; reflexivity.
Qed.

Lemma C2_depth_guard_witness :
  Zod.convertZodType (zod (Zod.ZodString [Zod.CheckEmail])) zodDefaults 21 = emptySchema
  /\ Joi.convertJoiDescription (joi "string") joiDefaults 21 = emptySchema.
Proof.
  split.
  - apply (proj1 C2_depth_guard_returns_empty). simpl. lia.
  - apply (proj2 C2_depth_guard_returns_empty). simpl. lia.
Defined.

(** *** Required properties *)

Section RequiredNames.
Variable zconvert : Zod.ZodTypeAny -> Zod.Options -> Z -> SchemaObject.
Variable jconvert : Joi.JoiDescription -> Joi.Options -> Z -> SchemaObject.

(** The loop of [convertZodObject] pushes the keys of the fields that
    are not optional, in order. *)
Lemma objectField_required :
  forall opts depth entries properties required,
    snd (fold_left (Zod.objectField zconvert opts depth) entries (properties, required))
    = (required
       ++ map fst (filter (fun e => negb (Zod.isZodOptional (snd e))) entries))%list.
Proof.
  induction entries as [| [key fieldSchema] entries IH]; intros properties required.
  - simpl. now rewrite app_nil_r.
  - simpl fold_left.
    destruct (Zod.objectField zconvert opts depth (properties, required)
                (key, fieldSchema)) as [properties' required'] eqn:Estep.
    rewrite IH. unfold Zod.objectField in Estep. inversion Estep; subst. simpl.
    destruct (Zod.isZodOptional fieldSchema); simpl.
    + reflexivity.
    + now rewrite <- app_assoc.
Qed.

Lemma convertZodObject_required :
  forall shape unknownKeys catchall opts depth,
    requiredNames (Zod.convertZodObject zconvert shape unknownKeys catchall opts depth)
    = map fst (filter (fun e => negb (Zod.isZodOptional (snd e))) (entriesOf shape)).
Proof.
  intros shape unknownKeys catchall opts depth.
  unfold Zod.convertZodObject.
  assert (Hloop :
    snd (match shape with
         | Some entries => fold_left (Zod.objectField zconvert opts depth) entries ([], [])
         | None => ([], [])
         end)
    = map fst (filter (fun e => negb (Zod.isZodOptional (snd e))) (entriesOf shape))).
  { destruct shape as [entries |]; simpl; [apply objectField_required | reflexivity]. }
  destruct (match shape with Some _ => _ | None => _ end) as [properties required].
  simpl in Hloop. subst required.
  set (names := map fst _).
  destruct catchall as [c |]; [destruct (negb (Zod.typeName c =? "ZodNever")) |];
    (destruct unknownKeys as [mode |];
     [destruct (mode =? "strict"); [| destruct (mode =? "passthrough")] |]);
    destruct names; destruct properties; reflexivity.
Qed.

(** The loop of [convertObject] pushes the keys whose presence flag is
    ["required"], in order. *)
Lemma objectKey_required :
  forall opts depth entries properties required,
    snd (fold_left (Joi.objectKey jconvert opts depth) entries (properties, required))
    = (required ++ map fst (filter (fun e => presenceRequired (snd e)) entries))%list.
Proof.
  induction entries as [| [key fieldDesc] entries IH]; intros properties required.
  - simpl. now rewrite app_nil_r.
  - simpl fold_left.
    destruct (Joi.objectKey jconvert opts depth (properties, required)
                (key, fieldDesc)) as [properties' required'] eqn:Estep.
    rewrite IH. unfold Joi.objectKey in Estep. inversion Estep; subst. simpl.
    unfold presenceRequired.
    destruct (Joi.flagPresence fieldDesc) as [p |]; [destruct (p =? "required") |];
      simpl; try reflexivity.
    now rewrite <- app_assoc.
Qed.

Lemma convertObject_required :
  forall desc opts depth,
    requiredNames (Joi.convertObject jconvert desc opts depth)
    = map fst (filter (fun e => presenceRequired (snd e)) (entriesOf (Joi.keys desc))).
Proof.
  intros desc opts depth.
  unfold Joi.convertObject.
  assert (Hloop :
    snd (match Joi.keys desc with
         | Some entries => fold_left (Joi.objectKey jconvert opts depth) entries ([], [])
         | None => ([], [])
         end)
    = map fst (filter (fun e => presenceRequired (snd e)) (entriesOf (Joi.keys desc)))).
  { destruct (Joi.keys desc) as [entries |]; simpl;
      [apply objectKey_required | reflexivity]. }
  destruct (match Joi.keys desc with Some _ => _ | None => _ end)
    as [properties required].
  simpl in Hloop. subst required.
  set (names := map fst _).
  destruct (match Joi.rules desc with Some _ => _ | None => _ end) as [| [n [c |]] rest];
    destruct (Joi.flagAllowUnknown desc) as [[|] |];
    destruct names; destruct properties; reflexivity.
Qed.
End RequiredNames.

Lemma isZodOptional_typeName :
  forall fieldSchema,
    Zod.isZodOptional fieldSchema = false
    <-> Zod.typeName fieldSchema <> "ZodOptional"
        /\ Zod.typeName fieldSchema <> "ZodDefault".
Proof.
  intros fieldSchema. unfold Zod.isZodOptional.
  destruct (String.eqb_spec (Zod.typeName fieldSchema) "ZodOptional") as [E1 | N1];
    destruct (String.eqb_spec (Zod.typeName fieldSchema) "ZodDefault") as [E2 | N2];
    split; try tauto; try discriminate.
Qed.

(** In the node that [convertZodObject] and [convertObject] build, a
    property name is in [required] exactly when it is the key of a field
    that is not optional in its dialect: for Zod, a field whose own type
    name is neither [ZodOptional] nor [ZodDefault]; for Joi, a key whose
    own [flags.presence] is ["required"] (an absent flag does not
    count). *)
Lemma object_loops_required :
  (forall shape unknownKeys catchall opts depth key,
      In key (requiredNames
                (Zod.convertZodObject Zod.convertZodType shape unknownKeys catchall
                   opts depth))
      <-> exists fieldSchema,
            In (key, fieldSchema) (entriesOf shape)
            /\ Zod.typeName fieldSchema <> "ZodOptional"
            /\ Zod.typeName fieldSchema <> "ZodDefault")
  /\ (forall desc opts depth key,
         In key (requiredNames
                   (Joi.convertObject Joi.convertJoiDescription desc opts depth))
         <-> exists fieldDesc,
               In (key, fieldDesc) (entriesOf (Joi.keys desc))
               /\ Joi.flagPresence fieldDesc = Some "required").
Proof.
  split.
  - intros shape unknownKeys catchall opts depth key.
    rewrite convertZodObject_required, in_map_iff. split.
    + intros [[k f] [Hk Hin]]. simpl in Hk. subst k.
      apply filter_In in Hin. destruct Hin as [Hin Hopt]. simpl in Hopt.
      exists f. split; [exact Hin |].
      apply isZodOptional_typeName. now destruct (Zod.isZodOptional f).
    + intros [f [Hin Htag]]. exists (key, f). split; [reflexivity |].
      apply filter_In. split; [exact Hin |]. simpl.
      apply isZodOptional_typeName in Htag. now rewrite Htag.
  - intros desc opts depth key.
    rewrite convertObject_required, in_map_iff. split.
    + intros [[k f] [Hk Hin]]. simpl in Hk. subst k.
      apply filter_In in Hin. destruct Hin as [Hin Hreq]. simpl in Hreq.
      exists f. split; [exact Hin |].
      unfold presenceRequired in Hreq.
      destruct (Joi.flagPresence f) as [p |]; [| discriminate].
      apply String.eqb_eq in Hreq. now subst p.
    + intros [f [Hin Hreq]]. exists (key, f). split; [reflexivity |].
      apply filter_In. split; [exact Hin |]. simpl.
      unfold presenceRequired. rewrite Hreq. reflexivity.
Qed.

(** *** Patterns of a Zod string *)

Lemma stringCheck_pattern :
  forall result check,
    pattern (Zod.stringCheck result check)
    = if isPatternCheck check then patternOfCheck check else pattern result.
Proof.
  intros result check. destruct check; reflexivity.
Qed.

Lemma stringChecks_pattern :
  forall checks result,
    pattern (fold_left Zod.stringCheck checks result)
    = match lastPatternCheck checks with
      | Some check => patternOfCheck check
      | None => pattern result
      end.
Proof.
  induction checks as [| check checks IH] using rev_ind; intros result.
  - reflexivity.
  - unfold lastPatternCheck. rewrite !fold_left_app. simpl.
    rewrite stringCheck_pattern, IH. unfold lastPatternCheck.
    destruct (isPatternCheck check); reflexivity.
Qed.

(** C10.  Each of the checks [regex], [startsWith], [endsWith] and
    [includes] assigns the one [pattern] field, so the [pattern] of a
    converted string schema is the pattern of the last such check of the
    list taken alone; earlier ones leave no trace, and without such a
    check there is no [pattern]. *)
Theorem C10_pattern_from_last_check :
  (forall checks,
      pattern (Zod.convertZodString checks)
      = match lastPatternCheck checks with
        | Some check => patternOfCheck check
        | None => None
        end)
  /\ (forall check,
         patternOfCheck check
         = match check with
           | Zod.CheckRegex regex => Some (source regex)
           | Zod.CheckStartsWith value => Some ("^" ++ Zod.escapeRegex value)
           | Zod.CheckEndsWith value => Some (Zod.escapeRegex value ++ "$")
           | Zod.CheckIncludes value => Some (Zod.escapeRegex value)
           | _ => None
           end).
Proof.
  split.
  - intros checks. unfold Zod.convertZodString.
    rewrite stringChecks_pattern. reflexivity.
  - intros check. destruct check; reflexivity.
Qed.

Example pattern_overwritten :
  pattern (Zod.convertZodString
             [Zod.CheckStartsWith "a"; Zod.CheckMin (JNumber 1); Zod.CheckEndsWith "z"])
  = Some "z$".
Proof. reflexivity. Qed.

(** *** The resolver *)

(** C9.  [resolveSchemaInput] maps a string [s] to the reference node
    [{ $ref: s }], and returns unchanged any value that is neither a
    string nor recognized by [isZodSchema] or [isJoiSchema]. *)
Theorem C9_resolver_string_and_passthrough :
  forall (asZodSchema : JSValue -> Zod.ZodTypeAny)
         (describe : JSValue -> Joi.JoiDescription),
    (forall s : string,
        Resolver.resolveSchemaInput asZodSchema describe (JString s)
        = JObject [("$ref", JString s)])
    /\ (forall schema : JSValue,
           typeof schema <> "string" ->
           Resolver.isZodSchema schema = false ->
           Resolver.isJoiSchema schema = false ->
           Resolver.resolveSchemaInput asZodSchema describe schema = schema).
Proof.
  intros asZodSchema describe. split.
  - intros s. reflexivity.
  - intros schema Hstring Hzod Hjoi.
    unfold Resolver.resolveSchemaInput.
    rewrite Hzod, Hjoi.
    destruct (String.eqb_spec (typeof schema) "string") as [E | _].
    + contradiction.
    + reflexivity.
Qed.

Lemma C9_resolver_witness :
  Resolver.resolveSchemaInput (fun _ => zod Zod.ZodAny) (fun _ => joi "any")
    (JString "#/components/schemas/User")
  = JObject [("$ref", JString "#/components/schemas/User")]
  /\ Resolver.resolveSchemaInput (fun _ => zod Zod.ZodAny) (fun _ => joi "any") handWritten
     = handWritten.
Proof.
  split.
  - apply (proj1 (C9_resolver_string_and_passthrough _ _)).
  - apply (proj2 (C9_resolver_string_and_passthrough _ _)).
    + simpl. discriminate.
    + reflexivity.
    + reflexivity.
Defined.

(** *** Facts about nodes *)

Lemma later_None_l : forall (A : Type) (y : option A), later None y = y.
Proof. intros A [y |]; reflexivity. Qed.

Lemma later_None_r : forall (A : Type) (x : option A), later x None = x.
Proof. reflexivity. Qed.

Lemma spread_empty_l : forall n, spread emptySchema n = n.
Proof.
  intros n. destruct n. unfold spread. simpl. rewrite !later_None_l. reflexivity.
Qed.

Lemma spread_empty_r : forall n, spread n emptySchema = n.
Proof. intros n. destruct n. reflexivity. Qed.

(** A node without keys is the empty node. *)
Lemma hasKeys_false_empty : forall n, hasKeys n = false -> n = emptySchema.
Proof.
  intros n H. destruct n. unfold hasKeys, ownKeys in H. cbn [type format description
    default const enum not_ anyOf allOf properties required additionalProperties items
    prefixItems minItems maxItems uniqueItems minLength maxLength pattern contentEncoding
    minimum maximum exclusiveMinimum exclusiveMaximum multipleOf readOnly] in H.
  repeat match type of H with
         | context [key _ ?o] =>
             is_var o; destruct o; [simpl in H; discriminate H | simpl key in H]
         end.
  reflexivity.
Qed.

Lemma hasKeys_empty : hasKeys emptySchema = false.
Proof. reflexivity. Qed.

(** *** Nullable descriptions whose combined node is typeless *)

(** A typeless combined node that has a key is wrapped, even when that
    key is neither metadata of the description nor a composition key. *)
Example typeless_enum_alternative_is_wrapped :
  let choice := Joi.mkDescription "string" (Some (Joi.mkFlags None JUndefined None
                  (Some true) None None)) None None None None None (Some [JString "a"]) in
  let desc := Joi.mkDescription "alternatives" None None None None None
                (Some [Joi.mkMatch (Some choice)]) (Some [JNull]) in
  Joi.convertJoiDescription desc joiDefaults 0
  = Joi.orNull (emptySchema |> with_enum [JString "a"]).
Proof. reflexivity. Qed.

(** *** Tuples *)

Lemma convertZodTuple_closed :
  forall convert items opts depth,
    closedTuple (map (fun item => convert item opts (depth + 1)%Z) items)
      (Zod.convertZodTuple convert items None opts depth).
Proof.
  intros convert items opts depth. unfold closedTuple, Zod.convertZodTuple, lengthOf.
  simpl. rewrite length_map. repeat split.
Qed.

Lemma convertZodTuple_open :
  forall convert items rest opts depth,
    openTuple (map (fun item => convert item opts (depth + 1)%Z) items)
      (convert rest opts (depth + 1)%Z)
      (Zod.convertZodTuple convert items (Some rest) opts depth).
Proof.
  intros convert items rest opts depth. unfold openTuple, Zod.convertZodTuple, lengthOf.
  simpl. rewrite length_map. repeat split.
Qed.

Lemma convertArray_ordered :
  forall convert desc slots opts depth,
    Joi.ordered desc = Some slots ->
    slots <> [] ->
    closedTuple (map (fun item => convert item opts (depth + 1)%Z) slots)
      (Joi.convertArray convert desc opts depth).
Proof.
  intros convert desc slots opts depth Hordered Hslots.
  unfold closedTuple, Joi.convertArray, lengthOf. rewrite Hordered.
  destruct slots as [| slot slots]; [contradiction |].
  simpl. rewrite length_map. repeat split.
Qed.

(** *** Nullable Zod schemas *)

Lemma within_bound :
  forall depth bound : Z, (depth <= bound)%Z -> (depth >? bound)%Z = false.
Proof.
  intros depth bound H. rewrite Z.gtb_ltb. apply Z.ltb_ge. exact H.
Qed.

(** C3 (as the code has it).  For a nullable schema converted at a depth
    that does not exceed [maxDepth]: when the inner result has one
    scalar type name, the output is the description collected on the
    wrapper overlaid with the inner result, with [type] replaced by the
    pair of that name and ["null"]; otherwise it is the collected
    description together with [anyOf: [inner, { type: 'null' }]].  When
    nothing is collected on the wrapper, this is the output determined by
    the inner result alone. *)
Theorem C3_nullable_conversion :
  forall description innerType opts depth,
    (depth <= Zod.maxDepth opts)%Z ->
    let schema := Zod.mkZod description (Zod.ZodNullable innerType) in
    let inner := Zod.convertZodType innerType opts (depth + 1)%Z in
    let result := Zod.collected opts schema in
    Zod.convertZodType schema opts depth
    = match Zod.scalarType inner with
      | Some t => spread result inner |> with_type (TypeNames [t; "null"])
      | None => result |> with_anyOf [inner; nullSchema]
      end
    /\ (result = emptySchema -> Zod.convertZodType schema opts depth = nullableOf inner).
Proof.
  intros description innerType opts depth Hdepth schema inner result.
  assert (Hguard : (depth >? Zod.maxDepth opts)%Z = false)
    by (apply within_bound; exact Hdepth).
  assert (Hout :
    Zod.convertZodType schema opts depth
    = match Zod.scalarType inner with
      | Some t => spread result inner |> with_type (TypeNames [t; "null"])
      | None => result |> with_anyOf [inner; nullSchema]
      end).
  { subst schema inner result. simpl. rewrite Hguard. reflexivity. }
  split; [exact Hout |].
  intros Hempty. rewrite Hout, Hempty. unfold nullableOf.
  destruct (Zod.scalarType inner); [rewrite spread_empty_l |]; reflexivity.
Qed.

Lemma C3_nullable_conversion_witness :
  Zod.convertZodType describedNullableString zodDefaults 0
  = emptySchema |> with_description "note" |> with_type (TypeNames ["string"; "null"])
  /\ Zod.convertZodType (zod (Zod.ZodNullable (zod (Zod.ZodUnion [])))) zodDefaults 0
     = nullableOf (Zod.convertZodType (zod (Zod.ZodUnion [])) zodDefaults 1).
Proof.
  split.
  - refine (proj1 (C3_nullable_conversion (Some "note") (zod (Zod.ZodString []))
                     zodDefaults 0%Z _)).
    simpl. lia.
  - refine (proj2 (C3_nullable_conversion None (zod (Zod.ZodUnion []))
                     zodDefaults 0%Z _) _).
    + simpl. lia.
    + reflexivity.
Defined.

(** The output of a described nullable string is not the inner result
    with its type replaced: it also carries the description of the
    wrapper.  Past the depth bound the output is the empty node, not the
    wrap of the inner result. *)
Lemma C3_nullable_not_inner_alone :
  Zod.convertZodType describedNullableString zodDefaults 0
  <> nullableOf (Zod.convertZodType (zod (Zod.ZodString [])) zodDefaults 1)
  /\ Zod.convertZodType (zod (Zod.ZodNullable (zod (Zod.ZodString [])))) zodDefaults 21
     <> nullableOf (Zod.convertZodType (zod (Zod.ZodString [])) zodDefaults 22).
Proof.
  split; intros H; discriminate H.
Qed.

(** *** Unrecognized type tags *)

Lemma typeName_recognized :
  forall schema,
    Zod.isRecognized (Zod.typeName schema) = false ->
    exists name, Zod._def schema = Zod.ZodOther name.
Proof.
  intros [d def] H. destruct def; try discriminate H. simpl. eauto.
Qed.

Lemma unrecognized_typeSchema :
  forall convert desc opts depth,
    ~ In (Joi.type desc) Joi.recognizedTypes ->
    Joi.typeSchema convert desc opts depth = emptySchema.
Proof.
  intros convert desc opts depth Htype. unfold Joi.typeSchema.
  repeat match goal with
         | |- context [Joi.type desc =? ?t] =>
             destruct (String.eqb_spec (Joi.type desc) t) as [E | _];
             [exfalso; apply Htype; rewrite E; simpl; tauto |]
         end.
  reflexivity.
Qed.

(** C4 (as the code has it).  For a type tag outside the recognized
    ones, the Zod converter returns exactly the collected description
    (the empty node past the depth bound).  The Joi converter returns
    the empty node past the depth bound; the collected metadata plus
    [enum] when the description is an enum; [anyOf: [metadata, { type:
    'null' }]] when [null] is allowed and some metadata was collected;
    exactly the collected metadata otherwise.  Both functions are total:
    no input makes them fail. *)
Theorem C4_unrecognized_tag :
  (forall schema opts depth,
      Zod.isRecognized (Zod.typeName schema) = false ->
      Zod.convertZodType schema opts depth
      = if (depth >? Zod.maxDepth opts)%Z then emptySchema
        else Zod.collected opts schema)
  /\ (forall desc opts depth,
         ~ In (Joi.type desc) Joi.recognizedTypes ->
         Joi.convertJoiDescription desc opts depth
         = if (depth >? Joi.maxDepth opts)%Z then emptySchema
           else if Joi.isEnum desc
                then Joi.convertEnum (Joi.collected opts desc) (entriesOf (Joi.allow desc))
                else if Joi.hasNullAllow desc && hasKeys (Joi.collected opts desc)
                     then Joi.orNull (Joi.collected opts desc)
                     else Joi.collected opts desc)
  /\ (forall schema opts depth,
         Zod.isRecognized (Zod.typeName schema) = false ->
         onlyMetadata (Zod.convertZodType schema opts depth)).
Proof.
  split; [| split].
  - intros schema opts depth Htag.
    destruct (typeName_recognized schema Htag) as [name Hdef].
    destruct schema as [d def]. simpl in Hdef. subst def. reflexivity.
  - intros desc opts depth Htype.
    pose proof (unrecognized_typeSchema Joi.convertJoiDescription desc opts depth Htype)
      as Hswitch.
    destruct desc as [type flags rules keys items ordered matches allow].
    simpl in *.
    destruct (depth >? Joi.maxDepth opts)%Z; [reflexivity |].
    destruct (Joi.isEnum _) eqn:Henum.
    + destruct allow; [reflexivity |].
      unfold Joi.isEnum in Henum. simpl in Henum.
      now rewrite andb_false_r in Henum.
    + unfold Joi.combinedSchema. rewrite Hswitch, spread_empty_r.
      destruct (Joi.hasNullAllow _) eqn:Hnull; simpl.
      * unfold Joi.isEnum in Henum. rewrite andb_false_iff in Henum.
        destruct Henum as [Honly | Hallow].
        -- rewrite Honly. simpl. unfold Joi.applyNullable.
           set (result := Joi.collected opts _).
           assert (Htypeless : OpenAPI.type result = None).
           { subst result. unfold Joi.collected.
             repeat match goal with
                    | |- context [match ?x with _ => _ end] => destruct x
                    end; reflexivity. }
           rewrite Htypeless. reflexivity.
        -- unfold Joi.hasNullAllow in Hnull. simpl in *.
           destruct allow as [[| v values] |]; discriminate.
      * reflexivity.
  - intros schema opts depth Htag k Hin.
    destruct (typeName_recognized schema Htag) as [name Hdef].
    destruct schema as [d def]. simpl in Hdef. subst def. simpl in Hin.
    destruct (depth >? Zod.maxDepth opts)%Z; [contradiction |].
    unfold Zod.collected in Hin. simpl in Hin.
    destruct d as [text |]; [| contradiction].
    destruct (Zod.includeDescriptions opts && truthyString text);
      simpl in Hin; [| contradiction].
    destruct Hin as [<- | []]. now left.
Qed.

Lemma C4_unrecognized_tag_witness :
  Zod.convertZodType (zodDescribed "opaque" (Zod.ZodOther "ZodTemplateLiteral"))
    zodDefaults 0
  = emptySchema |> with_description "opaque"
  /\ Joi.convertJoiDescription nullableFunction joiDefaults 0
     = Joi.orNull (emptySchema |> with_description "callback")
  /\ onlyMetadata
       (Zod.convertZodType (zodDescribed "opaque" (Zod.ZodOther "ZodTemplateLiteral"))
          zodDefaults 0).
Proof.
  split; [| split].
  - refine (proj1 C4_unrecognized_tag
              (zodDescribed "opaque" (Zod.ZodOther "ZodTemplateLiteral")) zodDefaults
              0%Z _).
    reflexivity.
  - refine (proj1 (proj2 C4_unrecognized_tag) nullableFunction joiDefaults 0%Z _).
    simpl. intuition discriminate.
  - refine (proj2 (proj2 C4_unrecognized_tag)
              (zodDescribed "opaque" (Zod.ZodOther "ZodTemplateLiteral")) zodDefaults
              0%Z _).
    reflexivity.
Defined.

(** For Joi, an unrecognized type does not always yield a node with the
    metadata keys only: an enum adds [enum], and a described nullable is
    wrapped in [anyOf]. *)
Lemma C4_joi_unrecognized_not_only_metadata :
  ~ In (Joi.type symbolEnum) Joi.recognizedTypes
  /\ ~ onlyMetadata (Joi.convertJoiDescription symbolEnum joiDefaults 0)
  /\ ~ In (Joi.type nullableFunction) Joi.recognizedTypes
  /\ ~ onlyMetadata (Joi.convertJoiDescription nullableFunction joiDefaults 0).
Proof.
  assert (Hnot : forall t, t <> "string" -> t <> "number" -> t <> "boolean" ->
                   t <> "object" -> t <> "array" -> t <> "alternatives" ->
                   t <> "date" -> t <> "binary" -> t <> "any" ->
                   ~ In t Joi.recognizedTypes).
  { intros t. simpl. intuition congruence. }
  repeat split.
  - apply Hnot; discriminate.
  - intros H.
    destruct (H "enum"); [vm_compute; left; reflexivity | discriminate | discriminate].
  - apply Hnot; discriminate.
  - intros H.
    destruct (H "anyOf"); [vm_compute; left; reflexivity | discriminate | discriminate].
Qed.

(** *** Descriptions of pass-through wrappers *)

(** C8 (where the code departs from it).  A description extracted at
    the start of the conversion is meant to be present, unchanged, in
    the returned node.  The description of a branded schema is collected
    and then lost: the pass-through arms return the inner conversion
    alone, while the read-only arm merges what was collected.  In the
    merging arms a description of the inner schema replaces the one
    collected on the wrapper. *)
Theorem C8_wrapper_description_dropped :
  OpenAPI.description (Zod.collected zodDefaults describedBrand) = Some "User id"
  /\ Zod.convertZodType describedBrand zodDefaults 0
     = emptySchema |> with_type (TypeName "string")
  /\ OpenAPI.description (Zod.convertZodType describedBrand zodDefaults 0) = None
  /\ OpenAPI.description (Zod.convertZodType describedReadonly zodDefaults 0)
     = Some "User id"
  /\ OpenAPI.description (Zod.convertZodType redescribedOptional zodDefaults 0)
     = Some "inner".
Proof.
  repeat split.
Qed.

(** *** Induction over schemas *)

Section ZodInduction.
Variable P : Zod.ZodTypeAny -> Prop.
Hypothesis step :
  forall schema, (forall c, In c (zodChildren schema) -> P c) -> P schema.

(** A property holds of every Zod schema when it holds of a schema as
    soon as it holds of the schemas directly below it. *)
Lemma zod_children_ind : forall schema, P schema.
Proof.
  fix IH 1.
  intros [d def]. apply step. unfold zodChildren. simpl.
  destruct def; simpl; intros c Hin;
    repeat match goal with
           | H : In _ (_ ++ _) |- _ => apply in_app_or in H; destruct H as [H | H]
           | H : In _ (optional ?o) |- _ => destruct o; simpl in H
           | H : In _ (entriesOf ?o) |- _ => destruct o; simpl in H
           | H : In _ (map snd (entriesOf ?o)) |- _ => destruct o; simpl in H
           | H : _ \/ _ |- _ => destruct H as [H | H]
           | H : False |- _ => destruct H
           | H : ?x = ?y |- P ?y => rewrite <- H; apply IH
           end.
  all: match goal with
       | H : In ?y (map snd ?xs) |- P ?y =>
           revert y H; induction xs as [| [k x] tl IHtl]; simpl; intros y Hy;
           [destruct Hy | destruct Hy as [<- | Hy]; [apply IH | apply IHtl; exact Hy]]
       | H : In ?y ?xs |- P ?y =>
           revert y H; induction xs as [| x tl IHtl]; intros y Hy;
           [destruct Hy | destruct Hy as [<- | Hy]; [apply IH | apply IHtl; exact Hy]]
       end.
Qed.
End ZodInduction.

Section JoiInduction.
Variable P : Joi.JoiDescription -> Prop.
Hypothesis step :
  forall desc, (forall c, In c (joiChildren desc) -> P c) -> P desc.

(** The same principle for Joi descriptions. *)
Lemma joi_children_ind : forall desc, P desc.
Proof.
  fix IH 1.
  intros [type flags rules keys items ordered matches allow].
  apply step. unfold joiChildren. simpl. intros c Hin.
  repeat match goal with
         | H : In _ (_ ++ _) |- _ => apply in_app_or in H; destruct H as [H | H]
         end.
  - destruct keys as [entries |]; simpl in Hin; [| destruct Hin].
    revert c Hin. induction entries as [| [k x] tl IHtl]; simpl; intros c Hc;
      [destruct Hc | destruct Hc as [<- | Hc]; [apply IH | apply IHtl; exact Hc]].
  - destruct items as [its |]; simpl in Hin; [| destruct Hin].
    revert c Hin. induction its as [| x tl IHtl]; intros c Hc;
      [destruct Hc | destruct Hc as [<- | Hc]; [apply IH | apply IHtl; exact Hc]].
  - destruct ordered as [slots |]; simpl in Hin; [| destruct Hin].
    revert c Hin. induction slots as [| x tl IHtl]; intros c Hc;
      [destruct Hc | destruct Hc as [<- | Hc]; [apply IH | apply IHtl; exact Hc]].
  - destruct matches as [ms |]; simpl in Hin; [| destruct Hin].
    revert c Hin. induction ms as [| [[s |]] tl IHtl]; simpl; intros c Hc.
    + destruct Hc.
    + destruct Hc as [<- | Hc]; [apply IH | apply IHtl; exact Hc].
    + apply IHtl; exact Hc.
  - destruct rules as [rs |]; simpl in Hin; [| destruct Hin].
    revert c Hin. unfold ruleValues.
    induction rs as [| [name [[limit base version regex [v |]] |]] tl IHtl];
      simpl; intros c Hc.
    + destruct Hc.
    + destruct Hc as [<- | Hc]; [apply IH | apply IHtl; exact Hc].
    + apply IHtl; exact Hc.
    + apply IHtl; exact Hc.
Qed.
End JoiInduction.

(** *** Removing a key commutes with the construction of nodes *)

Lemma without_with_type :
  forall k v n,
    without k (with_type v n)
    = with_type v (without k n).
Proof. intros [] v []; reflexivity. Qed.

Lemma without_with_format :
  forall k v n,
    without k (with_format v n)
    = with_format v (without k n).
Proof. intros [] v []; reflexivity. Qed.

Lemma without_with_description :
  forall k v n,
    without k (with_description v n)
    = match k with
      | DescriptionKey => without k n
      | DefaultKey => with_description v (without k n)
      end.
Proof. intros [] v []; reflexivity. Qed.

Lemma without_with_default :
  forall k v n,
    without k (with_default v n)
    = match k with
      | DescriptionKey => with_default v (without k n)
      | DefaultKey => without k n
      end.
Proof. intros [] v []; reflexivity. Qed.

Lemma without_with_const :
  forall k v n,
    without k (with_const v n)
    = with_const v (without k n).
Proof. intros [] v []; reflexivity. Qed.

Lemma without_with_enum :
  forall k v n,
    without k (with_enum v n)
    = with_enum v (without k n).
Proof. intros [] v []; reflexivity. Qed.

Lemma without_with_not :
  forall k v n,
    without k (with_not v n)
    = with_not (without k v) (without k n).
Proof. intros [] v []; reflexivity. Qed.

Lemma without_with_anyOf :
  forall k v n,
    without k (with_anyOf v n)
    = with_anyOf (map (without k) v) (without k n).
Proof. intros [] v []; reflexivity. Qed.

Lemma without_with_allOf :
  forall k v n,
    without k (with_allOf v n)
    = with_allOf (map (without k) v) (without k n).
Proof. intros [] v []; reflexivity. Qed.

Lemma without_with_properties :
  forall k v n,
    without k (with_properties v n)
    = with_properties (withoutEach k v) (without k n).
Proof. intros [] v []; reflexivity. Qed.

Lemma without_with_required :
  forall k v n,
    without k (with_required v n)
    = with_required v (without k n).
Proof. intros [] v []; reflexivity. Qed.

Lemma without_with_additionalProperties :
  forall k v n,
    without k (with_additionalProperties v n)
    = with_additionalProperties (withoutIn k v) (without k n).
Proof. intros [] v []; reflexivity. Qed.

Lemma without_with_items :
  forall k v n,
    without k (with_items v n)
    = with_items (withoutIn k v) (without k n).
Proof. intros [] v []; reflexivity. Qed.

Lemma without_with_prefixItems :
  forall k v n,
    without k (with_prefixItems v n)
    = with_prefixItems (map (without k) v) (without k n).
Proof. intros [] v []; reflexivity. Qed.

Lemma without_with_minItems :
  forall k v n,
    without k (with_minItems v n)
    = with_minItems v (without k n).
Proof. intros [] v []; reflexivity. Qed.

Lemma without_with_maxItems :
  forall k v n,
    without k (with_maxItems v n)
    = with_maxItems v (without k n).
Proof. intros [] v []; reflexivity. Qed.

Lemma without_with_uniqueItems :
  forall k v n,
    without k (with_uniqueItems v n)
    = with_uniqueItems v (without k n).
Proof. intros [] v []; reflexivity. Qed.

Lemma without_with_minLength :
  forall k v n,
    without k (with_minLength v n)
    = with_minLength v (without k n).
Proof. intros [] v []; reflexivity. Qed.

Lemma without_with_maxLength :
  forall k v n,
    without k (with_maxLength v n)
    = with_maxLength v (without k n).
Proof. intros [] v []; reflexivity. Qed.

Lemma without_with_pattern :
  forall k v n,
    without k (with_pattern v n)
    = with_pattern v (without k n).
Proof. intros [] v []; reflexivity. Qed.

Lemma without_with_contentEncoding :
  forall k v n,
    without k (with_contentEncoding v n)
    = with_contentEncoding v (without k n).
Proof. intros [] v []; reflexivity. Qed.

Lemma without_with_minimum :
  forall k v n,
    without k (with_minimum v n)
    = with_minimum v (without k n).
Proof. intros [] v []; reflexivity. Qed.

Lemma without_with_maximum :
  forall k v n,
    without k (with_maximum v n)
    = with_maximum v (without k n).
Proof. intros [] v []; reflexivity. Qed.

Lemma without_with_exclusiveMinimum :
  forall k v n,
    without k (with_exclusiveMinimum v n)
    = with_exclusiveMinimum v (without k n).
Proof. intros [] v []; reflexivity. Qed.

Lemma without_with_exclusiveMaximum :
  forall k v n,
    without k (with_exclusiveMaximum v n)
    = with_exclusiveMaximum v (without k n).
Proof. intros [] v []; reflexivity. Qed.

Lemma without_with_multipleOf :
  forall k v n,
    without k (with_multipleOf v n)
    = with_multipleOf v (without k n).
Proof. intros [] v []; reflexivity. Qed.

Lemma without_with_readOnly :
  forall k v n,
    without k (with_readOnly v n)
    = with_readOnly v (without k n).
Proof. intros [] v []; reflexivity. Qed.
Create Rewrite HintDb without.
#[local] Hint Rewrite
  without_with_type without_with_format without_with_description without_with_default
  without_with_const without_with_enum without_with_not without_with_anyOf
  without_with_allOf without_with_properties without_with_required
  without_with_additionalProperties without_with_items without_with_prefixItems
  without_with_minItems without_with_maxItems without_with_uniqueItems
  without_with_minLength without_with_maxLength without_with_pattern
  without_with_contentEncoding without_with_minimum without_with_maximum
  without_with_exclusiveMinimum without_with_exclusiveMaximum without_with_multipleOf
  without_with_readOnly : without.

Lemma option_map_later :
  forall (A B : Type) (f : A -> B) (x y : option A),
    option_map f (later x y) = later (option_map f x) (option_map f y).
Proof. intros A B f x [y |]; reflexivity. Qed.

Lemma without_spread :
  forall k a b, without k (spread a b) = spread (without k a) (without k b).
Proof.
  intros k a b. destruct a, b. unfold spread. simpl.
  rewrite !option_map_later. destruct k; reflexivity.
Qed.

Lemma without_empty : forall k, without k emptySchema = emptySchema.
Proof. intros []; reflexivity. Qed.

Lemma without_null : forall k, without k nullSchema = nullSchema.
Proof. intros []; reflexivity. Qed.

Lemma type_without : forall k n, OpenAPI.type (without k n) = OpenAPI.type n.
Proof. intros [] []; reflexivity. Qed.

Lemma scalarType_without : forall k n, Zod.scalarType (without k n) = Zod.scalarType n.
Proof. intros k n. unfold Zod.scalarType. now rewrite type_without. Qed.

Lemma defaultIsUndefined_without_description :
  forall n, defaultIsUndefined (without DescriptionKey n) = defaultIsUndefined n.
Proof. intros []; reflexivity. Qed.

Lemma withoutEach_setProperty :
  forall k key v ps,
    withoutEach k (setProperty key v ps) = setProperty key (without k v) (withoutEach k ps).
Proof.
  intros k key v ps. induction ps as [| [key' v'] ps IH]; simpl.
  - reflexivity.
  - destruct (key' =? key); simpl; [reflexivity | now rewrite IH].
Qed.

Lemma withoutEach_assignProperty :
  forall k key v ps,
    withoutEach k (assignProperty key v ps)
    = assignProperty key (without k v) (withoutEach k ps).
Proof.
  intros k key v ps. unfold assignProperty.
  destruct (key =? "__proto__"); [reflexivity | apply withoutEach_setProperty].
Qed.

Lemma length_withoutEach :
  forall k ps, List.length (withoutEach k ps) = List.length ps.
Proof. intros k ps. apply length_map. Qed.

(** From here on, nodes are built and taken apart by the lemmas above
    only. *)
#[local] Arguments with_type : simpl never.
#[local] Arguments with_format : simpl never.
#[local] Arguments with_description : simpl never.
#[local] Arguments with_default : simpl never.
#[local] Arguments with_const : simpl never.
#[local] Arguments with_enum : simpl never.
#[local] Arguments with_not : simpl never.
#[local] Arguments with_anyOf : simpl never.
#[local] Arguments with_allOf : simpl never.
#[local] Arguments with_properties : simpl never.
#[local] Arguments with_required : simpl never.
#[local] Arguments with_additionalProperties : simpl never.
#[local] Arguments with_items : simpl never.
#[local] Arguments with_prefixItems : simpl never.
#[local] Arguments with_minItems : simpl never.
#[local] Arguments with_maxItems : simpl never.
#[local] Arguments with_uniqueItems : simpl never.
#[local] Arguments with_minLength : simpl never.
#[local] Arguments with_maxLength : simpl never.
#[local] Arguments with_pattern : simpl never.
#[local] Arguments with_contentEncoding : simpl never.
#[local] Arguments with_minimum : simpl never.
#[local] Arguments with_maximum : simpl never.
#[local] Arguments with_exclusiveMinimum : simpl never.
#[local] Arguments with_exclusiveMaximum : simpl never.
#[local] Arguments with_multipleOf : simpl never.
#[local] Arguments with_readOnly : simpl never.
#[local] Arguments spread : simpl never.
#[local] Arguments without : simpl never.

(** *** The option toggles of the Zod adapter *)

Lemma maxDepth_zodInclude :
  forall k on opts, Zod.maxDepth (zodInclude k on opts) = Zod.maxDepth opts.
Proof. intros [] on opts; reflexivity. Qed.

Lemma collected_zodInclude :
  forall k opts schema,
    Zod.collected (zodInclude k false opts) schema
    = without k (Zod.collected (zodInclude k true opts) schema).
Proof.
  intros k opts [[text |] def]; unfold Zod.collected; simpl.
  - destruct k; simpl.
    + destruct (truthyString text); reflexivity.
    + destruct (Zod.includeDescriptions opts && truthyString text); reflexivity.
  - destruct k; reflexivity.
Qed.

Lemma without_stringCheck :
  forall k result check,
    without k (Zod.stringCheck result check) = Zod.stringCheck (without k result) check.
Proof.
  intros k result check. destruct check; simpl; autorewrite with without; reflexivity.
Qed.

Lemma without_convertZodString :
  forall k checks, without k (Zod.convertZodString checks) = Zod.convertZodString checks.
Proof.
  intros k checks. unfold Zod.convertZodString.
  assert (H : forall result,
             without k (fold_left Zod.stringCheck checks result)
             = fold_left Zod.stringCheck checks (without k result)).
  { induction checks as [| check checks IH]; intros result; simpl.
    - reflexivity.
    - now rewrite IH, without_stringCheck. }
  rewrite H. autorewrite with without. now rewrite without_empty.
Qed.

Lemma without_convertZodNumber :
  forall k checks, without k (Zod.convertZodNumber checks) = Zod.convertZodNumber checks.
Proof.
  intros k checks. unfold Zod.convertZodNumber.
  assert (H : forall isInteger result,
             fold_left Zod.numberCheck checks (isInteger, without k result)
             = (fst (fold_left Zod.numberCheck checks (isInteger, result)),
                without k (snd (fold_left Zod.numberCheck checks (isInteger, result))))).
  { induction checks as [| check checks IH]; intros isInteger result; simpl.
    - reflexivity.
    - destruct check as [| value [|] | value [|] | value | | kind]; simpl;
        rewrite <- ?IH; autorewrite with without; try reflexivity;
        rewrite <- ?without_with_minimum, <- ?without_with_exclusiveMinimum,
          <- ?without_with_maximum, <- ?without_with_exclusiveMaximum,
          <- ?without_with_multipleOf; apply IH. }
  specialize (H false emptySchema). rewrite without_empty in H.
  destruct (fold_left Zod.numberCheck checks (false, emptySchema)) as [isInteger result].
  simpl in H. injection H as Hresult.
  autorewrite with without. now rewrite <- Hresult.
Qed.

Section ZodToggle.
Variable k : MetaKey.

Lemma zod_map_toggle :
  forall (schemas : list Zod.ZodTypeAny) opts depth,
    (forall c, In c schemas -> zodToggle k c) ->
    map (fun o => Zod.convertZodType o (zodInclude k false opts) depth) schemas
    = map (without k)
        (map (fun o => Zod.convertZodType o (zodInclude k true opts) depth) schemas).
Proof.
  intros schemas opts depth H. rewrite map_map. apply map_ext_in.
  intros c Hc. apply H. exact Hc.
Qed.

(** The value written for a field, with the default of a [ZodDefault]
    wrapper attached. *)
Lemma objectField_toggle :
  forall opts depth entries,
    (forall e, In e entries -> zodToggle k (Zod.unwrapZodOptional (snd e))) ->
    forall properties required,
      fold_left (Zod.objectField Zod.convertZodType (zodInclude k false opts) depth)
        entries (withoutEach k properties, required)
      = (withoutEach k
           (fst (fold_left
                   (Zod.objectField Zod.convertZodType (zodInclude k true opts) depth)
                   entries (properties, required))),
         snd (fold_left
                (Zod.objectField Zod.convertZodType (zodInclude k true opts) depth)
                entries (properties, required))).
Proof.
  intros opts depth entries.
  induction entries as [| [key fieldSchema] entries IH]; intros Hinner properties required.
  - reflexivity.
  - cbn [fold_left].
    assert (Hstep :
      Zod.objectField Zod.convertZodType (zodInclude k false opts) depth
        (withoutEach k properties, required) (key, fieldSchema)
      = (withoutEach k
           (fst (Zod.objectField Zod.convertZodType (zodInclude k true opts) depth
                   (properties, required) (key, fieldSchema))),
         snd (Zod.objectField Zod.convertZodType (zodInclude k true opts) depth
                (properties, required) (key, fieldSchema)))).
    { pose proof (Hinner (key, fieldSchema) (or_introl eq_refl) opts (depth + 1)%Z)
        as Hconverted.
      cbn [snd] in Hconverted.
      unfold Zod.objectField. cbv zeta. cbn [fst snd].
      rewrite withoutEach_assignProperty, Hconverted.
      set (converted :=
             Zod.convertZodType (Zod.unwrapZodOptional fieldSchema)
               (zodInclude k true opts) (depth + 1)%Z).
      f_equal. f_equal.
      destruct k; cbn [zodInclude Zod.includeDefaults].
      - rewrite defaultIsUndefined_without_description.
        destruct (Zod.includeDefaults opts
                  && (Zod.typeName fieldSchema =? "ZodDefault")
                  && defaultIsUndefined converted);
          [destruct (negb (isUndefined (Zod.callDefaultValue fieldSchema))) |];
          autorewrite with without; reflexivity.
      - cbn [andb].
        destruct ((Zod.typeName fieldSchema =? "ZodDefault")
                  && defaultIsUndefined converted);
          [destruct (negb (isUndefined (Zod.callDefaultValue fieldSchema))) |];
          autorewrite with without; reflexivity. }
    rewrite Hstep.
    destruct (Zod.objectField Zod.convertZodType (zodInclude k true opts) depth
                (properties, required) (key, fieldSchema)) as [properties' required'].
    cbn [fst snd]. apply IH.
    intros e He. apply Hinner. right. exact He.
Qed.
End ZodToggle.

Section ZodComposite.
Variable k : MetaKey.

Lemma convertZodObject_toggle :
  forall shape unknownKeys catchall opts depth,
    (forall e, In e (entriesOf shape) -> zodToggle k (Zod.unwrapZodOptional (snd e))) ->
    (forall c, In c (optional catchall) -> zodToggle k c) ->
    Zod.convertZodObject Zod.convertZodType shape unknownKeys catchall
      (zodInclude k false opts) depth
    = without k
        (Zod.convertZodObject Zod.convertZodType shape unknownKeys catchall
           (zodInclude k true opts) depth).
Proof.
  intros shape unknownKeys catchall opts depth Hfields Hcatchall.
  unfold Zod.convertZodObject.
  assert (Hloop :
    match shape with
    | Some entries =>
        fold_left (Zod.objectField Zod.convertZodType (zodInclude k false opts) depth)
          entries ([], [])
    | None => ([], [])
    end
    = (withoutEach k
         (fst match shape with
              | Some entries =>
                  fold_left
                    (Zod.objectField Zod.convertZodType (zodInclude k true opts) depth)
                    entries ([], [])
              | None => ([], [])
              end),
       snd match shape with
           | Some entries =>
               fold_left
                 (Zod.objectField Zod.convertZodType (zodInclude k true opts) depth)
                 entries ([], [])
           | None => ([], [])
           end)).
  { destruct shape as [entries |]; [| reflexivity].
    apply (objectField_toggle k opts depth entries Hfields [] []). }
  rewrite Hloop. clear Hloop.
  destruct (match shape with Some _ => _ | None => _ end) as [properties required].
  cbn [fst snd]. rewrite length_withoutEach.
  assert (Hcatch :
    forall c, catchall = Some c ->
      Zod.convertZodType c (zodInclude k false opts) (depth + 1)%Z
      = without k (Zod.convertZodType c (zodInclude k true opts) (depth + 1)%Z)).
  { intros c ->. apply Hcatchall. now left. }
  destruct catchall as [c |];
    [rewrite (Hcatch c eq_refl); destruct (negb (Zod.typeName c =? "ZodNever")) |];
    (destruct unknownKeys as [mode |];
     [destruct (mode =? "strict"); [| destruct (mode =? "passthrough")] |]);
    destruct (0 <? List.length properties)%nat;
    destruct (0 <? List.length required)%nat;
    autorewrite with without; rewrite ?without_empty; reflexivity.
Qed.

Lemma convertZodArray_toggle :
  forall itemSchema minLength maxLength exactLength opts depth,
    (forall c, In c (optional itemSchema) -> zodToggle k c) ->
    Zod.convertZodArray Zod.convertZodType itemSchema minLength maxLength exactLength
      (zodInclude k false opts) depth
    = without k
        (Zod.convertZodArray Zod.convertZodType itemSchema minLength maxLength
           exactLength (zodInclude k true opts) depth).
Proof.
  intros itemSchema minLength maxLength exactLength opts depth Hitem.
  unfold Zod.convertZodArray.
  destruct itemSchema as [item |];
    [rewrite (Hitem item (or_introl eq_refl)) |];
    destruct exactLength; destruct minLength; destruct maxLength;
    autorewrite with without; rewrite ?without_empty; reflexivity.
Qed.

Lemma convertZodTuple_toggle :
  forall items rest opts depth,
    (forall c, In c (items ++ optional rest) -> zodToggle k c) ->
    Zod.convertZodTuple Zod.convertZodType items rest (zodInclude k false opts) depth
    = without k
        (Zod.convertZodTuple Zod.convertZodType items rest (zodInclude k true opts)
           depth).
Proof.
  intros items rest opts depth Hslots.
  unfold Zod.convertZodTuple.
  rewrite (zod_map_toggle k items opts (depth + 1)%Z)
    by (intros c Hc; apply Hslots, in_or_app; now left).
  destruct rest as [r |];
    [rewrite (Hslots r) by (apply in_or_app; right; now left) |];
    autorewrite with without; rewrite ?without_empty; reflexivity.
Qed.
End ZodComposite.

(** For the Zod adapter, switching an inclusion option off removes the
    key from every node and changes nothing else. *)
Lemma zod_toggle :
  forall k schema, zodToggle k schema.
Proof.
  intros k schema.
  enough (H : zodToggle k schema /\ zodToggle k (Zod.unwrapZodOptional schema))
    by apply H.
  induction schema as [schema IH] using zod_children_ind.
  assert (Hchild : forall c, In c (zodChildren schema) -> zodToggle k c)
    by (intros c Hc; apply IH, Hc).
  assert (Hunwrapped :
    forall c, In c (zodChildren schema) -> zodToggle k (Zod.unwrapZodOptional c))
    by (intros c Hc; apply IH, Hc).
  assert (Hschema : zodToggle k schema).
  { intros opts depth.
    destruct schema as [d def]. unfold zodChildren in Hchild, Hunwrapped.
    cbn [Zod._def] in Hchild, Hunwrapped.
    destruct def; cbn [Zod.convertZodType Zod._def];
      rewrite !maxDepth_zodInclude;
      (destruct (depth >? Zod.maxDepth opts)%Z; [now rewrite without_empty |]);
      rewrite ?collected_zodInclude;
      repeat match goal with
             | |- context [Zod.convertZodType ?c (zodInclude k false opts) ?d] =>
                 rewrite (Hchild c) by (simpl; tauto)
             end;
      autorewrite with without; rewrite ?without_spread, ?without_empty;
      rewrite ?without_convertZodString, ?without_convertZodNumber;
      try reflexivity.
    - f_equal. apply convertZodObject_toggle.
      + intros e He. apply Hunwrapped, in_or_app. left. now apply in_map.
      + intros c Hc. apply Hchild, in_or_app. now right.
    - f_equal. now apply convertZodArray_toggle.
    - f_equal. now apply convertZodTuple_toggle.
    - now rewrite (zod_map_toggle k options opts (depth + 1)%Z Hchild).
    - now rewrite (zod_map_toggle k options opts (depth + 1)%Z Hchild).
    - rewrite scalarType_without.
      destruct (Zod.scalarType _);
        autorewrite with without; cbn [map]; autorewrite with without;
        rewrite ?without_spread, ?without_empty; reflexivity.
    - destruct k; cbn [zodInclude Zod.includeDefaults]; cbn [andb];
        try destruct (Zod.includeDefaults opts); cbn [andb];
        destruct (negb (isUndefined defaultValue));
        autorewrite with without; rewrite ?without_spread; reflexivity.
    - destruct valueType as [v |];
        [rewrite (Hchild v) by (simpl; tauto) |];
        autorewrite with without; reflexivity.
    - destruct valueType as [v |];
        [rewrite (Hchild v) by (simpl; tauto) |];
        autorewrite with without; reflexivity. }
  split; [exact Hschema |].
  destruct schema as [d def].
  destruct def; try exact Hschema; apply Hchild; simpl; tauto.
Qed.

(** *** The option toggles of the Joi adapter *)

Lemma maxDepth_joiInclude :
  forall k on opts, Joi.maxDepth (joiInclude k on opts) = Joi.maxDepth opts.
Proof. intros [] on opts; reflexivity. Qed.

Lemma collected_joiInclude :
  forall k opts desc,
    Joi.collected (joiInclude k false opts) desc
    = without k (Joi.collected (joiInclude k true opts) desc).
Proof.
  intros k opts desc. unfold Joi.collected.
  destruct k; cbn [joiInclude Joi.includeDescriptions Joi.includeDefaults andb].
  - destruct (Joi.flagDescription desc) as [text |];
      [destruct (truthyString text) |];
      destruct (Joi.includeDefaults opts && negb (isUndefined (Joi.flagDefault desc)));
      autorewrite with without; rewrite ?without_empty; reflexivity.
  - destruct (Joi.flagDescription desc) as [text |];
      [destruct (Joi.includeDescriptions opts && truthyString text) |];
      destruct (negb (isUndefined (Joi.flagDefault desc)));
      autorewrite with without; rewrite ?without_empty; reflexivity.
Qed.

(** Pushes [without] through the construction of a node. *)
Ltac push_without :=
  repeat (progress (autorewrite with without; cbn [withoutIn]));
  rewrite ?without_empty.

(** Splits the nested conditionals of a rule dispatch. *)
Ltac split_conditionals :=
  repeat match goal with
         | |- context [if ?b then _ else _] => destruct b
         | |- context [match ?x with _ => _ end] => destruct x
         end.

Lemma without_stringRule :
  forall k result (rule : Joi.JoiRule Joi.JoiDescription),
    without k (Joi.stringRule result rule) = Joi.stringRule (without k result) rule.
Proof.
  intros k result rule. unfold Joi.stringRule. cbv zeta.
  split_conditionals; autorewrite with without; reflexivity.
Qed.

Lemma without_arrayRule :
  forall k result (rule : Joi.JoiRule Joi.JoiDescription),
    without k (Joi.arrayRule result rule) = Joi.arrayRule (without k result) rule.
Proof.
  intros k result rule. unfold Joi.arrayRule. cbv zeta.
  split_conditionals; autorewrite with without; reflexivity.
Qed.

Lemma without_fold_rules :
  forall k (f : SchemaObject -> Joi.JoiRule Joi.JoiDescription -> SchemaObject),
    (forall result rule, without k (f result rule) = f (without k result) rule) ->
    forall rules result,
      without k (fold_left f rules result) = fold_left f rules (without k result).
Proof.
  intros k f Hf rules. induction rules as [| rule rules IH]; intros result; simpl.
  - reflexivity.
  - now rewrite IH, Hf.
Qed.

Lemma without_convertString :
  forall k desc opts, without k (Joi.convertString desc opts) = Joi.convertString desc opts.
Proof.
  intros k desc opts. unfold Joi.convertString. cbv zeta.
  rewrite (without_fold_rules k _ (without_stringRule k)).
  autorewrite with without. now rewrite without_empty.
Qed.

Lemma without_convertNumber :
  forall k desc, without k (Joi.convertNumber desc) = Joi.convertNumber desc.
Proof.
  intros k desc. unfold Joi.convertNumber. cbv zeta.
  set (rules := match Joi.rules desc with Some rs => rs | None => [] end).
  assert (H : forall isInteger result,
             fold_left Joi.numberRule rules (isInteger, without k result)
             = (fst (fold_left Joi.numberRule rules (isInteger, result)),
                without k (snd (fold_left Joi.numberRule rules (isInteger, result))))).
  { induction rules as [| rule rules IH]; intros isInteger result.
    - reflexivity.
    - cbn [fold_left].
      assert (Hstep :
        Joi.numberRule (isInteger, without k result) rule
        = (fst (Joi.numberRule (isInteger, result) rule),
           without k (snd (Joi.numberRule (isInteger, result) rule)))).
      { unfold Joi.numberRule. cbv zeta.
        split_conditionals; cbn [fst snd]; autorewrite with without; reflexivity. }
      rewrite Hstep.
      destruct (Joi.numberRule (isInteger, result) rule) as [isInteger' result'].
      apply IH. }
  specialize (H false emptySchema). rewrite without_empty in H.
  destruct (fold_left Joi.numberRule rules (false, emptySchema)) as [isInteger result].
  cbn [fst snd] in H. injection H as Hresult.
  autorewrite with without. now rewrite <- Hresult.
Qed.

(** The pattern-based [additionalProperties] of an object comes from the
    value schema of the first [pattern] rule. *)
Lemma patternRules_first :
  forall (A : Type) convert opts depth (rs : list (Joi.JoiRule Joi.JoiDescription))
         (found : SchemaObject -> A) (missing : A),
    match filter (fun r => fst r =? "pattern") (map (Joi.ruleValue convert opts depth) rs)
    with
    | (_, Some converted) :: _ => found converted
    | _ => missing
    end
    = match firstPatternValue rs with
      | Some valueDesc => found (convert valueDesc opts (depth + 1)%Z)
      | None => missing
      end.
Proof.
  intros A convert opts depth rs found missing. unfold firstPatternValue.
  induction rs as [| rule rs IH]; [reflexivity |].
  cbn [map filter].
  destruct (Joi.ruleValue convert opts depth rule) as [name converted] eqn:Erule.
  unfold Joi.ruleValue in Erule. injection Erule as <- <-. cbn [fst].
  destruct (Joi.name rule =? "pattern"); [| exact IH].
  destruct (Joi.args rule) as [a |]; [destruct (Joi.value a) |]; reflexivity.
Qed.

Section JoiComposite.
Variable k : MetaKey.
Variable opts : Joi.Options.

Lemma joi_map_toggle :
  forall (descs : list Joi.JoiDescription) depth,
    (forall c, In c descs -> joiToggle k opts depth c) ->
    map (fun d => Joi.convertJoiDescription d (joiInclude k false opts) depth) descs
    = map (without k)
        (map (fun d => Joi.convertJoiDescription d (joiInclude k true opts) depth)
             descs).
Proof.
  intros descs depth H. rewrite map_map. apply map_ext_in.
  intros c Hc. apply H. exact Hc.
Qed.

Lemma objectKey_toggle :
  forall depth entries,
    (forall e, In e entries -> joiToggle k opts (depth + 1)%Z (snd e)) ->
    forall properties required,
      fold_left (Joi.objectKey Joi.convertJoiDescription (joiInclude k false opts) depth)
        entries (withoutEach k properties, required)
      = (withoutEach k
           (fst (fold_left
                   (Joi.objectKey Joi.convertJoiDescription (joiInclude k true opts)
                      depth)
                   entries (properties, required))),
         snd (fold_left
                (Joi.objectKey Joi.convertJoiDescription (joiInclude k true opts) depth)
                entries (properties, required))).
Proof.
  intros depth entries.
  induction entries as [| [key fieldDesc] entries IH]; intros Hkeys properties required.
  - reflexivity.
  - cbn [fold_left].
    assert (Hstep :
      Joi.objectKey Joi.convertJoiDescription (joiInclude k false opts) depth
        (withoutEach k properties, required) (key, fieldDesc)
      = (withoutEach k
           (fst (Joi.objectKey Joi.convertJoiDescription (joiInclude k true opts) depth
                   (properties, required) (key, fieldDesc))),
         snd (Joi.objectKey Joi.convertJoiDescription (joiInclude k true opts) depth
                (properties, required) (key, fieldDesc)))).
    { pose proof (Hkeys (key, fieldDesc) (or_introl eq_refl)) as Hconverted.
      unfold joiToggle in Hconverted. cbn [snd] in Hconverted.
      unfold Joi.objectKey. cbv zeta. cbn [fst snd].
      now rewrite withoutEach_assignProperty, Hconverted. }
    rewrite Hstep.
    destruct (Joi.objectKey Joi.convertJoiDescription (joiInclude k true opts) depth
                (properties, required) (key, fieldDesc)) as [properties' required'].
    cbn [fst snd]. apply IH.
    intros e He. apply Hkeys. right. exact He.
Qed.

Lemma convertObject_toggle :
  forall desc depth,
    (forall c,
        In c (map snd (entriesOf (Joi.keys desc))
              ++ optional (firstPatternValue (entriesOf (Joi.rules desc)))) ->
        joiToggle k opts (depth + 1)%Z c) ->
    Joi.convertObject Joi.convertJoiDescription desc (joiInclude k false opts) depth
    = without k
        (Joi.convertObject Joi.convertJoiDescription desc (joiInclude k true opts)
           depth).
Proof.
  intros desc depth Hvisited.
  unfold Joi.convertObject. cbv zeta.
  assert (Hloop :
    match Joi.keys desc with
    | Some entries =>
        fold_left
          (Joi.objectKey Joi.convertJoiDescription (joiInclude k false opts) depth)
          entries ([], [])
    | None => ([], [])
    end
    = (withoutEach k
         (fst match Joi.keys desc with
              | Some entries =>
                  fold_left
                    (Joi.objectKey Joi.convertJoiDescription (joiInclude k true opts)
                       depth)
                    entries ([], [])
              | None => ([], [])
              end),
       snd match Joi.keys desc with
           | Some entries =>
               fold_left
                 (Joi.objectKey Joi.convertJoiDescription (joiInclude k true opts)
                    depth)
                 entries ([], [])
           | None => ([], [])
           end)).
  { destruct (Joi.keys desc) as [entries |] eqn:Hkeys; [| reflexivity].
    refine (objectKey_toggle depth entries _ [] []).
    intros e He. apply Hvisited, in_or_app. left. simpl. now apply in_map. }
  rewrite Hloop. clear Hloop.
  destruct (match Joi.keys desc with Some _ => _ | None => _ end)
    as [properties required].
  cbn [fst snd]. rewrite length_withoutEach.
  assert (Hrules :
    forall (A : Type) convertOpts (found : SchemaObject -> A) (missing : A),
      match
        match Joi.rules desc with
        | Some rs =>
            filter (fun r => fst r =? "pattern")
              (map (Joi.ruleValue Joi.convertJoiDescription convertOpts depth) rs)
        | None => []
        end
      with
      | (_, Some converted) :: _ => found converted
      | _ => missing
      end
      = match firstPatternValue (entriesOf (Joi.rules desc)) with
        | Some valueDesc =>
            found (Joi.convertJoiDescription valueDesc convertOpts (depth + 1)%Z)
        | None => missing
        end).
  { intros A convertOpts found missing.
    destruct (Joi.rules desc) as [rs |]; [apply patternRules_first | reflexivity]. }
  rewrite !Hrules. clear Hrules.
  assert (Hpattern :
    forall valueDesc,
      firstPatternValue (entriesOf (Joi.rules desc)) = Some valueDesc ->
      joiToggle k opts (depth + 1)%Z valueDesc).
  { intros valueDesc Hfirst. apply Hvisited, in_or_app. right.
    rewrite Hfirst. now left. }
  destruct (firstPatternValue (entriesOf (Joi.rules desc))) as [valueDesc |];
    [rewrite (Hpattern valueDesc eq_refl) |];
    destruct (Joi.flagAllowUnknown desc) as [[|] |];
    destruct (0 <? List.length properties)%nat;
    destruct (0 <? List.length required)%nat;
    autorewrite with without; rewrite ?without_empty; reflexivity.
Qed.
End JoiComposite.

Section JoiDispatch.
Variable k : MetaKey.
Variable opts : Joi.Options.

Lemma plainArray_toggle :
  forall desc depth,
    (forall c, In c (entriesOf (Joi.items desc)) -> joiToggle k opts (depth + 1)%Z c) ->
    Joi.plainArray Joi.convertJoiDescription desc (joiInclude k false opts) depth
    = without k
        (Joi.plainArray Joi.convertJoiDescription desc (joiInclude k true opts) depth).
Proof.
  intros desc depth Hitems.
  unfold Joi.plainArray. cbv zeta.
  assert (Hrules : forall a b : SchemaObject, a = without k b ->
    match Joi.rules desc with
    | Some rs => fold_left Joi.arrayRule rs a
    | None => a
    end
    = without k match Joi.rules desc with
                | Some rs => fold_left Joi.arrayRule rs b
                | None => b
                end).
  { intros a b ->. destruct (Joi.rules desc) as [rs |]; [| reflexivity].
    now rewrite (without_fold_rules k _ (without_arrayRule k)). }
  apply Hrules.
  destruct (Joi.items desc) as [[| item [| item' its]] |]; cbn [entriesOf] in Hitems.
  - push_without. reflexivity.
  - rewrite (Hitems item (or_introl eq_refl)).
    push_without. reflexivity.
  - rewrite (joi_map_toggle k opts _ (depth + 1)%Z Hitems).
    push_without. reflexivity.
  - push_without. reflexivity.
Qed.

Lemma convertArray_toggle :
  forall desc depth,
    (forall c, In c (visitedItems desc) -> joiToggle k opts (depth + 1)%Z c) ->
    Joi.convertArray Joi.convertJoiDescription desc (joiInclude k false opts) depth
    = without k
        (Joi.convertArray Joi.convertJoiDescription desc (joiInclude k true opts) depth).
Proof.
  intros desc depth Hvisited.
  unfold Joi.convertArray. cbv zeta.
  unfold visitedItems in Hvisited.
  destruct (Joi.ordered desc) as [slots |]; [| now apply plainArray_toggle].
  destruct (0 <? List.length slots)%nat; [| now apply plainArray_toggle].
  rewrite (joi_map_toggle k opts slots (depth + 1)%Z Hvisited).
  push_without. reflexivity.
Qed.

Lemma present_map_toggle :
  forall (ms : list (Joi.JoiAlternativeMatch Joi.JoiDescription)) depth,
    (forall c,
        In c (flat_map (fun m => match Joi.schema m with Some s => [s] | None => [] end)
                ms) ->
        joiToggle k opts depth c) ->
    Joi.present
      (map (fun m => match Joi.schema m with
                     | Some s =>
                         Some (Joi.convertJoiDescription s (joiInclude k false opts)
                                 depth)
                     | None => None
                     end) ms)
    = map (without k)
        (Joi.present
           (map (fun m => match Joi.schema m with
                          | Some s =>
                              Some (Joi.convertJoiDescription s
                                      (joiInclude k true opts) depth)
                          | None => None
                          end) ms)).
Proof.
  intros ms depth. induction ms as [| [[s |]] ms IH]; intros Hschemas; cbn.
  - reflexivity.
  - rewrite (Hschemas s) by (cbn; now left).
    f_equal. apply IH. intros c Hc. apply Hschemas. cbn. now right.
  - apply IH. exact Hschemas.
Qed.

Lemma convertAlternatives_toggle :
  forall desc depth,
    (forall c, In c (matchSchemas desc) -> joiToggle k opts (depth + 1)%Z c) ->
    Joi.convertAlternatives Joi.convertJoiDescription desc (joiInclude k false opts)
      depth
    = without k
        (Joi.convertAlternatives Joi.convertJoiDescription desc
           (joiInclude k true opts) depth).
Proof.
  intros desc depth Hschemas.
  unfold Joi.convertAlternatives. cbv zeta. unfold matchSchemas in Hschemas.
  destruct (Joi.matches desc) as [ms |]; cbn [entriesOf] in Hschemas.
  - rewrite (present_map_toggle ms (depth + 1)%Z Hschemas).
    destruct (Joi.present _) as [| only [| second rest]]; cbn [map].
    + now rewrite without_empty.
    + reflexivity.
    + push_without. cbn [map]. push_without. reflexivity.
  - now rewrite without_empty.
Qed.

Lemma typeSchema_toggle :
  forall desc depth,
    (forall c, In c (joiVisited desc) -> joiToggle k opts (depth + 1)%Z c) ->
    Joi.typeSchema Joi.convertJoiDescription desc (joiInclude k false opts) depth
    = without k
        (Joi.typeSchema Joi.convertJoiDescription desc (joiInclude k true opts) depth).
Proof.
  intros desc depth Hvisited.
  unfold Joi.typeSchema. unfold joiVisited in Hvisited. cbv zeta in *.
  destruct (Joi.type desc =? "string").
  { now rewrite without_convertString. }
  destruct (Joi.type desc =? "number").
  { now rewrite without_convertNumber. }
  destruct (Joi.type desc =? "boolean").
  { unfold Joi.convertBoolean. push_without. reflexivity. }
  destruct (Joi.type desc =? "object").
  { apply convertObject_toggle. exact Hvisited. }
  destruct (Joi.type desc =? "array").
  { apply convertArray_toggle. exact Hvisited. }
  destruct (Joi.type desc =? "alternatives").
  { apply convertAlternatives_toggle. exact Hvisited. }
  destruct (Joi.type desc =? "date").
  { push_without. reflexivity. }
  destruct (Joi.type desc =? "binary").
  { push_without. reflexivity. }
  destruct (Joi.type desc =? "any"); now rewrite without_empty.
Qed.
End JoiDispatch.

(** *** The null fold and the visited descriptions *)

Lemma typed_hasKeys :
  forall n t, OpenAPI.type n = Some t -> hasKeys n = true.
Proof.
  intros n t H. destruct n. cbn in H. subst. reflexivity.
Qed.

Lemma without_orNull :
  forall k rest, without k (Joi.orNull rest) = Joi.orNull (without k rest).
Proof.
  intros k rest. unfold Joi.orNull. push_without. cbn [map]. push_without. reflexivity.
Qed.

Lemma applyNullable_without :
  forall k combined,
    onlyKey k combined = false ->
    Joi.applyNullable (without k combined) = without k (Joi.applyNullable combined).
Proof.
  intros k combined Honly. unfold Joi.applyNullable. cbv zeta.
  rewrite type_without.
  assert (Hwrap :
    (if hasKeys (without k combined)
     then Joi.orNull (without k combined) else without k combined)
    = without k (if hasKeys combined then Joi.orNull combined else combined)).
  { unfold onlyKey in Honly.
    destruct (hasKeys combined) eqn:Hkeys.
    - cbn [andb] in Honly. apply negb_false_iff in Honly. rewrite Honly.
      now rewrite without_orNull.
    - apply hasKeys_false_empty in Hkeys. subst combined.
      rewrite without_empty. reflexivity. }
  destruct (OpenAPI.type combined) as [[t | ts] |].
  - destruct (truthyString t); [| exact Hwrap]. push_without. reflexivity.
  - destruct (negb (existsb (String.eqb "null") ts)); push_without; reflexivity.
  - exact Hwrap.
Qed.

Lemma firstPatternBelow_spec :
  forall below rs valueDesc,
    firstPatternBelow below rs = true ->
    firstPatternValue rs = Some valueDesc ->
    below valueDesc = true.
Proof.
  intros below rs valueDesc. unfold firstPatternValue.
  induction rs as [| rule rs IH]; cbn [firstPatternBelow filter]; [discriminate |].
  destruct (Joi.name rule =? "pattern"); [| exact IH].
  destruct (Joi.args rule) as [a |]; [| discriminate].
  destruct (Joi.value a) as [v |]; [| discriminate].
  intros Hv Heq. injection Heq as <-. exact Hv.
Qed.

Lemma visitedBelow_spec :
  forall below desc c,
    visitedBelow below desc = true -> In c (joiVisited desc) -> below c = true.
Proof.
  intros below desc c. unfold visitedBelow, joiVisited. cbv zeta.
  destruct (Joi.type desc =? "string"); [intros _ [] |].
  destruct (Joi.type desc =? "number"); [intros _ [] |].
  destruct (Joi.type desc =? "boolean"); [intros _ [] |].
  destruct (Joi.type desc =? "object").
  { intros Hbelow Hc. apply andb_prop in Hbelow. destruct Hbelow as [Hkeys Hrules].
    apply in_app_or in Hc. destruct Hc as [Hc | Hc].
    - destruct (Joi.keys desc) as [entries |]; [| destruct Hc].
      cbn [entriesOf] in Hc. apply in_map_iff in Hc. destruct Hc as [e [<- He]].
      rewrite forallb_forall in Hkeys. now apply Hkeys.
    - destruct (Joi.rules desc) as [rs |]; [| destruct Hc].
      cbn [entriesOf] in Hc.
      destruct (firstPatternValue rs) as [v |] eqn:Hfirst; [| destruct Hc].
      destruct Hc as [<- | []]. now apply (firstPatternBelow_spec below rs). }
  destruct (Joi.type desc =? "array").
  { unfold visitedItems. intros Hbelow Hc.
    assert (Hitems : match Joi.items desc with
                     | Some its => forallb below its
                     | None => true
                     end = true ->
                     In c (entriesOf (Joi.items desc)) -> below c = true).
    { destruct (Joi.items desc) as [its |]; [| intros _ []].
      intros H Hin. rewrite forallb_forall in H. now apply H. }
    destruct (Joi.ordered desc) as [slots |]; [| now apply Hitems].
    destruct (0 <? List.length slots)%nat; [| now apply Hitems].
    rewrite forallb_forall in Hbelow. now apply Hbelow. }
  destruct (Joi.type desc =? "alternatives").
  { unfold matchSchemas. intros Hbelow Hc.
    destruct (Joi.matches desc) as [ms |]; [| destruct Hc].
    cbn [entriesOf] in Hc. apply in_flat_map in Hc. destruct Hc as [m [Hm Hc]].
    rewrite forallb_forall in Hbelow. specialize (Hbelow m Hm).
    destruct (Joi.schema m) as [s |]; [| destruct Hc].
    destruct Hc as [<- | []]. exact Hbelow. }
  intros _ [].
Qed.

Lemma firstPatternValue_ruleValues :
  forall rs valueDesc,
    firstPatternValue rs = Some valueDesc -> In valueDesc (ruleValues rs).
Proof.
  intros rs valueDesc. unfold firstPatternValue, ruleValues.
  induction rs as [| rule rs IH]; cbn [filter flat_map]; [discriminate |].
  destruct (Joi.name rule =? "pattern").
  - intros H. apply in_or_app. left.
    destruct (Joi.args rule) as [a |]; [| discriminate]. rewrite H. now left.
  - intros H. apply in_or_app. right. now apply IH.
Qed.

Lemma joiVisited_children :
  forall desc c, In c (joiVisited desc) -> In c (joiChildren desc).
Proof.
  intros desc c. unfold joiVisited, joiChildren. cbv zeta.
  destruct (Joi.type desc =? "string"); [intros [] |].
  destruct (Joi.type desc =? "number"); [intros [] |].
  destruct (Joi.type desc =? "boolean"); [intros [] |].
  destruct (Joi.type desc =? "object").
  { intros Hc. apply in_app_or in Hc. destruct Hc as [Hc | Hc].
    - apply in_or_app. now left.
    - do 4 (apply in_or_app; right).
      destruct (firstPatternValue _) as [v |] eqn:Hfirst; [| destruct Hc].
      destruct Hc as [<- | []]. now apply firstPatternValue_ruleValues. }
  destruct (Joi.type desc =? "array").
  { unfold visitedItems. intros Hc.
    assert (Hitems : In c (entriesOf (Joi.items desc)) ->
                     In c (map snd (entriesOf (Joi.keys desc))
                           ++ entriesOf (Joi.items desc)
                           ++ entriesOf (Joi.ordered desc)
                           ++ flat_map (fun m => optional (Joi.schema m))
                                (entriesOf (Joi.matches desc))
                           ++ ruleValues (entriesOf (Joi.rules desc)))).
    { intros H. apply in_or_app. right. apply in_or_app. now left. }
    destruct (Joi.ordered desc) as [slots |]; [| now apply Hitems].
    destruct (0 <? List.length slots)%nat; [| now apply Hitems].
    do 2 (apply in_or_app; right). apply in_or_app. now left. }
  destruct (Joi.type desc =? "alternatives").
  { unfold matchSchemas. intros Hc.
    do 3 (apply in_or_app; right). apply in_or_app. left.
    apply in_flat_map in Hc. destruct Hc as [m [Hm Hc]].
    apply in_flat_map. exists m. split; [exact Hm |].
    destruct (Joi.schema m); exact Hc. }
  intros [].
Qed.

Lemma convertJoiDescription_unfold :
  forall desc opts depth,
    Joi.convertJoiDescription desc opts depth
    = if (depth >? Joi.maxDepth opts)%Z then emptySchema
      else if Joi.isEnum desc
           then Joi.convertEnum (Joi.collected opts desc) (entriesOf (Joi.allow desc))
           else
             let combined :=
               Joi.combinedSchema Joi.convertJoiDescription desc opts depth in
             if Joi.hasNullAllow desc && negb (Joi.flagOnly desc)
             then Joi.applyNullable combined
             else combined.
Proof.
  intros desc opts depth. destruct desc as [t f r ks i o m a]. cbn.
  destruct (depth >? Joi.maxDepth opts)%Z; [reflexivity |].
  destruct (Joi.isEnum _) eqn:Henum; [| reflexivity].
  destruct a; [reflexivity |].
  unfold Joi.isEnum in Henum. cbn in Henum. now rewrite andb_false_r in Henum.
Qed.

Lemma noVacuousNullable_unfold :
  forall k opts depth desc,
    noVacuousNullable k opts depth desc
    = if (depth >? Joi.maxDepth opts)%Z then true
      else if Joi.isEnum desc then true
           else negb (vacuousNullable k opts depth desc)
                && visitedBelow (fun d => noVacuousNullable k opts (depth + 1)%Z d) desc.
Proof.
  intros k opts depth desc. destruct desc. reflexivity.
Qed.

(** For the Joi adapter, switching an inclusion option off removes the
    key from every node and changes nothing else, as long as the
    conversion visits no vacuous nullable. *)
Lemma joi_toggle :
  forall k opts desc depth,
    noVacuousNullable k opts depth desc = true -> joiToggle k opts depth desc.
Proof.
  intros k opts desc.
  induction desc as [desc IH] using joi_children_ind.
  intros depth Hsafe. unfold joiToggle.
  rewrite noVacuousNullable_unfold in Hsafe.
  rewrite !convertJoiDescription_unfold, !maxDepth_joiInclude.
  destruct (depth >? Joi.maxDepth opts)%Z; [now rewrite without_empty |].
  destruct (Joi.isEnum desc).
  { unfold Joi.convertEnum. cbv zeta. rewrite collected_joiInclude.
    destruct (existsb isNull _); push_without; reflexivity. }
  apply andb_prop in Hsafe. destruct Hsafe as [Hvacuous Hbelow].
  apply negb_true_iff in Hvacuous.
  assert (Hcombined :
    Joi.combinedSchema Joi.convertJoiDescription desc (joiInclude k false opts) depth
    = without k
        (Joi.combinedSchema Joi.convertJoiDescription desc (joiInclude k true opts)
           depth)).
  { unfold Joi.combinedSchema.
    rewrite without_spread, collected_joiInclude. f_equal.
    apply typeSchema_toggle. intros c Hc.
    apply IH; [now apply joiVisited_children |].
    now apply (visitedBelow_spec _ desc). }
  cbv zeta. rewrite Hcombined.
  destruct (Joi.hasNullAllow desc && negb (Joi.flagOnly desc)) eqn:Hnullable;
    [| reflexivity].
  apply applyNullable_without.
  unfold vacuousNullable in Hvacuous. rewrite Hnullable in Hvacuous. exact Hvacuous.
Qed.

(** *** Option toggles *)




Example vacuous_nullable_results :
  Joi.convertJoiDescription nullableAnyWithDefault joiDefaults 0
  = Joi.orNull (emptySchema |> with_default (JNumber 5))
  /\ Joi.convertJoiDescription nullableAnyWithDefault
       (joiInclude DefaultKey false joiDefaults) 0
     = emptySchema.
Proof. split; reflexivity. Qed.

(** *** What becomes of a collected description *)

(** The pass-through arms return the inner conversion whatever was
    collected on the wrapper. *)
Lemma passthrough_ignores_description :
  forall description inner opts depth,
    (depth <= Zod.maxDepth opts)%Z ->
    Zod.convertZodType (Zod.mkZod description (Zod.ZodCatch inner)) opts depth
    = Zod.convertZodType inner opts (depth + 1)%Z
    /\ Zod.convertZodType (Zod.mkZod description (Zod.ZodBranded inner)) opts depth
       = Zod.convertZodType inner opts (depth + 1)%Z
    /\ Zod.convertZodType (Zod.mkZod description (Zod.ZodPipeline inner)) opts depth
       = Zod.convertZodType inner opts (depth + 1)%Z
    /\ Zod.convertZodType (Zod.mkZod description (Zod.ZodEffects inner)) opts depth
       = Zod.convertZodType inner opts (depth + 1)%Z.
Proof.
  intros description inner opts depth Hdepth.
  apply within_bound in Hdepth.
  repeat split; cbn [Zod.convertZodType Zod._def]; now rewrite Hdepth.
Qed.

Lemma description_spread :
  forall a b,
    OpenAPI.description (spread a b)
    = later (OpenAPI.description a) (OpenAPI.description b).
Proof. intros [] []; reflexivity. Qed.

Lemma description_convertZodString :
  forall checks, OpenAPI.description (Zod.convertZodString checks) = None.
Proof.
  intros checks. unfold Zod.convertZodString.
  assert (H : forall result,
             OpenAPI.description (fold_left Zod.stringCheck checks result)
             = OpenAPI.description result).
  { induction checks as [| check checks IH]; intros result; cbn [fold_left].
    - reflexivity.
    - rewrite IH. destruct check, result; reflexivity. }
  now rewrite H.
Qed.

Lemma description_convertZodNumber :
  forall checks, OpenAPI.description (Zod.convertZodNumber checks) = None.
Proof.
  intros checks. unfold Zod.convertZodNumber.
  assert (H : forall state,
             OpenAPI.description (snd (fold_left Zod.numberCheck checks state))
             = OpenAPI.description (snd state)).
  { induction checks as [| check checks IH]; intros [isInteger result]; cbn [fold_left].
    - reflexivity.
    - rewrite IH. destruct check as [| v [|] | v [|] | v | | kind], result; reflexivity. }
  specialize (H (false, emptySchema)).
  destruct (fold_left Zod.numberCheck checks (false, emptySchema)) as [isInteger result].
  cbn [snd] in H. destruct result. cbn in *. exact H.
Qed.

Lemma description_convertZodObject :
  forall convert shape unknownKeys catchall opts depth,
    OpenAPI.description
      (Zod.convertZodObject convert shape unknownKeys catchall opts depth) = None.
Proof.
  intros convert shape unknownKeys catchall opts depth. unfold Zod.convertZodObject.
  destruct (match shape with Some _ => _ | None => _ end) as [properties required].
  destruct catchall as [c |]; [destruct (negb (Zod.typeName c =? "ZodNever")) |];
    (destruct unknownKeys as [mode |];
     [destruct (mode =? "strict"); [| destruct (mode =? "passthrough")] |]);
    destruct (0 <? List.length properties)%nat;
    destruct (0 <? List.length required)%nat; reflexivity.
Qed.

Lemma description_convertZodArray :
  forall convert itemSchema minLength maxLength exactLength opts depth,
    OpenAPI.description
      (Zod.convertZodArray convert itemSchema minLength maxLength exactLength opts depth)
    = None.
Proof.
  intros convert [item |] [m |] [M |] [e |] opts depth; reflexivity.
Qed.

Lemma description_convertZodTuple :
  forall convert items rest opts depth,
    OpenAPI.description (Zod.convertZodTuple convert items rest opts depth) = None.
Proof.
  intros convert items [r |] opts depth; reflexivity.
Qed.

(** Outside the wrapper arms, a description collected at the start is
    the description of the returned node. *)
Lemma description_kept_outside_wrappers :
  forall text def opts depth,
    (depth <= Zod.maxDepth opts)%Z ->
    Zod.includeDescriptions opts = true ->
    truthyString text = true ->
    isWrapperName (Zod.typeName (Zod.mkZod (Some text) def)) = false ->
    OpenAPI.description (Zod.convertZodType (Zod.mkZod (Some text) def) opts depth)
    = Some text.
Proof.
  intros text def opts depth Hdepth Hinclude Htruthy Hdef.
  apply within_bound in Hdepth.
  assert (Hcollected :
    forall def', Zod.collected opts (Zod.mkZod (Some text) def')
                 = emptySchema |> with_description text).
  { intros def'. unfold Zod.collected. cbn [Zod._description].
    now rewrite Hinclude, Htruthy. }
  destruct def; try discriminate Hdef;
    cbn [Zod.convertZodType Zod._def]; rewrite Hdepth, ?Hcollected;
    rewrite ?description_spread, ?description_convertZodString,
      ?description_convertZodNumber, ?description_convertZodObject,
      ?description_convertZodArray, ?description_convertZodTuple;
    try reflexivity;
    destruct valueType; reflexivity.
Qed.

(** *** Required names in the node the converters return *)

Lemma required_spread :
  forall a b,
    OpenAPI.required a = None ->
    requiredNames (spread a b) = requiredNames b.
Proof.
  intros a b H. unfold requiredNames, spread. cbn [required].
  now rewrite H, later_None_l.
Qed.

Lemma required_collected_zod :
  forall opts schema, OpenAPI.required (Zod.collected opts schema) = None.
Proof.
  intros opts [[text |] def]; unfold Zod.collected; cbn [Zod._description];
    [destruct (Zod.includeDescriptions opts && truthyString text) |]; reflexivity.
Qed.

Lemma required_collected_joi :
  forall opts desc, OpenAPI.required (Joi.collected opts desc) = None.
Proof.
  intros opts desc. unfold Joi.collected.
  destruct (Joi.flagDescription desc) as [text |];
    [destruct (Joi.includeDescriptions opts && truthyString text) |];
    destruct (Joi.includeDefaults opts && negb (isUndefined (Joi.flagDefault desc)));
    reflexivity.
Qed.

(** Within the depth bound, the node returned for a Zod object schema
    has the required names of [convertZodObject]. *)
Corollary convertZodType_object_required :
  forall description shape unknownKeys catchall opts depth,
    (depth <= Zod.maxDepth opts)%Z ->
    requiredNames
      (Zod.convertZodType
         (Zod.mkZod description (Zod.ZodObject shape unknownKeys catchall)) opts depth)
    = requiredNames
        (Zod.convertZodObject Zod.convertZodType shape unknownKeys catchall opts depth).
Proof.
  intros description shape unknownKeys catchall opts depth Hdepth.
  apply within_bound in Hdepth.
  cbn [Zod.convertZodType Zod._def]. rewrite Hdepth.
  apply required_spread, required_collected_zod.
Qed.

Lemma type_convertObject :
  forall convert desc opts depth,
    OpenAPI.type (Joi.convertObject convert desc opts depth) = Some (TypeName "object").
Proof.
  intros convert desc opts depth. unfold Joi.convertObject.
  destruct (match Joi.keys desc with Some _ => _ | None => _ end)
    as [properties required].
  destruct (match Joi.rules desc with Some _ => _ | None => _ end) as [| [n [c |]] rest];
    destruct (Joi.flagAllowUnknown desc) as [[|] |];
    destruct (0 <? List.length properties)%nat;
    destruct (0 <? List.length required)%nat; reflexivity.
Qed.

(** Within the depth bound, the node returned for a Joi object
    description that is not an enum has the required names of
    [convertObject], whether or not it allows [null]. *)
Corollary convertJoiDescription_object_required :
  forall desc opts depth,
    (depth <= Joi.maxDepth opts)%Z ->
    Joi.type desc = "object" ->
    Joi.isEnum desc = false ->
    requiredNames (Joi.convertJoiDescription desc opts depth)
    = requiredNames (Joi.convertObject Joi.convertJoiDescription desc opts depth).
Proof.
  intros desc opts depth Hdepth Htype Henum.
  apply within_bound in Hdepth.
  rewrite convertJoiDescription_unfold, Hdepth, Henum. cbv zeta.
  unfold Joi.combinedSchema, Joi.typeSchema. rewrite Htype. cbn [String.eqb Ascii.eqb Bool.eqb].
  set (node := Joi.convertObject Joi.convertJoiDescription desc opts depth).
  assert (Htyped : OpenAPI.type (spread (Joi.collected opts desc) node)
                   = Some (TypeName "object")).
  { pose proof (type_convertObject Joi.convertJoiDescription desc opts depth) as Hnode.
    fold node in Hnode. destruct (Joi.collected opts desc), node. cbn in *.
    now rewrite Hnode. }
  assert (Hrequired : requiredNames (spread (Joi.collected opts desc) node)
                      = requiredNames node)
    by apply required_spread, required_collected_joi.
  destruct (Joi.hasNullAllow desc && negb (Joi.flagOnly desc)); [| exact Hrequired].
  unfold Joi.applyNullable. cbv zeta. rewrite Htyped. cbn.
  rewrite <- Hrequired. destruct (spread (Joi.collected opts desc) node). reflexivity.
Qed.

(** *** Required names of object schemas *)

Lemma required_convertEnum :
  forall result values,
    OpenAPI.required result = None -> requiredNames (Joi.convertEnum result values) = [].
Proof.
  intros result values Hresult. unfold Joi.convertEnum, requiredNames. cbv zeta.
  destruct (existsb isNull values); destruct result; cbn in *; now rewrite Hresult.
Qed.

(** C1 (as the code has it).  For a Zod object schema converted at a
    depth that does not exceed [maxDepth], a property name is in the
    [required] list of the returned node exactly when it is the key of a
    field whose own type name is neither [ZodOptional] nor [ZodDefault].
    For a Joi description of type [object] that is not an enum,
    converted at a depth that does not exceed [maxDepth], a name is in
    [required] exactly when it is a key whose own [flags.presence] is
    ["required"] (an absent flag does not count), whether or not the
    description allows [null].  Past the depth bound, and for a Joi
    description that is an enum, the returned node has no [required]
    list. *)
Theorem C1_required_iff_not_optional :
  (forall description shape unknownKeys catchall opts depth,
      (depth <= Zod.maxDepth opts)%Z ->
      forall key,
        In key (requiredNames
                  (Zod.convertZodType
                     (Zod.mkZod description (Zod.ZodObject shape unknownKeys catchall))
                     opts depth))
        <-> exists fieldSchema,
              In (key, fieldSchema) (entriesOf shape)
              /\ Zod.typeName fieldSchema <> "ZodOptional"
              /\ Zod.typeName fieldSchema <> "ZodDefault")
  /\ (forall desc opts depth,
         (depth <= Joi.maxDepth opts)%Z ->
         Joi.type desc = "object" ->
         Joi.isEnum desc = false ->
         forall key,
           In key (requiredNames (Joi.convertJoiDescription desc opts depth))
           <-> exists fieldDesc,
                 In (key, fieldDesc) (entriesOf (Joi.keys desc))
                 /\ Joi.flagPresence fieldDesc = Some "required")
  /\ (forall schema opts depth,
         (depth > Zod.maxDepth opts)%Z ->
         requiredNames (Zod.convertZodType schema opts depth) = [])
  /\ (forall desc opts depth,
         (depth > Joi.maxDepth opts)%Z ->
         requiredNames (Joi.convertJoiDescription desc opts depth) = [])
  /\ (forall desc opts depth,
         Joi.isEnum desc = true ->
         requiredNames (Joi.convertJoiDescription desc opts depth) = []).
Proof.
  split; [| split; [| split; [| split]]].
  - intros description shape unknownKeys catchall opts depth Hdepth key.
    rewrite (convertZodType_object_required _ _ _ _ _ _ Hdepth).
    apply (proj1 object_loops_required).
  - intros desc opts depth Hdepth Htype Henum key.
    rewrite (convertJoiDescription_object_required _ _ _ Hdepth Htype Henum).
    apply (proj2 object_loops_required).
  - intros schema opts depth Hdepth. apply Z.gtb_gt in Hdepth.
    destruct schema as [d def]; destruct def; cbn [Zod.convertZodType]; rewrite Hdepth;
      reflexivity.
  - intros desc opts depth Hdepth. apply Z.gtb_gt in Hdepth.
    rewrite convertJoiDescription_unfold, Hdepth. reflexivity.
  - intros desc opts depth Henum. rewrite convertJoiDescription_unfold, Henum.
    destruct (depth >? Joi.maxDepth opts)%Z; [reflexivity |].
    apply required_convertEnum, required_collected_joi.
Qed.

Lemma C1_required_witness :
  (In "id" (requiredNames (Zod.convertZodType accountSchema zodDefaults 0))
   <-> exists fieldSchema,
         In ("id", fieldSchema) (entriesOf account)
         /\ Zod.typeName fieldSchema <> "ZodOptional"
         /\ Zod.typeName fieldSchema <> "ZodDefault")
  /\ (In "name" (requiredNames (Joi.convertJoiDescription profile joiDefaults 0))
      <-> exists fieldDesc,
            In ("name", fieldDesc) (entriesOf (Joi.keys profile))
            /\ Joi.flagPresence fieldDesc = Some "required")
  /\ requiredNames (Zod.convertZodType accountSchema zodDefaults 21) = []
  /\ requiredNames (Joi.convertJoiDescription profile joiDefaults 21) = []
  /\ requiredNames (Joi.convertJoiDescription enumObject joiDefaults 0) = [].
Proof.
  split; [| split; [| split; [| split]]].
  - refine (proj1 C1_required_iff_not_optional None account None None zodDefaults 0%Z
              _ "id").
    simpl. lia.
  - refine (proj1 (proj2 C1_required_iff_not_optional) profile joiDefaults 0%Z _ _ _
              "name").
    + simpl. lia.
    + reflexivity.
    + reflexivity.
  - refine (proj1 (proj2 (proj2 C1_required_iff_not_optional)) accountSchema zodDefaults
              21%Z _).
    simpl. lia.
  - refine (proj1 (proj2 (proj2 (proj2 C1_required_iff_not_optional))) profile
              joiDefaults 21%Z _).
    simpl. lia.
  - refine (proj2 (proj2 (proj2 (proj2 C1_required_iff_not_optional))) enumObject
              joiDefaults 0%Z _).
    reflexivity.
Defined.

(** The claim as worded fails at an object description that is an enum:
    its key [a] is flagged required, and the returned node is the enum
    node, without [required]. *)
Lemma C1_enum_object_has_no_required :
  ~ (In "a" (requiredNames (Joi.convertJoiDescription enumObject joiDefaults 0))
     <-> exists fieldDesc,
           In ("a", fieldDesc) (entriesOf (Joi.keys enumObject))
           /\ Joi.flagPresence fieldDesc = Some "required").
Proof.
  intros [_ Hrequired].
  assert (Hin : In "a" (requiredNames (Joi.convertJoiDescription enumObject joiDefaults 0))).
  { apply Hrequired. eexists. split; [left; reflexivity | reflexivity]. }
  exact Hin.
Qed.

(** *** Typeless combined nodes *)

Lemma type_spread :
  forall a b, OpenAPI.type (spread a b) = later (OpenAPI.type a) (OpenAPI.type b).
Proof. intros [] []; reflexivity. Qed.

Lemma type_stringRule :
  forall result (rule : Joi.JoiRule Joi.JoiDescription),
    OpenAPI.type (Joi.stringRule result rule) = OpenAPI.type result.
Proof.
  intros result rule. unfold Joi.stringRule. cbv zeta.
  split_conditionals; destruct result; reflexivity.
Qed.

Lemma type_arrayRule :
  forall result (rule : Joi.JoiRule Joi.JoiDescription),
    OpenAPI.type (Joi.arrayRule result rule) = OpenAPI.type result.
Proof.
  intros result rule. unfold Joi.arrayRule. cbv zeta.
  split_conditionals; destruct result; reflexivity.
Qed.

Lemma type_fold_rules :
  forall (f : SchemaObject -> Joi.JoiRule Joi.JoiDescription -> SchemaObject),
    (forall result rule, OpenAPI.type (f result rule) = OpenAPI.type result) ->
    forall rules result,
      OpenAPI.type (fold_left f rules result) = OpenAPI.type result.
Proof.
  intros f Hf rules. induction rules as [| rule rules IH]; intros result; cbn [fold_left].
  - reflexivity.
  - now rewrite IH, Hf.
Qed.

Lemma type_convertString :
  forall desc opts, OpenAPI.type (Joi.convertString desc opts) = Some (TypeName "string").
Proof.
  intros desc opts. unfold Joi.convertString. cbv zeta.
  now rewrite (type_fold_rules _ type_stringRule).
Qed.

Lemma type_convertNumber :
  forall desc, exists t, OpenAPI.type (Joi.convertNumber desc) = Some (TypeName t).
Proof.
  intros desc. unfold Joi.convertNumber. cbv zeta.
  destruct (fold_left Joi.numberRule _ _) as [isInteger result].
  destruct result. eexists. reflexivity.
Qed.

Lemma type_convertArray :
  forall convert desc opts depth,
    OpenAPI.type (Joi.convertArray convert desc opts depth) = Some (TypeName "array").
Proof.
  intros convert desc opts depth. unfold Joi.convertArray. cbv zeta.
  assert (Hplain : OpenAPI.type (Joi.plainArray convert desc opts depth)
                   = Some (TypeName "array")).
  { unfold Joi.plainArray. cbv zeta.
    destruct (Joi.rules desc) as [rs |];
      [rewrite (type_fold_rules _ type_arrayRule) |];
      destruct (Joi.items desc) as [[| item [| item' its]] |]; reflexivity. }
  destruct (Joi.ordered desc) as [slots |]; [| exact Hplain].
  destruct (0 <? List.length slots)%nat; [reflexivity | exact Hplain].
Qed.

(** Unless the description is of type [alternatives], a combined node
    without a [type] is the collected metadata and nothing else; with
    no metadata collected it is the empty node. *)
Lemma typeless_combined_is_metadata :
  forall convert desc opts depth,
    Joi.type desc <> "alternatives" ->
    OpenAPI.type (Joi.combinedSchema convert desc opts depth) = None ->
    Joi.combinedSchema convert desc opts depth = Joi.collected opts desc.
Proof.
  intros convert desc opts depth Halternatives.
  unfold Joi.combinedSchema. rewrite type_spread.
  assert (Htyped : forall node t,
             OpenAPI.type node = Some t ->
             later (OpenAPI.type (Joi.collected opts desc)) (OpenAPI.type node) = None ->
             spread (Joi.collected opts desc) node = Joi.collected opts desc).
  { intros node t Hnode Hnone. rewrite Hnode in Hnone. discriminate Hnone. }
  unfold Joi.typeSchema. cbv zeta.
  destruct (Joi.type desc =? "string").
  { apply (Htyped _ _ (type_convertString desc opts)). }
  destruct (Joi.type desc =? "number").
  { destruct (type_convertNumber desc) as [t Ht]. apply (Htyped _ _ Ht). }
  destruct (Joi.type desc =? "boolean").
  { apply (Htyped _ (TypeName "boolean")). reflexivity. }
  destruct (Joi.type desc =? "object").
  { apply (Htyped _ _ (type_convertObject convert desc opts depth)). }
  destruct (Joi.type desc =? "array").
  { apply (Htyped _ _ (type_convertArray convert desc opts depth)). }
  destruct (String.eqb_spec (Joi.type desc) "alternatives") as [E | _];
    [contradiction |].
  destruct (Joi.type desc =? "date").
  { apply (Htyped _ (TypeName "string")). reflexivity. }
  destruct (Joi.type desc =? "binary").
  { apply (Htyped _ (TypeName "string")). reflexivity. }
  destruct (Joi.type desc =? "any"); intros _; apply spread_empty_r.
Qed.

(** *** Tuple nodes *)

Lemma closedTuple_spread :
  forall slots a b, closedTuple slots b -> closedTuple slots (spread a b).
Proof.
  intros slots a b [Hprefix [Hitems [Hmin Hmax]]]. unfold closedTuple, spread.
  cbn [prefixItems items minItems maxItems].
  now rewrite Hprefix, Hitems, Hmin, Hmax.
Qed.

Lemma closedTuple_with_type :
  forall slots t n, closedTuple slots n -> closedTuple slots (n |> with_type t).
Proof. intros slots t n H. now destruct n. Qed.

Lemma openTuple_spread :
  forall slots restNode a b,
    maxItems a = None -> openTuple slots restNode b -> openTuple slots restNode (spread a b).
Proof.
  intros slots restNode a b Ha [Hprefix [Hitems [Hmin Hmax]]]. unfold openTuple, spread.
  cbn [prefixItems items minItems maxItems].
  now rewrite Hprefix, Hitems, Hmin, Hmax, Ha.
Qed.

Lemma maxItems_collected_zod :
  forall opts schema, maxItems (Zod.collected opts schema) = None.
Proof.
  intros opts [[text |] def]; unfold Zod.collected; cbn [Zod._description];
    [destruct (Zod.includeDescriptions opts && truthyString text) |]; reflexivity.
Qed.

Lemma prefixItems_arrayRule :
  forall result (rule : Joi.JoiRule Joi.JoiDescription),
    prefixItems (Joi.arrayRule result rule) = prefixItems result.
Proof.
  intros result rule. unfold Joi.arrayRule. cbv zeta.
  split_conditionals; destruct result; reflexivity.
Qed.

Lemma prefixItems_plainArray :
  forall convert desc opts depth,
    prefixItems (Joi.plainArray convert desc opts depth) = None.
Proof.
  intros convert desc opts depth. unfold Joi.plainArray. cbv zeta.
  assert (Hrules :
    forall result,
      prefixItems match Joi.rules desc with
                  | Some rs => fold_left Joi.arrayRule rs result
                  | None => result
                  end
      = prefixItems result).
  { intros result. destruct (Joi.rules desc) as [rs |]; [| reflexivity].
    revert result. induction rs as [| rule rs IH]; intros result; cbn [fold_left];
      [reflexivity |].
    now rewrite IH, prefixItems_arrayRule. }
  rewrite Hrules.
  destruct (Joi.items desc) as [[| item [| item' its]] |]; reflexivity.
Qed.

(** Within the depth bound, the node returned for a Joi array
    description that is not an enum keeps the tuple fields of
    [convertArray], whether or not it allows [null]. *)
Lemma convertJoiDescription_ordered :
  forall desc slots opts depth,
    (depth <= Joi.maxDepth opts)%Z ->
    Joi.type desc = "array" ->
    Joi.isEnum desc = false ->
    Joi.ordered desc = Some slots ->
    slots <> [] ->
    closedTuple (map (fun item => Joi.convertJoiDescription item opts (depth + 1)%Z) slots)
      (Joi.convertJoiDescription desc opts depth).
Proof.
  intros desc slots opts depth Hdepth Htype Henum Hordered Hslots.
  apply within_bound in Hdepth.
  rewrite convertJoiDescription_unfold, Hdepth, Henum. cbv zeta.
  unfold Joi.combinedSchema, Joi.typeSchema. rewrite Htype.
  cbn [String.eqb Ascii.eqb Bool.eqb].
  set (node := Joi.convertArray Joi.convertJoiDescription desc opts depth).
  assert (Hnode :
    closedTuple (map (fun item => Joi.convertJoiDescription item opts (depth + 1)%Z) slots)
      (spread (Joi.collected opts desc) node)).
  { apply closedTuple_spread. now apply convertArray_ordered. }
  destruct (Joi.hasNullAllow desc && negb (Joi.flagOnly desc)); [| exact Hnode].
  unfold Joi.applyNullable. cbv zeta.
  rewrite type_spread. unfold node at 1. rewrite type_convertArray. cbn [later truthyString].
  now apply closedTuple_with_type.
Qed.

(** C5 (as the code has it).  A Zod tuple of [n] slots without a rest
    element converts to a node with the [n] converted slots as
    [prefixItems], [items: false] and [minItems = maxItems = n]; with a
    rest element, [items] is the conversion of the rest schema,
    [minItems = n] and there is no [maxItems].  A Joi array whose
    [ordered] list has [n >= 1] entries converts to the closed form.
    This holds of the node built by [convertZodTuple] and [convertArray]
    and, within the depth bound (for Joi, when the description is not an
    enum), of the node the converter returns.  A Joi description whose
    [ordered] list is present and empty is converted exactly as the
    description without [ordered]: there is no [prefixItems], and
    [items] and the lengths come from [items] and the length rules. *)
Theorem C5_tuple_nodes :
  (forall items opts depth,
      closedTuple (map (fun item => Zod.convertZodType item opts (depth + 1)%Z) items)
        (Zod.convertZodTuple Zod.convertZodType items None opts depth)
      /\ List.length (map (fun item => Zod.convertZodType item opts (depth + 1)%Z) items)
         = List.length items)
  /\ (forall items rest opts depth,
         openTuple (map (fun item => Zod.convertZodType item opts (depth + 1)%Z) items)
           (Zod.convertZodType rest opts (depth + 1)%Z)
           (Zod.convertZodTuple Zod.convertZodType items (Some rest) opts depth))
  /\ (forall desc slots opts depth,
         Joi.ordered desc = Some slots ->
         slots <> [] ->
         closedTuple
           (map (fun item => Joi.convertJoiDescription item opts (depth + 1)%Z) slots)
           (Joi.convertArray Joi.convertJoiDescription desc opts depth)
         /\ List.length
              (map (fun item => Joi.convertJoiDescription item opts (depth + 1)%Z) slots)
            = List.length slots)
  /\ (forall desc opts depth,
         Joi.ordered desc = Some [] ->
         Joi.convertArray Joi.convertJoiDescription desc opts depth
         = Joi.convertArray Joi.convertJoiDescription (withoutOrdered desc) opts depth
         /\ prefixItems (Joi.convertArray Joi.convertJoiDescription desc opts depth) = None
         /\ Joi.convertJoiDescription desc opts depth
            = Joi.convertJoiDescription (withoutOrdered desc) opts depth)
  /\ (forall description items opts depth,
         (depth <= Zod.maxDepth opts)%Z ->
         closedTuple (map (fun item => Zod.convertZodType item opts (depth + 1)%Z) items)
           (Zod.convertZodType (Zod.mkZod description (Zod.ZodTuple items None)) opts
              depth))
  /\ (forall description items rest opts depth,
         (depth <= Zod.maxDepth opts)%Z ->
         openTuple (map (fun item => Zod.convertZodType item opts (depth + 1)%Z) items)
           (Zod.convertZodType rest opts (depth + 1)%Z)
           (Zod.convertZodType (Zod.mkZod description (Zod.ZodTuple items (Some rest)))
              opts depth))
  /\ (forall desc slots opts depth,
         (depth <= Joi.maxDepth opts)%Z ->
         Joi.type desc = "array" ->
         Joi.isEnum desc = false ->
         Joi.ordered desc = Some slots ->
         slots <> [] ->
         closedTuple
           (map (fun item => Joi.convertJoiDescription item opts (depth + 1)%Z) slots)
           (Joi.convertJoiDescription desc opts depth)).
Proof.
  split; [| split; [| split; [| split; [| split; [| split]]]]].
  - intros items opts depth. split; [apply convertZodTuple_closed | apply length_map].
  - intros items rest opts depth. apply convertZodTuple_open.
  - intros desc slots opts depth Hordered Hslots.
    split; [now apply convertArray_ordered | apply length_map].
  - intros [t f r ks i o m a] opts depth Hordered. cbn [Joi.ordered] in Hordered.
    subst o. split; [reflexivity |]. split.
    + unfold Joi.convertArray. cbn [Joi.ordered List.length Nat.ltb Nat.leb].
      apply prefixItems_plainArray.
    + rewrite !convertJoiDescription_unfold. reflexivity.
  - intros description items opts depth Hdepth. apply within_bound in Hdepth.
    cbn [Zod.convertZodType Zod._def]. rewrite Hdepth.
    apply closedTuple_spread, convertZodTuple_closed.
  - intros description items rest opts depth Hdepth. apply within_bound in Hdepth.
    cbn [Zod.convertZodType Zod._def]. rewrite Hdepth.
    apply openTuple_spread; [apply maxItems_collected_zod | apply convertZodTuple_open].
  - apply convertJoiDescription_ordered.
Qed.

Lemma C5_tuple_nodes_witness :
  closedTuple
    [emptySchema |> with_type (TypeName "string");
     emptySchema |> with_type (TypeName "number")]
    (Joi.convertArray Joi.convertJoiDescription orderedPair joiDefaults 0)
  /\ Joi.convertJoiDescription emptyOrdered joiDefaults 0
     = Joi.convertJoiDescription (withoutOrdered emptyOrdered) joiDefaults 0
  /\ closedTuple
       [emptySchema |> with_type (TypeName "string");
        emptySchema |> with_type (TypeName "number")]
       (Zod.convertZodType describedPair zodDefaults 0)
  /\ openTuple
       [emptySchema |> with_type (TypeName "string");
        emptySchema |> with_type (TypeName "number")]
       (emptySchema |> with_type (TypeName "boolean"))
       (Zod.convertZodType describedPairWithRest zodDefaults 0)
  /\ closedTuple
       [emptySchema |> with_type (TypeName "string");
        emptySchema |> with_type (TypeName "number")]
       (Joi.convertJoiDescription nullablePair joiDefaults 0).
Proof.
  split; [| split; [| split; [| split]]].
  - refine (proj1 (proj1 (proj2 (proj2 C5_tuple_nodes)) orderedPair
                     [joi "string"; joi "number"] joiDefaults 0%Z _ _)).
    + reflexivity.
    + discriminate.
  - refine (proj2 (proj2 (proj1 (proj2 (proj2 (proj2 C5_tuple_nodes))) emptyOrdered
                            joiDefaults 0%Z _))).
    reflexivity.
  - refine (proj1 (proj2 (proj2 (proj2 (proj2 C5_tuple_nodes)))) (Some "pair")
              [zod (Zod.ZodString []); zod (Zod.ZodNumber [])] zodDefaults 0%Z _).
    simpl. lia.
  - refine (proj1 (proj2 (proj2 (proj2 (proj2 (proj2 C5_tuple_nodes))))) (Some "pair")
              [zod (Zod.ZodString []); zod (Zod.ZodNumber [])] (zod Zod.ZodBoolean)
              zodDefaults 0%Z _).
    simpl. lia.
  - refine (proj2 (proj2 (proj2 (proj2 (proj2 (proj2 C5_tuple_nodes))))) nullablePair
              [joi "string"; joi "number"] joiDefaults 0%Z _ _ _ _ _).
    + simpl. lia.
    + reflexivity.
    + reflexivity.
    + reflexivity.
    + discriminate.
Defined.

(** The claim as worded fails at two ordered arrays: one whose
    [ordered] list is present and empty, converted as a plain array
    without [prefixItems], and one that is an enum, which converts to
    its enum node. *)
Lemma C5_ordered_without_tuple_fields :
  ~ closedTuple [] (Joi.convertArray Joi.convertJoiDescription emptyOrdered joiDefaults 0)
  /\ ~ closedTuple [emptySchema |> with_type (TypeName "string")]
         (Joi.convertJoiDescription enumPair joiDefaults 0).
Proof.
  split; intros [Hprefix _]; discriminate Hprefix.
Qed.


(** *** Nullable descriptions that convert to the empty node *)

(** C6 (as the code has it).  When a Joi description allows [null], is
    not an enum, and its combined node (collected metadata overlaid with
    the type-specific node) is the empty object, the converter returns
    that empty node as it is: no [anyOf] wrap is produced.  For every
    type but [alternatives], the combined node is the empty object as
    soon as it has no [type] and no metadata was collected.  Within the
    depth bound, a combined node without [type] that has any key at all
    is wrapped as [anyOf: [combined, { type: 'null' }]]. *)
Theorem C6_empty_nullable_not_wrapped :
  forall desc opts depth,
    Joi.hasNullAllow desc = true ->
    Joi.flagOnly desc = false ->
    (hasKeys (Joi.combinedSchema Joi.convertJoiDescription desc opts depth) = false ->
     Joi.convertJoiDescription desc opts depth = emptySchema
     /\ anyOf (Joi.convertJoiDescription desc opts depth) = None)
    /\ (Joi.type desc <> "alternatives" ->
        OpenAPI.type (Joi.combinedSchema Joi.convertJoiDescription desc opts depth)
        = None ->
        Joi.collected opts desc = emptySchema ->
        Joi.convertJoiDescription desc opts depth = emptySchema)
    /\ ((depth <= Joi.maxDepth opts)%Z ->
        OpenAPI.type (Joi.combinedSchema Joi.convertJoiDescription desc opts depth)
        = None ->
        hasKeys (Joi.combinedSchema Joi.convertJoiDescription desc opts depth) = true ->
        Joi.convertJoiDescription desc opts depth
        = Joi.orNull (Joi.combinedSchema Joi.convertJoiDescription desc opts depth)).
Proof.
  intros desc opts depth Hnull Honly.
  assert (Hempty :
    Joi.combinedSchema Joi.convertJoiDescription desc opts depth = emptySchema ->
    Joi.convertJoiDescription desc opts depth = emptySchema).
  { intros Hcombined. rewrite convertJoiDescription_unfold.
    destruct (depth >? Joi.maxDepth opts)%Z; [reflexivity |].
    unfold Joi.isEnum. rewrite Honly. cbn [andb]. cbv zeta.
    rewrite Hnull, Hcombined. reflexivity. }
  split; [| split].
  - intros Hkeys. apply hasKeys_false_empty in Hkeys.
    rewrite (Hempty Hkeys). split; reflexivity.
  - intros Htype Htypeless Hcollected. apply Hempty.
    rewrite (typeless_combined_is_metadata _ desc opts depth Htype Htypeless).
    exact Hcollected.
  - intros Hdepth Htypeless Hkeys. apply within_bound in Hdepth.
    rewrite convertJoiDescription_unfold, Hdepth.
    unfold Joi.isEnum. rewrite Honly. cbn [andb negb]. cbv zeta.
    rewrite Hnull. cbn [andb].
    unfold Joi.applyNullable. cbv zeta. now rewrite Htypeless, Hkeys.
Qed.

Lemma C6_empty_nullable_witness :
  (Joi.convertJoiDescription nullableAny joiDefaults 0 = emptySchema
   /\ anyOf (Joi.convertJoiDescription nullableAny joiDefaults 0) = None)
  /\ Joi.convertJoiDescription nullableAny joiDefaults 0 = emptySchema
  /\ Joi.convertJoiDescription nullableAnyWithDefault joiDefaults 0
     = Joi.orNull
         (Joi.combinedSchema Joi.convertJoiDescription nullableAnyWithDefault joiDefaults 0).
Proof.
  split; [| split].
  - refine (proj1 (C6_empty_nullable_not_wrapped nullableAny joiDefaults 0%Z _ _) _);
      reflexivity.
  - refine (proj1 (proj2 (C6_empty_nullable_not_wrapped nullableAny joiDefaults 0%Z _ _))
              _ _ _).
    + reflexivity.
    + reflexivity.
    + discriminate.
    + reflexivity.
    + reflexivity.
  - refine (proj2 (proj2 (C6_empty_nullable_not_wrapped nullableAnyWithDefault
                            joiDefaults 0%Z _ _)) _ _ _).
    + reflexivity.
    + reflexivity.
    + simpl. lia.
    + reflexivity.
    + reflexivity.
Defined.

(** The claim as worded fails at an alternatives description whose
    single match is an enum: it allows [null] and is not an enum, its
    combined node has no [type], no composition key and no collected
    metadata, and the converter wraps it. *)
Lemma C6_typeless_alternative_is_wrapped :
  Joi.hasNullAllow nullableChoice = true
  /\ Joi.flagOnly nullableChoice = false
  /\ Joi.collected joiDefaults nullableChoice = emptySchema
  /\ Joi.combinedSchema Joi.convertJoiDescription nullableChoice joiDefaults 0
     = emptySchema |> with_enum [JString "a"]
  /\ Joi.convertJoiDescription nullableChoice joiDefaults 0
     = emptySchema
       |> with_anyOf [emptySchema |> with_enum [JString "a"]; nullSchema]
  /\ Joi.convertJoiDescription nullableChoice joiDefaults 0
     <> Joi.combinedSchema Joi.convertJoiDescription nullableChoice joiDefaults 0.
Proof.
  repeat split. discriminate.
Qed.

(* ================================================================== *)
(** ** Further properties of the adapters *)
(* ================================================================== *)

(** *** Conversions that agree below agree above *)

Section ZodAgreement.
Variables o1 o2 : Zod.Options.
Variables d1 d2 : Z.
Hypothesis flags : zodSameFlags o1 o2.

Lemma collected_sameFlags :
  forall schema, Zod.collected o1 schema = Zod.collected o2 schema.
Proof.
  intros schema. unfold Zod.collected. destruct flags as [Hdescriptions _].
  now rewrite Hdescriptions.
Qed.

Lemma objectField_agree :
  forall entries,
    (forall e, In e entries ->
       Zod.convertZodType (Zod.unwrapZodOptional (snd e)) o1 (d1 + 1)%Z
       = Zod.convertZodType (Zod.unwrapZodOptional (snd e)) o2 (d2 + 1)%Z) ->
    forall state,
      fold_left (Zod.objectField Zod.convertZodType o1 d1) entries state
      = fold_left (Zod.objectField Zod.convertZodType o2 d2) entries state.
Proof.
  induction entries as [| [key fieldSchema] entries IH]; intros Hfields state.
  - reflexivity.
  - cbn [fold_left].
    assert (Hstep :
      Zod.objectField Zod.convertZodType o1 d1 state (key, fieldSchema)
      = Zod.objectField Zod.convertZodType o2 d2 state (key, fieldSchema)).
    { pose proof (Hfields (key, fieldSchema) (or_introl eq_refl)) as Hconverted.
      cbn [snd] in Hconverted.
      unfold Zod.objectField. destruct state as [properties required].
      rewrite Hconverted.
      destruct flags as [_ Hdefaults]. now rewrite Hdefaults. }
    rewrite Hstep. apply IH. intros e He. apply Hfields. now right.
Qed.

Lemma convertZodObject_agree :
  forall shape unknownKeys catchall,
    (forall e, In e (entriesOf shape) ->
       Zod.convertZodType (Zod.unwrapZodOptional (snd e)) o1 (d1 + 1)%Z
       = Zod.convertZodType (Zod.unwrapZodOptional (snd e)) o2 (d2 + 1)%Z) ->
    (forall c, catchall = Some c -> Zod.typeName c <> "ZodNever" ->
       Zod.convertZodType c o1 (d1 + 1)%Z = Zod.convertZodType c o2 (d2 + 1)%Z) ->
    Zod.convertZodObject Zod.convertZodType shape unknownKeys catchall o1 d1
    = Zod.convertZodObject Zod.convertZodType shape unknownKeys catchall o2 d2.
Proof.
  intros shape unknownKeys catchall Hfields Hcatchall.
  unfold Zod.convertZodObject.
  assert (Hloop :
    match shape with
    | Some entries =>
        fold_left (Zod.objectField Zod.convertZodType o1 d1) entries ([], [])
    | None => ([], [])
    end
    = match shape with
      | Some entries =>
          fold_left (Zod.objectField Zod.convertZodType o2 d2) entries ([], [])
      | None => ([], [])
      end).
  { destruct shape as [entries |]; [| reflexivity].
    now apply objectField_agree. }
  rewrite Hloop.
  destruct catchall as [c |]; [| reflexivity].
  destruct (String.eqb_spec (Zod.typeName c) "ZodNever") as [E | N]; cbn [negb].
  - reflexivity.
  - now rewrite (Hcatchall c eq_refl N).
Qed.

Lemma zod_map_agree :
  forall schemas : list Zod.ZodTypeAny,
    (forall c, In c schemas ->
       Zod.convertZodType c o1 (d1 + 1)%Z = Zod.convertZodType c o2 (d2 + 1)%Z) ->
    map (fun o => Zod.convertZodType o o1 (d1 + 1)%Z) schemas
    = map (fun o => Zod.convertZodType o o2 (d2 + 1)%Z) schemas.
Proof.
  intros schemas H. apply map_ext_in. exact H.
Qed.
End ZodAgreement.

(** *** Depth and depth bound count through the remaining budget only *)

Lemma levels_In : forall h hs, In h hs -> (S h <= levels hs)%nat.
Proof.
  intros h hs Hin. destruct hs as [| x hs]; [destruct Hin |].
  unfold levels. apply le_n_S.
  pose proof (proj1 (list_max_le (x :: hs) (list_max (x :: hs))) (Nat.le_refl _)) as Hall.
  rewrite Forall_forall in Hall. now apply Hall.
Qed.

Lemma sameBudget_guard :
  forall h m1 d1 m2 d2,
    sameBudget h (m1 - d1) (m2 - d2) -> (d1 >? m1)%Z = (d2 >? m2)%Z.
Proof.
  intros h m1 d1 m2 d2 [Hsame | [H1 H2]].
  - destruct (Z.gtb_spec d1 m1), (Z.gtb_spec d2 m2); try reflexivity; lia.
  - destruct (Z.gtb_spec d1 m1), (Z.gtb_spec d2 m2); try reflexivity; lia.
Qed.

Lemma sameBudget_below :
  forall h hc m1 d1 m2 d2,
    sameBudget h (m1 - d1) (m2 - d2) ->
    (S hc <= h)%nat ->
    sameBudget hc (m1 - (d1 + 1)) (m2 - (d2 + 1)).
Proof.
  intros h hc m1 d1 m2 d2 [Hsame | [H1 H2]] Hless; [left | right]; lia.
Qed.

(** The conversion of a Zod schema depends on the depth and on the depth
    bound through the remaining budget, and not even on that once the
    budget covers the height of the schema. *)
Lemma zod_budget :
  forall schema o1 o2 d1 d2,
    zodSameFlags o1 o2 ->
    sameBudget (zodHeight schema) (Zod.maxDepth o1 - d1) (Zod.maxDepth o2 - d2) ->
    Zod.convertZodType schema o1 d1 = Zod.convertZodType schema o2 d2.
Proof.
  intros schema.
  enough (H :
    (forall o1 o2 d1 d2,
        zodSameFlags o1 o2 ->
        sameBudget (zodHeight schema) (Zod.maxDepth o1 - d1) (Zod.maxDepth o2 - d2) ->
        Zod.convertZodType schema o1 d1 = Zod.convertZodType schema o2 d2)
    /\ (forall o1 o2 d1 d2,
           zodSameFlags o1 o2 ->
           sameBudget (zodHeight (Zod.unwrapZodOptional schema))
             (Zod.maxDepth o1 - d1) (Zod.maxDepth o2 - d2) ->
           Zod.convertZodType (Zod.unwrapZodOptional schema) o1 d1
           = Zod.convertZodType (Zod.unwrapZodOptional schema) o2 d2))
    by apply H.
  induction schema as [schema IH] using zod_children_ind.
  assert (Hschema :
    forall o1 o2 d1 d2,
      zodSameFlags o1 o2 ->
      sameBudget (zodHeight schema) (Zod.maxDepth o1 - d1) (Zod.maxDepth o2 - d2) ->
      Zod.convertZodType schema o1 d1 = Zod.convertZodType schema o2 d2).
  { intros o1 o2 d1 d2 Hflags Hbudget.
    assert (Hchild :
      forall c, In c (zodChildren schema) ->
                (S (zodHeight c) <= zodHeight schema)%nat ->
                Zod.convertZodType c o1 (d1 + 1)%Z = Zod.convertZodType c o2 (d2 + 1)%Z).
    { intros c Hc Hless. apply (proj1 (IH c Hc)); [exact Hflags |].
      now apply (sameBudget_below (zodHeight schema)). }
    assert (Hunwrapped :
      forall c, In c (zodChildren schema) ->
                (S (zodHeight (Zod.unwrapZodOptional c)) <= zodHeight schema)%nat ->
                Zod.convertZodType (Zod.unwrapZodOptional c) o1 (d1 + 1)%Z
                = Zod.convertZodType (Zod.unwrapZodOptional c) o2 (d2 + 1)%Z).
    { intros c Hc Hless. apply (proj2 (IH c Hc)); [exact Hflags |].
      now apply (sameBudget_below (zodHeight schema)). }
    pose proof (sameBudget_guard _ _ _ _ _ Hbudget) as Hguard.
    clear IH Hbudget.
    destruct schema as [d def]. unfold zodChildren in Hchild, Hunwrapped.
    cbn [Zod._def] in Hchild, Hunwrapped.
    destruct def as
      [ checks | checks | | | | | value | values | values
      | shape unknownKeys catchall | item minL maxL exactL | items rest
      | options | options | l r | inner | inner | inner defaultValue
      | inner | inner | inner | valueType | | valueType
      | | | | | | | | | | inner | inner | name ];
      cbn [Zod.convertZodType Zod._def]; rewrite Hguard;
      (destruct (d2 >? Zod.maxDepth o2)%Z; [reflexivity |]);
      rewrite ?(collected_sameFlags o1 o2 Hflags);
      cbn [zodHeight Zod._def] in Hchild, Hunwrapped;
      try reflexivity;
      try (apply Hchild; [now left | apply levels_In; now left]);
      try (rewrite (Hchild inner);
           [ try reflexivity; destruct Hflags as [_ Hdefaults]; now rewrite Hdefaults
           | now left | apply levels_In; now left ]).
    - f_equal. apply (convertZodObject_agree o1 o2 d1 d2 Hflags).
      + intros e He. apply Hunwrapped.
        * apply in_or_app. left. apply in_map.
          destruct shape as [entries |]; [exact He | destruct He].
        * apply levels_In, in_or_app. left.
          destruct shape as [entries |]; [| destruct He].
          apply (in_map (fun e => zodHeight (Zod.unwrapZodOptional (snd e)))), He.
      + intros c -> Hnever. apply Hchild.
        * apply in_or_app. right. now left.
        * apply levels_In, in_or_app. right.
          apply String.eqb_neq in Hnever. rewrite Hnever. now left.
    - unfold Zod.convertZodArray. destruct item as [item |]; [| reflexivity].
      rewrite (Hchild item); [reflexivity | now left | apply levels_In; now left].
    - unfold Zod.convertZodTuple.
      rewrite (zod_map_agree o1 o2 d1 d2 items).
      + destruct rest as [r |]; [| reflexivity].
        rewrite (Hchild r); [reflexivity | |].
        * apply in_or_app. right. now left.
        * apply levels_In, in_or_app. right. now left.
      + intros c Hc. apply Hchild; [apply in_or_app; now left |].
        apply levels_In, in_or_app. left. now apply in_map.
    - rewrite (zod_map_agree o1 o2 d1 d2 options); [reflexivity |].
      intros c Hc. apply Hchild; [exact Hc | apply levels_In; now apply in_map].
    - rewrite (zod_map_agree o1 o2 d1 d2 options); [reflexivity |].
      intros c Hc. apply Hchild; [exact Hc | apply levels_In; now apply in_map].
    - rewrite (Hchild l), (Hchild r);
        [reflexivity | | | |]; try (cbn; tauto); apply levels_In; cbn; tauto.
    - destruct valueType as [v |]; [| reflexivity].
      rewrite (Hchild v); [reflexivity | now left | apply levels_In; now left].
    - destruct valueType as [v |]; [| reflexivity].
      rewrite (Hchild v); [reflexivity | now left | apply levels_In; now left]. }
  split; [exact Hschema |].
  destruct schema as [d def].
  destruct def; try exact Hschema; apply (proj1 (IH _ (or_introl eq_refl))).
Qed.

Lemma joiHeight_visited :
  forall desc,
    joiHeight desc
    = if Joi.isEnum desc then 0%nat else levels (map joiHeight (joiVisited desc)).
Proof.
  intros desc. destruct desc as [t f r ks i o m a].
  unfold joiVisited, visitedItems, matchSchemas, firstPatternValue.
  cbn [joiHeight Joi.type Joi.keys Joi.rules Joi.items Joi.ordered Joi.matches entriesOf].
  cbv zeta.
  destruct (Joi.isEnum _); [reflexivity |].
  destruct (String.eqb_spec t "string") as [-> | _]; [reflexivity |].
  destruct (String.eqb_spec t "number") as [-> | _]; [reflexivity |].
  destruct (String.eqb_spec t "boolean") as [-> | _]; [reflexivity |].
  destruct (t =? "object").
  { f_equal. rewrite map_app, map_map. f_equal; [now destruct ks |].
    destruct r as [rs |]; [| reflexivity]. cbn [entriesOf].
    induction rs as [| rule rs IH]; [reflexivity |].
    cbn [filter]. destruct (Joi.name rule =? "pattern"); [| exact IH].
    destruct (Joi.args rule) as [args |]; [| reflexivity].
    now destruct (Joi.value args). }
  destruct (t =? "array").
  { f_equal. destruct o as [slots |]; [destruct (0 <? List.length slots)%nat |];
      try reflexivity; now destruct i. }
  destruct (t =? "alternatives"); [| reflexivity].
  f_equal. destruct m as [ms |]; [| reflexivity]. cbn [entriesOf].
  induction ms as [| x ms IH]; [reflexivity |].
  cbn [flat_map]. rewrite map_app, <- IH. f_equal. now destruct (Joi.schema x).
Qed.

(** The [switch] of the Joi adapter uses the converter it is given on
    the visited descriptions only, one level down. *)
Section JoiAgreement.
Variables convert1 convert2 : Joi.JoiDescription -> Joi.Options -> Z -> SchemaObject.
Variables o1 o2 : Joi.Options.
Variables d1 d2 : Z.

Lemma objectKey_agree :
  forall entries,
    (forall e, In e entries ->
       convert1 (snd e) o1 (d1 + 1)%Z = convert2 (snd e) o2 (d2 + 1)%Z) ->
    forall state,
      fold_left (Joi.objectKey convert1 o1 d1) entries state
      = fold_left (Joi.objectKey convert2 o2 d2) entries state.
Proof.
  induction entries as [| [key fieldDesc] entries IH]; intros Hfields state;
    [reflexivity |].
  cbn [fold_left]. rewrite IH by (intros e He; apply Hfields; now right).
  f_equal. destruct state as [properties required]. unfold Joi.objectKey.
  pose proof (Hfields (key, fieldDesc) (or_introl eq_refl)) as Hconverted.
  cbn [snd] in Hconverted. now rewrite Hconverted.
Qed.

Lemma convertObject_agree :
  forall desc,
    (forall c,
        In c (map snd (entriesOf (Joi.keys desc))
              ++ optional (firstPatternValue (entriesOf (Joi.rules desc)))) ->
        convert1 c o1 (d1 + 1)%Z = convert2 c o2 (d2 + 1)%Z) ->
    Joi.convertObject convert1 desc o1 d1 = Joi.convertObject convert2 desc o2 d2.
Proof.
  intros desc Hvisited. unfold Joi.convertObject. cbv zeta.
  assert (Hloop :
    match Joi.keys desc with
    | Some entries => fold_left (Joi.objectKey convert1 o1 d1) entries ([], [])
    | None => ([], [])
    end
    = match Joi.keys desc with
      | Some entries => fold_left (Joi.objectKey convert2 o2 d2) entries ([], [])
      | None => ([], [])
      end).
  { destruct (Joi.keys desc) as [entries |]; [| reflexivity].
    apply objectKey_agree. intros e He. apply Hvisited, in_or_app. left.
    now apply in_map. }
  rewrite Hloop. clear Hloop.
  destruct (match Joi.keys desc with Some _ => _ | None => _ end)
    as [properties required].
  assert (Hrules :
    forall (A : Type) convert convertOpts depth (found : SchemaObject -> A) (missing : A),
      match
        match Joi.rules desc with
        | Some rs =>
            filter (fun r => fst r =? "pattern")
              (map (Joi.ruleValue convert convertOpts depth) rs)
        | None => []
        end
      with
      | (_, Some converted) :: _ => found converted
      | _ => missing
      end
      = match firstPatternValue (entriesOf (Joi.rules desc)) with
        | Some valueDesc => found (convert valueDesc convertOpts (depth + 1)%Z)
        | None => missing
        end).
  { intros A convert convertOpts depth found missing.
    destruct (Joi.rules desc) as [rs |]; [apply patternRules_first | reflexivity]. }
  rewrite !Hrules. clear Hrules.
  destruct (firstPatternValue (entriesOf (Joi.rules desc))) as [valueDesc |];
    [| reflexivity].
  rewrite (Hvisited valueDesc); [reflexivity |].
  apply in_or_app. right. now left.
Qed.

Lemma plainArray_agree :
  forall desc,
    (forall c, In c (entriesOf (Joi.items desc)) ->
       convert1 c o1 (d1 + 1)%Z = convert2 c o2 (d2 + 1)%Z) ->
    Joi.plainArray convert1 desc o1 d1 = Joi.plainArray convert2 desc o2 d2.
Proof.
  intros desc Hitems. unfold Joi.plainArray. cbv zeta.
  destruct (Joi.items desc) as [[| item [| item' its]] |]; cbn [entriesOf] in Hitems;
    try reflexivity.
  - now rewrite (Hitems item (or_introl eq_refl)).
  - now rewrite (map_ext_in _ _ _ Hitems).
Qed.

Lemma convertArray_agree :
  forall desc,
    (forall c, In c (visitedItems desc) ->
       convert1 c o1 (d1 + 1)%Z = convert2 c o2 (d2 + 1)%Z) ->
    Joi.convertArray convert1 desc o1 d1 = Joi.convertArray convert2 desc o2 d2.
Proof.
  intros desc Hitems. unfold Joi.convertArray. cbv zeta.
  unfold visitedItems in Hitems.
  destruct (Joi.ordered desc) as [slots |]; [| now apply plainArray_agree].
  destruct (0 <? List.length slots)%nat; [| now apply plainArray_agree].
  now rewrite (map_ext_in _ _ _ Hitems).
Qed.

Lemma convertAlternatives_agree :
  forall desc,
    (forall c, In c (matchSchemas desc) ->
       convert1 c o1 (d1 + 1)%Z = convert2 c o2 (d2 + 1)%Z) ->
    Joi.convertAlternatives convert1 desc o1 d1
    = Joi.convertAlternatives convert2 desc o2 d2.
Proof.
  intros desc Hschemas. unfold Joi.convertAlternatives. cbv zeta.
  unfold matchSchemas in Hschemas.
  destruct (Joi.matches desc) as [ms |]; [| reflexivity]. cbn [entriesOf] in Hschemas.
  assert (Hmap :
    map (fun m => match Joi.schema m with
                  | Some s => Some (convert1 s o1 (d1 + 1)%Z)
                  | None => None
                  end) ms
    = map (fun m => match Joi.schema m with
                    | Some s => Some (convert2 s o2 (d2 + 1)%Z)
                    | None => None
                    end) ms).
  { apply map_ext_in. intros m Hm. destruct (Joi.schema m) as [s |] eqn:Hs;
      [| reflexivity].
    f_equal. apply Hschemas, in_flat_map. exists m. split; [exact Hm |].
    rewrite Hs. now left. }
  now rewrite Hmap.
Qed.

Lemma typeSchema_agree :
  forall desc,
    (forall c, In c (joiVisited desc) ->
       convert1 c o1 (d1 + 1)%Z = convert2 c o2 (d2 + 1)%Z) ->
    Joi.typeSchema convert1 desc o1 d1 = Joi.typeSchema convert2 desc o2 d2.
Proof.
  intros desc Hvisited. unfold Joi.typeSchema. unfold joiVisited in Hvisited.
  cbv zeta in *.
  destruct (Joi.type desc =? "string"); [reflexivity |].
  destruct (Joi.type desc =? "number"); [reflexivity |].
  destruct (Joi.type desc =? "boolean"); [reflexivity |].
  destruct (Joi.type desc =? "object"); [now apply convertObject_agree |].
  destruct (Joi.type desc =? "array"); [now apply convertArray_agree |].
  destruct (Joi.type desc =? "alternatives"); [now apply convertAlternatives_agree |].
  reflexivity.
Qed.
End JoiAgreement.

Lemma joi_collected_sameFlags :
  forall o1 o2 desc, joiSameFlags o1 o2 -> Joi.collected o1 desc = Joi.collected o2 desc.
Proof.
  intros o1 o2 desc [Hdescriptions Hdefaults]. unfold Joi.collected.
  now rewrite Hdescriptions, Hdefaults.
Qed.

(** The conversion of a Joi description depends on the depth and on the
    depth bound through the remaining budget, and not even on that once
    the budget covers the height of the description. *)
Lemma joi_budget :
  forall desc o1 o2 d1 d2,
    joiSameFlags o1 o2 ->
    sameBudget (joiHeight desc) (Joi.maxDepth o1 - d1) (Joi.maxDepth o2 - d2) ->
    Joi.convertJoiDescription desc o1 d1 = Joi.convertJoiDescription desc o2 d2.
Proof.
  intros desc. induction desc as [desc IH] using joi_children_ind.
  intros o1 o2 d1 d2 Hflags Hbudget.
  rewrite !convertJoiDescription_unfold.
  rewrite (sameBudget_guard _ _ _ _ _ Hbudget).
  destruct (d2 >? Joi.maxDepth o2)%Z; [reflexivity |].
  rewrite (joi_collected_sameFlags o1 o2 desc Hflags).
  rewrite joiHeight_visited in Hbudget.
  destruct (Joi.isEnum desc); [reflexivity |].
  cbv zeta. unfold Joi.combinedSchema.
  rewrite (joi_collected_sameFlags o1 o2 desc Hflags).
  rewrite (typeSchema_agree Joi.convertJoiDescription Joi.convertJoiDescription
             o1 o2 d1 d2 desc); [reflexivity |].
  intros c Hc. apply IH; [now apply joiVisited_children | exact Hflags |].
  apply (sameBudget_below _ _ _ _ _ _ Hbudget).
  apply levels_In. now apply in_map.
Qed.




(** *** Enums *)

Lemma filter_without_null :
  forall values : list JSValue,
    existsb isNull values = false -> filter (fun v => negb (isNull v)) values = values.
Proof.
  induction values as [| v values IH]; [reflexivity |].
  cbn [existsb filter]. intros H. apply orb_false_iff in H. destruct H as [Hv Hvalues].
  rewrite Hv. cbn [negb]. now rewrite IH.
Qed.

Lemma convertEnum_whole_list :
  forall result values, Joi.convertEnum result values = result |> with_enum values.
Proof.
  intros result values. unfold Joi.convertEnum. cbv zeta.
  destruct (existsb isNull values) eqn:Hnull; [reflexivity |].
  now rewrite filter_without_null.
Qed.

(** X3.  Within the depth bound, a Joi description that is an enum
    ([flags.only] with a non-empty [allow]) converts to the collected
    description and default plus [enum], and [enum] is the whole [allow]
    list in both branches of the code: removing [null] is only done
    when there is no [null].  The type, rules, keys and items of the
    description play no part. *)
Theorem joi_enum_is_allow_list :
  forall desc opts depth,
    (depth <= Joi.maxDepth opts)%Z ->
    Joi.isEnum desc = true ->
    Joi.convertJoiDescription desc opts depth
    = Joi.collected opts desc |> with_enum (entriesOf (Joi.allow desc)).
Proof.
  intros desc opts depth Hdepth Henum.
  rewrite convertJoiDescription_unfold, (within_bound _ _ Hdepth), Henum.
  apply convertEnum_whole_list.
Qed.

Lemma joi_enum_is_allow_list_witness :
  Joi.convertJoiDescription symbolEnum joiDefaults 0
  = Joi.collected joiDefaults symbolEnum |> with_enum [JString "a"].
Proof.
  refine (joi_enum_is_allow_list symbolEnum joiDefaults 0%Z _ _).
  - simpl. lia.
  - reflexivity.
Defined.

(** The values kept for a native enum are the string members when
    there is one, the number members otherwise. *)
Lemma forallb_filter_same :
  forall (A : Type) (keep : A -> bool) (xs : list A), forallb keep (filter keep xs) = true.
Proof.
  intros A keep xs. induction xs as [| x xs IH]; [reflexivity |].
  cbn [filter]. destruct (keep x) eqn:Hx; [| exact IH].
  cbn [forallb]. now rewrite Hx.
Qed.

(** X4.  The [enum] of a native Zod enum never mixes strings and
    numbers: it holds strings only or numbers only, and a string member
    of the enum object is always kept. *)
Theorem nativeEnumValues_homogeneous :
  forall values,
    (forallb isStringValue (Zod.nativeEnumValues values)
     || forallb isNumberValue (Zod.nativeEnumValues values)) = true
    /\ (forall key text,
           In (key, JString text) values ->
           In (JString text) (Zod.nativeEnumValues values)).
Proof.
  intros values. unfold Zod.nativeEnumValues. cbv zeta.
  fold isStringValue. fold isNumberValue.
  split.
  - destruct (0 <? _)%nat; rewrite forallb_filter_same; [reflexivity | apply orb_true_r].
  - intros key text Hin.
    assert (Hkept : In (JString text) (filter isStringValue (map snd values))).
    { apply filter_In. split; [| reflexivity].
      apply (in_map snd) in Hin. exact Hin. }
    destruct (filter isStringValue (map snd values)) as [| v vs] eqn:Hstrings;
      [destruct Hkept |].
    cbn [List.length Nat.ltb Nat.leb]. exact Hkept.
Qed.

Lemma nativeEnumValues_homogeneous_witness :
  (forallb isStringValue (Zod.nativeEnumValues levelEnum)
   || forallb isNumberValue (Zod.nativeEnumValues levelEnum)) = true
  /\ In (JString "Low") (Zod.nativeEnumValues levelEnum).
Proof.
  split.
  - apply (proj1 (nativeEnumValues_homogeneous levelEnum)).
  - apply (proj2 (nativeEnumValues_homogeneous levelEnum) "0" "Low"). simpl. tauto.
Defined.

(** *** Numbers *)

Lemma numberCheck_integer :
  forall checks isInteger result,
    fst (fold_left Zod.numberCheck checks (isInteger, result))
    = isInteger || existsb isIntCheck checks.
Proof.
  induction checks as [| check checks IH]; intros isInteger result.
  - cbn. now rewrite orb_false_r.
  - cbn [fold_left existsb].
    destruct check as [| v [|] | v [|] | v | | other]; cbn [Zod.numberCheck isIntCheck];
      rewrite IH; cbn [orb]; try reflexivity.
    now rewrite orb_true_r.
Qed.

Lemma numberRule_integer :
  forall (rules : list (Joi.JoiRule Joi.JoiDescription)) isInteger result,
    fst (fold_left Joi.numberRule rules (isInteger, result))
    = isInteger || existsb isIntegerRule rules.
Proof.
  induction rules as [| rule rules IH]; intros isInteger result.
  - cbn. now rewrite orb_false_r.
  - cbn [fold_left existsb]. unfold Joi.numberRule at 2. cbv zeta.
    unfold isIntegerRule at 1.
    destruct (String.eqb_spec (Joi.name rule) "integer") as [Hname | Hname].
    + rewrite IH. cbn [orb]. now rewrite orb_true_r.
    + repeat match goal with
             | |- context [if ?b then _ else _] => destruct b
             end; rewrite IH; reflexivity.
Qed.

Lemma type_with_type :
  forall t n, OpenAPI.type (n |> with_type t) = Some t.
Proof. intros t n. now destruct n. Qed.

(** X5.  A number node is typed ["integer"] exactly when the schema
    carries an integer check (Zod: a check of kind [int]; Joi: a rule
    named [integer]), wherever the check stands among the others, and
    ["number"] otherwise. *)
Theorem number_type_follows_integer_check :
  (forall checks,
      OpenAPI.type (Zod.convertZodNumber checks)
      = Some (TypeName (if existsb isIntCheck checks then "integer" else "number")))
  /\ (forall desc,
         OpenAPI.type (Joi.convertNumber desc)
         = Some (TypeName (if existsb isIntegerRule (entriesOf (Joi.rules desc))
                           then "integer" else "number"))).
Proof.
  split.
  - intros checks. unfold Zod.convertZodNumber.
    pose proof (numberCheck_integer checks false emptySchema) as Hfold.
    destruct (fold_left _ _ _) as [isInteger result]. cbn [fst orb] in Hfold.
    subst isInteger. apply type_with_type.
  - intros desc. unfold Joi.convertNumber. cbv zeta.
    assert (Hrules :
      match Joi.rules desc with Some rs => rs | None => [] end
      = entriesOf (Joi.rules desc)) by reflexivity.
    rewrite Hrules.
    pose proof (numberRule_integer (entriesOf (Joi.rules desc)) false emptySchema)
      as Hfold.
    destruct (fold_left _ _ _) as [isInteger result]. cbn [fst orb] in Hfold.
    subst isInteger. apply type_with_type.
Qed.

(** *** Escaping and delimiters *)

Lemma backslash_special : isRegexSpecial Zod.backslash = true.
Proof. reflexivity. Qed.

Lemma length_escapeRegex :
  forall s, (String.length s <= String.length (Zod.escapeRegex s))%nat.
Proof.
  induction s as [| c rest IH]; [apply Nat.le_refl |].
  cbn [Zod.escapeRegex]. destruct (existsb _ _); cbn [String.length]; lia.
Qed.

(** X6.  [escapeRegex] loses nothing: two texts with the same escaped
    form are the same text, so distinct literals of [startsWith],
    [endsWith] and [includes] checks give distinct patterns. *)
Theorem escapeRegex_injective :
  forall a b, Zod.escapeRegex a = Zod.escapeRegex b -> a = b.
Proof.
  induction a as [| c a IH]; intros b Hsame.
  - destruct b as [| d b]; [reflexivity |].
    cbn [Zod.escapeRegex] in Hsame. destruct (existsb _ _); discriminate.
  - destruct b as [| d b].
    + cbn [Zod.escapeRegex] in Hsame. destruct (existsb _ _); discriminate.
    + cbn [Zod.escapeRegex] in Hsame.
      fold (isRegexSpecial c) in Hsame. fold (isRegexSpecial d) in Hsame.
      destruct (isRegexSpecial c) eqn:Hc, (isRegexSpecial d) eqn:Hd.
      * injection Hsame as Hhead Htail. subst d. f_equal. now apply IH.
      * injection Hsame as Hhead Htail. subst d.
        rewrite backslash_special in Hd. discriminate.
      * injection Hsame as Hhead Htail. subst c.
        rewrite backslash_special in Hc. discriminate.
      * injection Hsame as Hhead Htail. subst d. f_equal. now apply IH.
Qed.

Lemma escapeRegex_injective_witness : "a.b" = "a.b".
Proof. apply (escapeRegex_injective "a.b" "a.b"). reflexivity. Defined.

(** X7.  [escapeRegex] returns its argument unchanged exactly when the
    argument holds none of the characters it escapes. *)
Theorem escapeRegex_fixes_plain_text :
  forall s, Zod.escapeRegex s = s <-> plainText s = true.
Proof.
  induction s as [| c rest IH]; [now split |].
  cbn [Zod.escapeRegex plainText]. fold (isRegexSpecial c).
  destruct (isRegexSpecial c) eqn:Hc; cbn [negb andb].
  - split; [| discriminate]. intros Hsame. injection Hsame as Hhead Htail.
    pose proof (length_escapeRegex rest) as Hlength.
    rewrite <- Htail in Hlength at 1. cbn [String.length] in Hlength. lia.
  - rewrite <- IH. split; [now intros [= ->] | now intros ->].
Qed.

Lemma splitLast_flags :
  forall letters, Joi.allFlagLetters letters = true -> Joi.splitLast Joi.slash letters = None.
Proof.
  induction letters as [| c rest IH]; [reflexivity |].
  cbn [Joi.allFlagLetters Joi.splitLast]. intros H.
  apply andb_prop in H. destruct H as [Hc Hrest].
  rewrite (IH Hrest).
  destruct (Ascii.eqb_spec c Joi.slash) as [-> | _]; [discriminate | reflexivity].
Qed.

Lemma splitLast_last :
  forall body letters,
    Joi.splitLast Joi.slash letters = None ->
    Joi.splitLast Joi.slash (body ++ String Joi.slash letters) = Some (body, letters).
Proof.
  induction body as [| c body IH]; intros letters Hnone.
  - cbn [append Joi.splitLast]. rewrite Hnone. now rewrite Ascii.eqb_refl.
  - cbn [append Joi.splitLast]. now rewrite (IH letters Hnone).
Qed.

Lemma splitLast_parts :
  forall sep s before after,
    Joi.splitLast sep s = Some (before, after) -> s = before ++ String sep after.
Proof.
  induction s as [| c rest IH]; intros before after Hsplit; [discriminate |].
  cbn [Joi.splitLast] in Hsplit.
  destruct (Joi.splitLast sep rest) as [[b a] |].
  - injection Hsplit as <- <-. cbn [append]. f_equal. now apply IH.
  - destruct (Ascii.eqb_spec c sep) as [-> | _]; [| discriminate].
    now injection Hsplit as <- <-.
Qed.

(** X8.  Stripping the delimiters of a serialized regular expression:
    the match succeeds with [body] exactly on the texts made of a slash,
    [body], a slash and flag letters, where [body] holds no line
    terminator; [body] may itself hold slashes. *)
Theorem execDelimited_delimited :
  forall text body,
    Joi.execDelimited text = Some body
    <-> exists letters,
          text = delimited body letters
          /\ Joi.allFlagLetters letters = true
          /\ Joi.hasLineTerminator body = false.
Proof.
  intros text body. unfold Joi.execDelimited, delimited. split.
  - destruct text as [| c rest]; [discriminate |].
    destruct (Ascii.eqb_spec c Joi.slash) as [-> | _]; [| discriminate].
    destruct (Joi.splitLast Joi.slash rest) as [[found letters] |] eqn:Hsplit;
      [| discriminate].
    destruct (Joi.allFlagLetters letters) eqn:Hletters; [| discriminate].
    destruct (Joi.hasLineTerminator found) eqn:Hline; [discriminate |].
    cbn [andb negb]. intros [= <-]. exists letters.
    rewrite (splitLast_parts _ _ _ _ Hsplit). now repeat split.
  - intros [letters [-> [Hletters Hline]]].
    rewrite Ascii.eqb_refl.
    rewrite (splitLast_last body letters (splitLast_flags letters Hletters)).
    now rewrite Hletters, Hline.
Qed.

(** *** The properties of object nodes *)

Lemma setProperty_keys :
  forall k v ps x,
    In x (map fst (setProperty k v ps)) <-> x = k \/ In x (map fst ps).
Proof.
  intros k v ps x. induction ps as [| [k' v'] ps IH]; cbn [setProperty map fst In].
  - intuition congruence.
  - destruct (String.eqb_spec k' k) as [-> | Hother]; cbn [map fst In].
    + intuition congruence.
    + rewrite IH. intuition congruence.
Qed.

Lemma setProperty_NoDup :
  forall k v ps, NoDup (map fst ps) -> NoDup (map fst (setProperty k v ps)).
Proof.
  intros k v ps. induction ps as [| [k' v'] ps IH]; cbn [setProperty map fst]; intros Hps.
  - constructor; [intros [] | constructor].
  - destruct (String.eqb_spec k' k) as [-> | Hother]; cbn [map fst]; [exact Hps |].
    inversion Hps as [| ? ? Hfresh Hrest]; subst.
    constructor; [| now apply IH].
    rewrite setProperty_keys. intuition congruence.
Qed.

Lemma propertyOf_setProperty_same :
  forall k v ps, propertyOf k (setProperty k v ps) = Some v.
Proof.
  intros k v ps. unfold propertyOf.
  induction ps as [| [k' v'] ps IH]; cbn [setProperty find fst].
  - now rewrite String.eqb_refl.
  - destruct (k' =? k) eqn:Hk; cbn [find fst]; rewrite Hk; [reflexivity | exact IH].
Qed.

Lemma propertyOf_setProperty_other :
  forall k v ps x, x <> k -> propertyOf x (setProperty k v ps) = propertyOf x ps.
Proof.
  intros k v ps x Hother. unfold propertyOf.
  induction ps as [| [k' v'] ps IH]; cbn [setProperty find fst].
  - apply not_eq_sym in Hother. apply String.eqb_neq in Hother. now rewrite Hother.
  - destruct (String.eqb_spec k' k) as [-> | Hk]; cbn [find fst].
    + apply not_eq_sym in Hother. apply String.eqb_neq in Hother. now rewrite Hother.
    + destruct (k' =? x); [reflexivity | exact IH].
Qed.

Lemma assignProperty_keys :
  forall k v ps x,
    In x (map fst (assignProperty k v ps))
    <-> (x = k /\ k <> "__proto__") \/ In x (map fst ps).
Proof.
  intros k v ps x. unfold assignProperty.
  destruct (String.eqb_spec k "__proto__") as [Hproto | Hproto].
  - tauto.
  - rewrite setProperty_keys. tauto.
Qed.

Lemma assignProperty_NoDup :
  forall k v ps, NoDup (map fst ps) -> NoDup (map fst (assignProperty k v ps)).
Proof.
  intros k v ps Hps. unfold assignProperty.
  destruct (k =? "__proto__"); [exact Hps | now apply setProperty_NoDup].
Qed.

Lemma propertyOf_assignProperty_same :
  forall k v ps, k <> "__proto__" -> propertyOf k (assignProperty k v ps) = Some v.
Proof.
  intros k v ps Hproto. unfold assignProperty.
  apply String.eqb_neq in Hproto. rewrite Hproto. apply propertyOf_setProperty_same.
Qed.

Lemma propertyOf_assignProperty_other :
  forall k v ps x, x <> k -> propertyOf x (assignProperty k v ps) = propertyOf x ps.
Proof.
  intros k v ps x Hother. unfold assignProperty.
  destruct (k =? "__proto__"); [reflexivity | now apply propertyOf_setProperty_other].
Qed.

(** A loop that assigns, for each entry, a node computed from the
    entry alone. *)
Section PropertyLoop.
Variable A : Type.
Variable node : A -> SchemaObject.

Lemma loop_keys :
  forall (entries : list (string * A)) ps x,
    In x (map fst (fold_left (fun ps e => assignProperty (fst e) (node (snd e)) ps)
                     entries ps))
    <-> In x (map fst ps) \/ (In x (map fst entries) /\ x <> "__proto__").
Proof.
  induction entries as [| [k a] entries IH]; intros ps x; cbn [fold_left map fst snd In].
  - tauto.
  - rewrite IH, assignProperty_keys. intuition congruence.
Qed.

Lemma loop_NoDup :
  forall (entries : list (string * A)) ps,
    NoDup (map fst ps) ->
    NoDup (map fst (fold_left (fun ps e => assignProperty (fst e) (node (snd e)) ps)
                      entries ps)).
Proof.
  induction entries as [| [k a] entries IH]; intros ps Hps; cbn [fold_left]; [exact Hps |].
  apply IH. now apply assignProperty_NoDup.
Qed.

Lemma loop_untouched :
  forall (entries : list (string * A)) ps x,
    ~ In x (map fst entries) ->
    propertyOf x (fold_left (fun ps e => assignProperty (fst e) (node (snd e)) ps)
                    entries ps)
    = propertyOf x ps.
Proof.
  induction entries as [| [k a] entries IH]; intros ps x Hfresh; cbn [fold_left fst snd];
    [reflexivity |].
  cbn [map fst In] in Hfresh.
  rewrite IH by tauto. apply propertyOf_assignProperty_other. intuition congruence.
Qed.

Lemma loop_stored :
  forall (entries : list (string * A)) ps k a,
    NoDup (map fst entries) ->
    In (k, a) entries ->
    k <> "__proto__" ->
    propertyOf k (fold_left (fun ps e => assignProperty (fst e) (node (snd e)) ps)
                    entries ps)
    = Some (node a).
Proof.
  induction entries as [| [k' a'] entries IH]; intros ps k a Hkeys Hin Hproto;
    [destruct Hin |].
  cbn [map fst] in Hkeys. inversion Hkeys as [| ? ? Hfresh Hrest]; subst.
  cbn [fold_left fst snd]. destruct Hin as [[= -> ->] | Hin].
  - rewrite loop_untouched by exact Hfresh. now apply propertyOf_assignProperty_same.
  - now apply IH.
Qed.
End PropertyLoop.

Lemma zodFieldNode_stored :
  forall opts depth key fieldSchema properties required,
    fst (Zod.objectField Zod.convertZodType opts depth (properties, required)
           (key, fieldSchema))
    = assignProperty key (zodFieldNode opts depth fieldSchema) properties.
Proof. reflexivity. Qed.

Lemma objectField_properties :
  forall opts depth entries properties required,
    fst (fold_left (Zod.objectField Zod.convertZodType opts depth) entries
           (properties, required))
    = fold_left (fun ps e => assignProperty (fst e) (zodFieldNode opts depth (snd e)) ps)
        entries properties.
Proof.
  induction entries as [| [key fieldSchema] entries IH]; intros properties required;
    [reflexivity |].
  cbn [fold_left fst snd]. rewrite <- zodFieldNode_stored with (required := required).
  destruct (Zod.objectField Zod.convertZodType opts depth (properties, required)
              (key, fieldSchema)) as [properties' required'].
  apply IH.
Qed.

Lemma objectKey_properties :
  forall convert opts depth entries properties required,
    fst (fold_left (Joi.objectKey convert opts depth) entries (properties, required))
    = fold_left (fun ps e => assignProperty (fst e) (convert (snd e) opts (depth + 1)%Z) ps)
        entries properties.
Proof.
  induction entries as [| [key fieldDesc] entries IH]; intros properties required;
    [reflexivity |].
  cbn [fold_left fst snd]. unfold Joi.objectKey at 2. apply IH.
Qed.

Lemma convertZodObject_properties :
  forall shape unknownKeys catchall opts depth,
    propertyEntries
      (Zod.convertZodObject Zod.convertZodType shape unknownKeys catchall opts depth)
    = fold_left (fun ps e => assignProperty (fst e) (zodFieldNode opts depth (snd e)) ps)
        (entriesOf shape) [].
Proof.
  intros shape unknownKeys catchall opts depth. unfold Zod.convertZodObject.
  assert (Hloop :
    fst (match shape with
         | Some entries =>
             fold_left (Zod.objectField Zod.convertZodType opts depth) entries ([], [])
         | None => ([], [])
         end)
    = fold_left (fun ps e => assignProperty (fst e) (zodFieldNode opts depth (snd e)) ps)
        (entriesOf shape) []).
  { destruct shape as [entries |]; [apply objectField_properties | reflexivity]. }
  rewrite <- Hloop. clear Hloop.
  destruct (match shape with Some _ => _ | None => _ end) as [properties required].
  destruct catchall as [c |]; [destruct (negb (Zod.typeName c =? "ZodNever")) |];
    (destruct unknownKeys as [mode |];
     [destruct (mode =? "strict"); [| destruct (mode =? "passthrough")] |]);
    destruct required; destruct properties; reflexivity.
Qed.

Lemma convertObject_properties :
  forall convert desc opts depth,
    propertyEntries (Joi.convertObject convert desc opts depth)
    = fold_left (fun ps e => assignProperty (fst e) (convert (snd e) opts (depth + 1)%Z) ps)
        (entriesOf (Joi.keys desc)) [].
Proof.
  intros convert desc opts depth. unfold Joi.convertObject.
  assert (Hloop :
    fst (match Joi.keys desc with
         | Some entries => fold_left (Joi.objectKey convert opts depth) entries ([], [])
         | None => ([], [])
         end)
    = fold_left (fun ps e => assignProperty (fst e) (convert (snd e) opts (depth + 1)%Z) ps)
        (entriesOf (Joi.keys desc)) []).
  { destruct (Joi.keys desc) as [entries |]; [apply objectKey_properties | reflexivity]. }
  rewrite <- Hloop. clear Hloop.
  destruct (match Joi.keys desc with Some _ => _ | None => _ end)
    as [properties required].
  destruct (match Joi.rules desc with Some _ => _ | None => _ end) as [| [n [c |]] rest];
    destruct (Joi.flagAllowUnknown desc) as [[|] |];
    destruct required; destruct properties; reflexivity.
Qed.

Lemma zodFieldNode_cases :
  forall opts depth fieldSchema,
    let converted :=
      Zod.convertZodType (Zod.unwrapZodOptional fieldSchema) opts (depth + 1)%Z in
    (Zod.typeName fieldSchema <> "ZodDefault" ->
     zodFieldNode opts depth fieldSchema = converted)
    /\ (zodFieldNode opts depth fieldSchema = converted
        \/ zodFieldNode opts depth fieldSchema
           = converted |> with_default (Zod.callDefaultValue fieldSchema)).
Proof.
  intros opts depth fieldSchema converted.
  unfold zodFieldNode, Zod.objectField, assignProperty.
  cbn [fst setProperty String.eqb]. fold converted.
  destruct (String.eqb_spec (Zod.typeName fieldSchema) "ZodDefault") as [Hname | Hname].
  - split; [intros Hother; now destruct Hother |].
    destruct (Zod.includeDefaults opts && true && defaultIsUndefined converted);
      [| now left].
    destruct (negb (isUndefined (Zod.callDefaultValue fieldSchema)));
      [now right | now left].
  - rewrite andb_false_r. cbn [andb]. split; [reflexivity | now left].
Qed.

(** X9.  In the node of an object, for both adapters: [properties]
    has one own entry for each declared key other than [__proto__] and
    no other, no key twice, and every name listed in [required], apart
    from [__proto__], has its entry in [properties].  A declared key
    [__proto__] gets no entry: the assignment sets the prototype of
    [properties] instead. *)
Theorem object_properties_cover_required :
  (forall shape unknownKeys catchall opts depth,
      (forall key,
          In key (map fst (propertyEntries
                             (Zod.convertZodObject Zod.convertZodType shape unknownKeys
                                catchall opts depth)))
          <-> In key (map fst (entriesOf shape)) /\ key <> "__proto__")
      /\ NoDup (map fst (propertyEntries
                           (Zod.convertZodObject Zod.convertZodType shape unknownKeys
                              catchall opts depth)))
      /\ (forall key,
             In key (requiredNames
                       (Zod.convertZodObject Zod.convertZodType shape unknownKeys
                          catchall opts depth)) ->
             key <> "__proto__" ->
             In key (map fst (propertyEntries
                                (Zod.convertZodObject Zod.convertZodType shape
                                   unknownKeys catchall opts depth)))))
  /\ (forall desc opts depth,
         (forall key,
             In key (map fst (propertyEntries
                                (Joi.convertObject Joi.convertJoiDescription desc opts
                                   depth)))
             <-> In key (map fst (entriesOf (Joi.keys desc))) /\ key <> "__proto__")
         /\ NoDup (map fst (propertyEntries
                              (Joi.convertObject Joi.convertJoiDescription desc opts
                                 depth)))
         /\ (forall key,
                In key (requiredNames
                          (Joi.convertObject Joi.convertJoiDescription desc opts depth)) ->
                key <> "__proto__" ->
                In key (map fst (propertyEntries
                                   (Joi.convertObject Joi.convertJoiDescription desc
                                      opts depth))))).
Proof.
  split.
  - intros shape unknownKeys catchall opts depth.
    rewrite convertZodObject_properties, convertZodObject_required.
    assert (Hkeys :
      forall key,
        In key (map fst
                  (fold_left
                     (fun ps e =>
                        assignProperty (fst e) (zodFieldNode opts depth (snd e)) ps)
                     (entriesOf shape) []))
        <-> In key (map fst (entriesOf shape)) /\ key <> "__proto__").
    { intros key. rewrite (loop_keys _ (zodFieldNode opts depth)). cbn [map In]. tauto. }
    split; [exact Hkeys |].
    split; [apply (loop_NoDup _ (zodFieldNode opts depth)); constructor |].
    intros key Hrequired Hproto. apply Hkeys. split; [| exact Hproto].
    apply in_map_iff in Hrequired. destruct Hrequired as [e [<- He]].
    apply filter_In in He. apply in_map, He.
  - intros desc opts depth.
    rewrite convertObject_properties, convertObject_required.
    assert (Hkeys :
      forall key,
        In key (map fst
                  (fold_left
                     (fun ps e =>
                        assignProperty (fst e)
                          (Joi.convertJoiDescription (snd e) opts (depth + 1)%Z) ps)
                     (entriesOf (Joi.keys desc)) []))
        <-> In key (map fst (entriesOf (Joi.keys desc))) /\ key <> "__proto__").
    { intros key.
      rewrite (loop_keys _ (fun d => Joi.convertJoiDescription d opts (depth + 1)%Z)).
      cbn [map In]. tauto. }
    split; [exact Hkeys |].
    split;
      [apply (loop_NoDup _ (fun d => Joi.convertJoiDescription d opts (depth + 1)%Z));
       constructor |].
    intros key Hrequired Hproto. apply Hkeys. split; [| exact Hproto].
    apply in_map_iff in Hrequired. destruct Hrequired as [e [<- He]].
    apply filter_In in He. apply in_map, He.
Qed.

Lemma object_properties_cover_required_witness :
  In "id" (map fst (propertyEntries
                      (Zod.convertZodObject Zod.convertZodType account None None
                         zodDefaults 0)))
  /\ In "name" (map fst (propertyEntries
                           (Joi.convertObject Joi.convertJoiDescription profile
                              joiDefaults 0))).
Proof.
  split.
  - refine (proj2 (proj2 (proj1 object_properties_cover_required account None None
                            zodDefaults 0%Z)) "id" _ _).
    + simpl. tauto.
    + discriminate.
  - refine (proj2 (proj2 (proj2 object_properties_cover_required profile joiDefaults
                            0%Z)) "name" _ _).
    + simpl. tauto.
    + discriminate.
Defined.

(** A required field under the key [__proto__] is listed in [required]
    and has no entry in [properties]. *)
Example required_proto_without_property :
  Zod.convertZodObject Zod.convertZodType protoShape None None zodDefaults 0
  = emptySchema |> with_type (TypeName "object")
    |> with_properties [("a", emptySchema |> with_type (TypeName "string"))]
    |> with_required ["__proto__"; "a"]
  /\ Joi.convertObject Joi.convertJoiDescription protoKeys joiDefaults 0
     = emptySchema |> with_type (TypeName "object") |> with_required ["__proto__"].
Proof. split; reflexivity. Qed.

(** X10.  When the declared keys are distinct, the property stored under
    a key other than [__proto__] is the conversion of its field one
    level deeper: for Joi the conversion of the key's description; for
    Zod the conversion of the field with one [ZodOptional] or
    [ZodDefault] wrapper removed, to which only a [ZodDefault] field can
    add a key, its own [default]. *)
Theorem object_property_is_field_conversion :
  (forall shape unknownKeys catchall opts depth key fieldSchema,
      NoDup (map fst (entriesOf shape)) ->
      In (key, fieldSchema) (entriesOf shape) ->
      key <> "__proto__" ->
      exists stored,
        propertyOf key
          (propertyEntries
             (Zod.convertZodObject Zod.convertZodType shape unknownKeys catchall opts
                depth))
        = Some stored
        /\ (Zod.typeName fieldSchema <> "ZodDefault" ->
            stored
            = Zod.convertZodType (Zod.unwrapZodOptional fieldSchema) opts (depth + 1)%Z)
        /\ (stored
            = Zod.convertZodType (Zod.unwrapZodOptional fieldSchema) opts (depth + 1)%Z
            \/ stored
               = Zod.convertZodType (Zod.unwrapZodOptional fieldSchema) opts
                   (depth + 1)%Z
                 |> with_default (Zod.callDefaultValue fieldSchema)))
  /\ (forall desc opts depth key fieldDesc,
         NoDup (map fst (entriesOf (Joi.keys desc))) ->
         In (key, fieldDesc) (entriesOf (Joi.keys desc)) ->
         key <> "__proto__" ->
         propertyOf key
           (propertyEntries (Joi.convertObject Joi.convertJoiDescription desc opts depth))
         = Some (Joi.convertJoiDescription fieldDesc opts (depth + 1)%Z)).
Proof.
  split.
  - intros shape unknownKeys catchall opts depth key fieldSchema Hkeys Hin Hproto.
    exists (zodFieldNode opts depth fieldSchema).
    rewrite convertZodObject_properties.
    split; [now apply (loop_stored _ (zodFieldNode opts depth)) |].
    apply zodFieldNode_cases.
  - intros desc opts depth key fieldDesc Hkeys Hin Hproto.
    rewrite convertObject_properties.
    now apply (loop_stored _ (fun d => Joi.convertJoiDescription d opts (depth + 1)%Z)).
Qed.

Lemma object_property_is_field_conversion_witness :
  (exists stored,
      propertyOf "visits"
        (propertyEntries
           (Zod.convertZodObject Zod.convertZodType account None None zodDefaults 0))
      = Some stored
      /\ (Zod.typeName (zod (Zod.ZodDefault (zod (Zod.ZodNumber [Zod.NumInt])) (JNumber 0)))
          <> "ZodDefault" ->
          stored = Zod.convertZodType (zod (Zod.ZodNumber [Zod.NumInt])) zodDefaults 1)
      /\ (stored = Zod.convertZodType (zod (Zod.ZodNumber [Zod.NumInt])) zodDefaults 1
          \/ stored
             = Zod.convertZodType (zod (Zod.ZodNumber [Zod.NumInt])) zodDefaults 1
               |> with_default (JNumber 0)))
  /\ propertyOf "name"
       (propertyEntries (Joi.convertObject Joi.convertJoiDescription profile joiDefaults 0))
     = Some (Joi.convertJoiDescription
               (Joi.mkDescription "string"
                  (Some (Joi.mkFlags (Some "required") (JString "anon")
                           (Some "display name") None None None))
                  None None None None None (Some [JNull]))
               joiDefaults 1).
Proof.
  split.
  - refine (proj1 object_property_is_field_conversion account None None zodDefaults 0%Z
              "visits" (zod (Zod.ZodDefault (zod (Zod.ZodNumber [Zod.NumInt])) (JNumber 0)))
              _ _ _).
    + repeat constructor; simpl; intuition discriminate.
    + simpl. tauto.
    + discriminate.
  - refine (proj2 object_property_is_field_conversion profile joiDefaults 0%Z "name" _ _ _
              _).
    + repeat constructor; simpl; intuition discriminate.
    + simpl. tauto.
    + discriminate.
Defined.

(** *** The resolver on schema nodes *)

Lemma getMember_entry_other :
  forall (A : Type) k name (encode : A -> JSValue) field rest,
    (name =? k) = false ->
    getMember k (Resolver.entry name encode field ++ rest)%list = getMember k rest.
Proof.
  intros A k name encode field rest Hname.
  destruct field as [v |]; [| reflexivity].
  cbn [Resolver.entry app getMember]. rewrite Hname. now destruct (getMember k rest).
Qed.

Lemma getMember_entry_last :
  forall (A : Type) k name (encode : A -> JSValue) field,
    (name =? k) = false -> getMember k (Resolver.entry name encode field) = None.
Proof.
  intros A k name encode field Hname.
  destruct field as [v |]; [| reflexivity].
  cbn [Resolver.entry getMember]. now rewrite Hname.
Qed.

(** A schema node has none of the members that the resolver looks for. *)
Lemma valueOfSchema_plain :
  forall n,
    typeof (Resolver.valueOfSchema n) = "object"
    /\ hasMember "_def" (Resolver.valueOfSchema n) = false
    /\ member "describe" (Resolver.valueOfSchema n) = JUndefined.
Proof.
  intros n. destruct n. cbn [Resolver.valueOfSchema typeof hasMember member].
  split; [reflexivity |].
  rewrite !getMember_entry_other by reflexivity.
  rewrite !getMember_entry_last by reflexivity. now split.
Qed.

Lemma resolveSchemaInput_node :
  forall asZodSchema describe n,
    Resolver.resolveSchemaInput asZodSchema describe (Resolver.valueOfSchema n)
    = Resolver.valueOfSchema n.
Proof.
  intros asZodSchema describe n.
  destruct (valueOfSchema_plain n) as [Htype [Hdef Hdescribe]].
  unfold Resolver.resolveSchemaInput, Resolver.isZodSchema, Resolver.isJoiSchema.
  rewrite Htype, Hdef, Hdescribe.
  change ("object" =? "string") with false.
  change (typeof JUndefined =? "function") with false.
  rewrite !andb_false_r. reflexivity.
Qed.

(** X11.  The resolver never takes a schema node for a Zod or a Joi
    schema: every node, hand-written or produced by an adapter, is
    returned unchanged. *)
Theorem resolver_passes_nodes_through :
  forall asZodSchema describe n,
    Resolver.isZodSchema (Resolver.valueOfSchema n) = false
    /\ Resolver.isJoiSchema (Resolver.valueOfSchema n) = false
    /\ Resolver.resolveSchemaInput asZodSchema describe (Resolver.valueOfSchema n)
       = Resolver.valueOfSchema n.
Proof.
  intros asZodSchema describe n.
  destruct (valueOfSchema_plain n) as [Htype [Hdef Hdescribe]].
  unfold Resolver.isZodSchema, Resolver.isJoiSchema.
  rewrite Htype, Hdef, Hdescribe.
  change (typeof JUndefined =? "function") with false.
  rewrite !andb_false_r.
  repeat split. apply resolveSchemaInput_node.
Qed.

(** X12.  Resolving is idempotent: what [resolveSchemaInput] returns,
    for any input, is returned unchanged when resolved again. *)
Theorem resolveSchemaInput_idempotent :
  forall asZodSchema describe schema,
    Resolver.resolveSchemaInput asZodSchema describe
      (Resolver.resolveSchemaInput asZodSchema describe schema)
    = Resolver.resolveSchemaInput asZodSchema describe schema.
Proof.
  intros asZodSchema describe schema.
  unfold Resolver.resolveSchemaInput at 2 3.
  destruct (typeof schema =? "string") eqn:Hstring; [reflexivity |].
  destruct (Resolver.isZodSchema schema) eqn:Hzod; [apply resolveSchemaInput_node |].
  destruct (Resolver.isJoiSchema schema) eqn:Hjoi; [apply resolveSchemaInput_node |].
  unfold Resolver.resolveSchemaInput. now rewrite Hstring, Hzod, Hjoi.
Qed.

(** *** Wrappers that leave no trace *)

Lemma zodHeight_passThrough :
  forall schema inner,
    passThroughInner schema = Some inner \/ optionalInner schema = Some inner ->
    zodHeight schema = S (zodHeight inner).
Proof.
  intros [d def] inner. unfold passThroughInner, optionalInner. cbn [Zod._def].
  destruct def; intros [H | H]; try discriminate; injection H as ->;
    cbn [zodHeight Zod._def levels list_max fold_right]; now rewrite Nat.max_0_r.
Qed.



(** *** Alternatives *)

Lemma present_schemas :
  forall (A : Type) (convert : Joi.JoiDescription -> A)
         (ms : list (Joi.JoiAlternativeMatch Joi.JoiDescription)),
    Joi.present (map (fun m => match Joi.schema m with
                               | Some s => Some (convert s)
                               | None => None
                               end) (filter hasSchema ms))
    = Joi.present (map (fun m => match Joi.schema m with
                                 | Some s => Some (convert s)
                                 | None => None
                                 end) ms).
Proof.
  intros A convert ms. induction ms as [| m ms IH]; [reflexivity |].
  cbn [filter map]. unfold hasSchema at 1.
  destruct (Joi.schema m) as [s |] eqn:Hs; cbn [map Joi.present]; rewrite ?Hs;
    cbn [Joi.present]; now rewrite IH.
Qed.

(** X14.  The conditional matches of an alternatives description (the
    matches without a [schema]) never reach the node: the conversion is
    the one of the description without them, whatever else the
    description holds. *)
Theorem conditionals_never_converted :
  forall desc opts depth,
    Joi.convertJoiDescription (withoutConditionals desc) opts depth
    = Joi.convertJoiDescription desc opts depth.
Proof.
  intros desc opts depth. rewrite !convertJoiDescription_unfold.
  destruct desc as [t f r ks i o m a]. unfold withoutConditionals.
  cbn [Joi.type Joi.flags Joi.rules Joi.keys Joi.items Joi.ordered Joi.matches Joi.allow].
  assert (Htype :
    Joi.typeSchema Joi.convertJoiDescription
      (Joi.mkDescription t f r ks i o (option_map (filter hasSchema) m) a) opts depth
    = Joi.typeSchema Joi.convertJoiDescription (Joi.mkDescription t f r ks i o m a)
        opts depth).
  { unfold Joi.typeSchema, Joi.convertAlternatives. cbv zeta.
    cbn [Joi.type Joi.matches].
    destruct m as [ms |]; [| reflexivity]. cbn [option_map].
    now rewrite (present_schemas _
                   (fun s => Joi.convertJoiDescription s opts (depth + 1)%Z)). }
  unfold Joi.combinedSchema. rewrite Htype. reflexivity.
Qed.

(** *** Every type is a JSON Schema type *)

Lemma wellTyped_unfold :
  forall n,
    wellTyped n
    = holds validType (type n)
      && holds wellTyped (not_ n)
      && holds (forallb wellTyped) (anyOf n)
      && holds (forallb wellTyped) (allOf n)
      && holds (forallb (fun p => wellTyped (snd p))) (properties n)
      && holds wellTypedIn (additionalProperties n)
      && holds wellTypedIn (items n)
      && holds (forallb wellTyped) (prefixItems n).
Proof. intros n. now destruct n. Qed.

Lemma holds_later :
  forall (A : Type) (test : A -> bool) x y,
    holds test x = true -> holds test y = true -> holds test (later x y) = true.
Proof. intros A test x [y |] Hx Hy; [exact Hy | exact Hx]. Qed.

Ltac split_checks :=
  repeat match goal with
         | H : _ && _ = true |- _ => apply andb_prop in H; destruct H
         end;
  repeat (apply andb_true_intro; split).

Lemma wellTyped_empty : wellTyped emptySchema = true.
Proof. reflexivity. Qed.

Lemma wellTyped_spread :
  forall a b, wellTyped a = true -> wellTyped b = true -> wellTyped (spread a b) = true.
Proof.
  intros a b Ha Hb. rewrite wellTyped_unfold in Ha, Hb.
  rewrite (wellTyped_unfold (spread a b)). split_checks; unfold spread;
    cbn [type not_ anyOf allOf properties additionalProperties items prefixItems];
    now apply holds_later.
Qed.

Create Rewrite HintDb typed.

Lemma wellTyped_with_format :
  forall v n, wellTyped (with_format v n) = wellTyped n.
Proof. intros v n. now destruct n. Qed.
#[local] Hint Rewrite wellTyped_with_format : typed.

Lemma wellTyped_with_description :
  forall v n, wellTyped (with_description v n) = wellTyped n.
Proof. intros v n. now destruct n. Qed.
#[local] Hint Rewrite wellTyped_with_description : typed.

Lemma wellTyped_with_default :
  forall v n, wellTyped (with_default v n) = wellTyped n.
Proof. intros v n. now destruct n. Qed.
#[local] Hint Rewrite wellTyped_with_default : typed.

Lemma wellTyped_with_const :
  forall v n, wellTyped (with_const v n) = wellTyped n.
Proof. intros v n. now destruct n. Qed.
#[local] Hint Rewrite wellTyped_with_const : typed.

Lemma wellTyped_with_enum :
  forall v n, wellTyped (with_enum v n) = wellTyped n.
Proof. intros v n. now destruct n. Qed.
#[local] Hint Rewrite wellTyped_with_enum : typed.

Lemma wellTyped_with_required :
  forall v n, wellTyped (with_required v n) = wellTyped n.
Proof. intros v n. now destruct n. Qed.
#[local] Hint Rewrite wellTyped_with_required : typed.

Lemma wellTyped_with_minItems :
  forall v n, wellTyped (with_minItems v n) = wellTyped n.
Proof. intros v n. now destruct n. Qed.
#[local] Hint Rewrite wellTyped_with_minItems : typed.

Lemma wellTyped_with_maxItems :
  forall v n, wellTyped (with_maxItems v n) = wellTyped n.
Proof. intros v n. now destruct n. Qed.
#[local] Hint Rewrite wellTyped_with_maxItems : typed.

Lemma wellTyped_with_uniqueItems :
  forall v n, wellTyped (with_uniqueItems v n) = wellTyped n.
Proof. intros v n. now destruct n. Qed.
#[local] Hint Rewrite wellTyped_with_uniqueItems : typed.

Lemma wellTyped_with_minLength :
  forall v n, wellTyped (with_minLength v n) = wellTyped n.
Proof. intros v n. now destruct n. Qed.
#[local] Hint Rewrite wellTyped_with_minLength : typed.

Lemma wellTyped_with_maxLength :
  forall v n, wellTyped (with_maxLength v n) = wellTyped n.
Proof. intros v n. now destruct n. Qed.
#[local] Hint Rewrite wellTyped_with_maxLength : typed.

Lemma wellTyped_with_pattern :
  forall v n, wellTyped (with_pattern v n) = wellTyped n.
Proof. intros v n. now destruct n. Qed.
#[local] Hint Rewrite wellTyped_with_pattern : typed.

Lemma wellTyped_with_contentEncoding :
  forall v n, wellTyped (with_contentEncoding v n) = wellTyped n.
Proof. intros v n. now destruct n. Qed.
#[local] Hint Rewrite wellTyped_with_contentEncoding : typed.

Lemma wellTyped_with_minimum :
  forall v n, wellTyped (with_minimum v n) = wellTyped n.
Proof. intros v n. now destruct n. Qed.
#[local] Hint Rewrite wellTyped_with_minimum : typed.

Lemma wellTyped_with_maximum :
  forall v n, wellTyped (with_maximum v n) = wellTyped n.
Proof. intros v n. now destruct n. Qed.
#[local] Hint Rewrite wellTyped_with_maximum : typed.

Lemma wellTyped_with_exclusiveMinimum :
  forall v n, wellTyped (with_exclusiveMinimum v n) = wellTyped n.
Proof. intros v n. now destruct n. Qed.
#[local] Hint Rewrite wellTyped_with_exclusiveMinimum : typed.

Lemma wellTyped_with_exclusiveMaximum :
  forall v n, wellTyped (with_exclusiveMaximum v n) = wellTyped n.
Proof. intros v n. now destruct n. Qed.
#[local] Hint Rewrite wellTyped_with_exclusiveMaximum : typed.

Lemma wellTyped_with_multipleOf :
  forall v n, wellTyped (with_multipleOf v n) = wellTyped n.
Proof. intros v n. now destruct n. Qed.
#[local] Hint Rewrite wellTyped_with_multipleOf : typed.

Lemma wellTyped_with_readOnly :
  forall v n, wellTyped (with_readOnly v n) = wellTyped n.
Proof. intros v n. now destruct n. Qed.
#[local] Hint Rewrite wellTyped_with_readOnly : typed.

Lemma wellTyped_with_type :
  forall v n,
    validType v = true -> wellTyped n = true -> wellTyped (with_type v n) = true.
Proof.
  intros v n Hv Hn. rewrite wellTyped_unfold in Hn.
  rewrite (wellTyped_unfold (with_type v n)). split_checks; unfold with_type;
    cbn [type not_ anyOf allOf properties additionalProperties items prefixItems holds];
    assumption.
Qed.

Lemma wellTyped_with_not :
  forall v n,
    wellTyped v = true -> wellTyped n = true -> wellTyped (with_not v n) = true.
Proof.
  intros v n Hv Hn. rewrite wellTyped_unfold in Hn.
  rewrite (wellTyped_unfold (with_not v n)). split_checks; unfold with_not;
    cbn [type not_ anyOf allOf properties additionalProperties items prefixItems holds];
    assumption.
Qed.

Lemma wellTyped_with_anyOf :
  forall v n,
    forallb wellTyped v = true -> wellTyped n = true -> wellTyped (with_anyOf v n) = true.
Proof.
  intros v n Hv Hn. rewrite wellTyped_unfold in Hn.
  rewrite (wellTyped_unfold (with_anyOf v n)). split_checks; unfold with_anyOf;
    cbn [type not_ anyOf allOf properties additionalProperties items prefixItems holds];
    assumption.
Qed.

Lemma wellTyped_with_allOf :
  forall v n,
    forallb wellTyped v = true -> wellTyped n = true -> wellTyped (with_allOf v n) = true.
Proof.
  intros v n Hv Hn. rewrite wellTyped_unfold in Hn.
  rewrite (wellTyped_unfold (with_allOf v n)). split_checks; unfold with_allOf;
    cbn [type not_ anyOf allOf properties additionalProperties items prefixItems holds];
    assumption.
Qed.

Lemma wellTyped_with_properties :
  forall v n,
    forallb (fun p => wellTyped (snd p)) v = true -> wellTyped n = true -> wellTyped (with_properties v n) = true.
Proof.
  intros v n Hv Hn. rewrite wellTyped_unfold in Hn.
  rewrite (wellTyped_unfold (with_properties v n)). split_checks; unfold with_properties;
    cbn [type not_ anyOf allOf properties additionalProperties items prefixItems holds];
    assumption.
Qed.

Lemma wellTyped_with_additionalProperties :
  forall v n,
    wellTypedIn v = true -> wellTyped n = true -> wellTyped (with_additionalProperties v n) = true.
Proof.
  intros v n Hv Hn. rewrite wellTyped_unfold in Hn.
  rewrite (wellTyped_unfold (with_additionalProperties v n)). split_checks; unfold with_additionalProperties;
    cbn [type not_ anyOf allOf properties additionalProperties items prefixItems holds];
    assumption.
Qed.

Lemma wellTyped_with_items :
  forall v n,
    wellTypedIn v = true -> wellTyped n = true -> wellTyped (with_items v n) = true.
Proof.
  intros v n Hv Hn. rewrite wellTyped_unfold in Hn.
  rewrite (wellTyped_unfold (with_items v n)). split_checks; unfold with_items;
    cbn [type not_ anyOf allOf properties additionalProperties items prefixItems holds];
    assumption.
Qed.

Lemma wellTyped_with_prefixItems :
  forall v n,
    forallb wellTyped v = true -> wellTyped n = true -> wellTyped (with_prefixItems v n) = true.
Proof.
  intros v n Hv Hn. rewrite wellTyped_unfold in Hn.
  rewrite (wellTyped_unfold (with_prefixItems v n)). split_checks; unfold with_prefixItems;
    cbn [type not_ anyOf allOf properties additionalProperties items prefixItems holds];
    assumption.
Qed.

Ltac typed :=
  repeat first
    [ assumption
    | progress autorewrite with typed
    | apply wellTyped_empty
    | apply wellTyped_spread
    | apply wellTyped_with_type
    | apply wellTyped_with_not
    | apply wellTyped_with_anyOf
    | apply wellTyped_with_allOf
    | apply wellTyped_with_properties
    | apply wellTyped_with_additionalProperties
    | apply wellTyped_with_items
    | apply wellTyped_with_prefixItems
    | reflexivity ].

Lemma fold_left_invariant :
  forall (A B : Type) (P : A -> Prop) (f : A -> B -> A) (xs : list B) (a : A),
    (forall a x, P a -> P (f a x)) -> P a -> P (fold_left f xs a).
Proof.
  intros A B P f xs. induction xs as [| x xs IH]; intros a Hstep Ha; [exact Ha |].
  cbn [fold_left]. apply IH; [exact Hstep | now apply Hstep].
Qed.

Lemma forallb_map_typed :
  forall (A : Type) (convert : A -> SchemaObject) (xs : list A),
    (forall x, In x xs -> wellTyped (convert x) = true) ->
    forallb wellTyped (map convert xs) = true.
Proof.
  intros A convert xs Hxs. apply forallb_forall. intros n Hn.
  apply in_map_iff in Hn. destruct Hn as [x [<- Hx]]. now apply Hxs.
Qed.

Lemma setProperty_typed :
  forall k v ps,
    wellTyped v = true ->
    forallb (fun p => wellTyped (snd p)) ps = true ->
    forallb (fun p => wellTyped (snd p)) (setProperty k v ps) = true.
Proof.
  intros k v ps Hv. induction ps as [| [k' v'] ps IH]; cbn [setProperty forallb snd].
  - intros _. now rewrite Hv.
  - intros H. apply andb_prop in H. destruct H as [Hv' Hps].
    destruct (k' =? k); cbn [forallb snd]; [now rewrite Hv, Hps |].
    now rewrite Hv', IH.
Qed.

Lemma assignProperty_typed :
  forall k v ps,
    wellTyped v = true ->
    forallb (fun p => wellTyped (snd p)) ps = true ->
    forallb (fun p => wellTyped (snd p)) (assignProperty k v ps) = true.
Proof.
  intros k v ps Hv Hps. unfold assignProperty.
  destruct (k =? "__proto__"); [exact Hps | now apply setProperty_typed].
Qed.

Lemma wellTyped_zod_collected :
  forall opts schema, wellTyped (Zod.collected opts schema) = true.
Proof.
  intros opts schema. unfold Zod.collected.
  destruct (Zod._description schema) as [d |]; [| reflexivity].
  destruct (Zod.includeDescriptions opts && truthyString d); typed.
Qed.

Lemma wellTyped_convertZodString :
  forall checks, wellTyped (Zod.convertZodString checks) = true.
Proof.
  intros checks. unfold Zod.convertZodString. cbv zeta.
  apply (fold_left_invariant _ _ (fun n => wellTyped n = true)); [| typed].
  intros n check Hn. destruct check; cbn [Zod.stringCheck]; typed.
Qed.

Lemma wellTyped_convertZodNumber :
  forall checks, wellTyped (Zod.convertZodNumber checks) = true.
Proof.
  intros checks. unfold Zod.convertZodNumber.
  assert (Hloop :
    wellTyped (snd (fold_left Zod.numberCheck checks (false, emptySchema))) = true).
  { apply (fold_left_invariant _ _ (fun state => wellTyped (snd state) = true));
      [| reflexivity].
    intros [isInteger n] check Hn. cbn [snd] in Hn.
    destruct check as [| v [|] | v [|] | v | | other]; cbn [Zod.numberCheck snd]; typed. }
  destruct (fold_left _ _ _) as [isInteger n]. cbn [snd] in Hloop.
  destruct isInteger; typed.
Qed.

Section ZodTyped.
Variable convert : Zod.ZodTypeAny -> Zod.Options -> Z -> SchemaObject.
Variable opts : Zod.Options.
Variable depth : Z.

Lemma wellTyped_objectField :
  forall entries state,
    (forall e, In e entries ->
       wellTyped (convert (Zod.unwrapZodOptional (snd e)) opts (depth + 1)%Z) = true) ->
    forallb (fun p => wellTyped (snd p)) (fst state) = true ->
    forallb (fun p => wellTyped (snd p))
      (fst (fold_left (Zod.objectField convert opts depth) entries state)) = true.
Proof.
  induction entries as [| [key fieldSchema] entries IH]; intros state Hfields Hstate;
    [exact Hstate |].
  cbn [fold_left]. apply IH; [intros e He; apply Hfields; now right |].
  destruct state as [properties required]. unfold Zod.objectField. cbn [fst] in *.
  pose proof (Hfields (key, fieldSchema) (or_introl eq_refl)) as Hconverted.
  cbn [snd] in Hconverted.
  apply assignProperty_typed; [| exact Hstate].
  destruct (Zod.includeDefaults opts && (Zod.typeName fieldSchema =? "ZodDefault")
            && defaultIsUndefined _); [| exact Hconverted].
  destruct (negb (isUndefined (Zod.callDefaultValue fieldSchema))); typed.
Qed.

Lemma wellTyped_convertZodObject :
  forall shape unknownKeys catchall,
    (forall e, In e (entriesOf shape) ->
       wellTyped (convert (Zod.unwrapZodOptional (snd e)) opts (depth + 1)%Z) = true) ->
    (forall c, catchall = Some c -> wellTyped (convert c opts (depth + 1)%Z) = true) ->
    wellTyped (Zod.convertZodObject convert shape unknownKeys catchall opts depth) = true.
Proof.
  intros shape unknownKeys catchall Hfields Hcatchall. unfold Zod.convertZodObject.
  assert (Hloop :
    forallb (fun p => wellTyped (snd p))
      (fst match shape with
           | Some entries => fold_left (Zod.objectField convert opts depth) entries ([], [])
           | None => ([], [])
           end) = true).
  { destruct shape as [entries |]; [| reflexivity].
    now apply wellTyped_objectField. }
  destruct (match shape with Some _ => _ | None => _ end) as [properties required].
  cbn [fst] in Hloop. cbv zeta.
  destruct catchall as [c |];
    [pose proof (Hcatchall c eq_refl); destruct (negb (Zod.typeName c =? "ZodNever")) |];
    (destruct unknownKeys as [mode |];
     [destruct (mode =? "strict"); [| destruct (mode =? "passthrough")] |]);
    destruct (0 <? List.length required)%nat;
    destruct (0 <? List.length properties)%nat; typed.
Qed.
End ZodTyped.

Lemma wellTyped_zod :
  forall schema opts depth, wellTyped (Zod.convertZodType schema opts depth) = true.
Proof.
  intros schema.
  enough (H :
    (forall opts depth, wellTyped (Zod.convertZodType schema opts depth) = true)
    /\ (forall opts depth,
           wellTyped (Zod.convertZodType (Zod.unwrapZodOptional schema) opts depth) = true))
    by apply H.
  induction schema as [schema IH] using zod_children_ind.
  assert (Hschema :
    forall opts depth, wellTyped (Zod.convertZodType schema opts depth) = true).
  { intros opts depth.
    assert (Hchild :
      forall c, In c (zodChildren schema) ->
                wellTyped (Zod.convertZodType c opts (depth + 1)%Z) = true)
      by (intros c Hc; apply (proj1 (IH c Hc))).
    assert (Hunwrapped :
      forall c, In c (zodChildren schema) ->
                wellTyped (Zod.convertZodType (Zod.unwrapZodOptional c) opts (depth + 1)%Z)
                = true)
      by (intros c Hc; apply (proj2 (IH c Hc))).
    clear IH. pose proof (wellTyped_zod_collected opts schema) as Hcollected.
    destruct schema as [d def]. unfold zodChildren in Hchild, Hunwrapped.
    cbn [Zod._def] in Hchild, Hunwrapped.
    destruct def as
      [ checks | checks | | | | | value | values | values
      | shape unknownKeys catchall | item minL maxL exactL | items rest
      | options | options | l r | inner | inner | inner defaultValue
      | inner | inner | inner | valueType | | valueType
      | | | | | | | | | | inner | inner | name ];
      cbn [Zod.convertZodType Zod._def];
      (destruct (depth >? Zod.maxDepth opts)%Z; [reflexivity |]);
      cbv zeta;
      try (pose proof (Hchild inner (or_introl eq_refl)) as Hinner);
      try solve [typed].
    - apply wellTyped_spread; [exact Hcollected |]. apply wellTyped_convertZodString.
    - apply wellTyped_spread; [exact Hcollected |]. apply wellTyped_convertZodNumber.
    - apply wellTyped_spread; [exact Hcollected |]. apply wellTyped_convertZodObject.
      + intros e He. apply Hunwrapped, in_or_app. left. now apply in_map.
      + intros c ->. apply Hchild, in_or_app. right. now left.
    - apply wellTyped_spread; [exact Hcollected |]. unfold Zod.convertZodArray.
      destruct item as [item |]; [pose proof (Hchild item (or_introl eq_refl)) |];
        destruct exactL; destruct minL; destruct maxL; typed.
    - apply wellTyped_spread; [exact Hcollected |]. unfold Zod.convertZodTuple.
      assert (Hitems :
        forallb wellTyped (map (fun item => Zod.convertZodType item opts (depth + 1)%Z) items)
        = true).
      { apply forallb_map_typed. intros c Hc. apply Hchild, in_or_app. now left. }
      destruct rest as [r |];
        [assert (wellTyped (Zod.convertZodType r opts (depth + 1)%Z) = true)
           by (apply Hchild, in_or_app; right; now left) |];
        typed.
    - apply wellTyped_with_anyOf; [| exact Hcollected].
      apply forallb_map_typed. exact Hchild.
    - apply wellTyped_with_anyOf; [| exact Hcollected].
      apply forallb_map_typed. exact Hchild.
    - apply wellTyped_with_allOf; [| exact Hcollected].
      cbn [forallb]. rewrite (Hchild l), (Hchild r); [reflexivity | |]; cbn; tauto.
    - destruct (Zod.scalarType _) as [t |] eqn:Hscalar.
      + apply wellTyped_with_type; [| typed].
        unfold Zod.scalarType in Hscalar.
        rewrite wellTyped_unfold in Hinner.
        destruct (OpenAPI.type (Zod.convertZodType inner opts (depth + 1)%Z))
          as [[name | names] |]; try discriminate.
        destruct (truthyString name); [| discriminate]. injection Hscalar as ->.
        cbn [holds validType] in Hinner. cbn [validType forallb].
        destruct (isJsonType t); [reflexivity | discriminate].
      + apply wellTyped_with_anyOf; [| exact Hcollected].
        cbn [forallb]. now rewrite Hinner.
    - destruct (Zod.includeDefaults opts && negb (isUndefined defaultValue)); typed.
    - destruct valueType as [v |]; [pose proof (Hchild v (or_introl eq_refl)) |]; typed.
    - destruct valueType as [v |]; [pose proof (Hchild v (or_introl eq_refl)) |]; typed. }
  split; [exact Hschema |].
  destruct schema as [d def].
  destruct def; try exact Hschema; apply (proj1 (IH _ (or_introl eq_refl))).
Qed.

Ltac split_conditions :=
  repeat match goal with
         | |- context [if ?b then _ else _] => destruct b
         end.

Lemma wellTyped_joi_collected :
  forall opts desc, wellTyped (Joi.collected opts desc) = true.
Proof.
  intros opts desc. unfold Joi.collected. cbv zeta.
  destruct (Joi.flagDescription desc) as [d |]; split_conditions; typed.
Qed.

Lemma wellTyped_stringRule :
  forall n (rule : Joi.JoiRule Joi.JoiDescription),
    wellTyped n = true -> wellTyped (Joi.stringRule n rule) = true.
Proof.
  intros n rule Hn. unfold Joi.stringRule. cbv zeta.
  destruct (Joi.regex (Joi.argsOf rule)) as [| | | | text | r | | |];
    try destruct (Joi.execDelimited text);
    split_conditions; typed.
Qed.

Lemma wellTyped_convertNumber :
  forall desc, wellTyped (Joi.convertNumber desc) = true.
Proof.
  intros desc. unfold Joi.convertNumber. cbv zeta.
  assert (Hloop :
    wellTyped
      (snd (fold_left Joi.numberRule
              match Joi.rules desc with Some rs => rs | None => [] end
              (false, emptySchema))) = true).
  { apply (fold_left_invariant _ _ (fun state => wellTyped (snd state) = true));
      [| reflexivity].
    intros [isInteger n] rule Hn. cbn [snd] in Hn.
    unfold Joi.numberRule. cbv zeta. split_conditions; cbn [snd]; typed. }
  destruct (fold_left _ _ _) as [isInteger n]. cbn [snd] in Hloop.
  destruct isInteger; typed.
Qed.

Lemma wellTyped_arrayRule :
  forall n (rule : Joi.JoiRule Joi.JoiDescription),
    wellTyped n = true -> wellTyped (Joi.arrayRule n rule) = true.
Proof.
  intros n rule Hn. unfold Joi.arrayRule. cbv zeta. split_conditions; typed.
Qed.

Lemma forallb_present_typed :
  forall xs : list (option SchemaObject),
    (forall n, In (Some n) xs -> wellTyped n = true) ->
    forallb wellTyped (Joi.present xs) = true.
Proof.
  induction xs as [| [x |] xs IH]; intros Hxs; cbn [Joi.present forallb].
  - reflexivity.
  - rewrite (Hxs x (or_introl eq_refl)). apply IH. intros n Hn. apply Hxs. now right.
  - apply IH. intros n Hn. apply Hxs. now right.
Qed.

Section JoiTyped.
Variable convert : Joi.JoiDescription -> Joi.Options -> Z -> SchemaObject.
Variable opts : Joi.Options.
Variable depth : Z.

Lemma wellTyped_objectKey :
  forall entries state,
    (forall e, In e entries -> wellTyped (convert (snd e) opts (depth + 1)%Z) = true) ->
    forallb (fun p => wellTyped (snd p)) (fst state) = true ->
    forallb (fun p => wellTyped (snd p))
      (fst (fold_left (Joi.objectKey convert opts depth) entries state)) = true.
Proof.
  induction entries as [| [key fieldDesc] entries IH]; intros state Hfields Hstate;
    [exact Hstate |].
  cbn [fold_left]. apply IH; [intros e He; apply Hfields; now right |].
  destruct state as [properties required]. unfold Joi.objectKey. cbn [fst] in *.
  apply assignProperty_typed; [| exact Hstate].
  apply (Hfields (key, fieldDesc)). now left.
Qed.

Lemma wellTyped_convertObject :
  forall desc,
    (forall c,
        In c (map snd (entriesOf (Joi.keys desc))
              ++ optional (firstPatternValue (entriesOf (Joi.rules desc)))) ->
        wellTyped (convert c opts (depth + 1)%Z) = true) ->
    wellTyped (Joi.convertObject convert desc opts depth) = true.
Proof.
  intros desc Hvisited. unfold Joi.convertObject. cbv zeta.
  assert (Hloop :
    forallb (fun p => wellTyped (snd p))
      (fst match Joi.keys desc with
           | Some entries => fold_left (Joi.objectKey convert opts depth) entries ([], [])
           | None => ([], [])
           end) = true).
  { destruct (Joi.keys desc) as [entries |]; [| reflexivity].
    apply wellTyped_objectKey; [| reflexivity].
    intros e He. apply Hvisited, in_or_app. left. now apply in_map. }
  destruct (match Joi.keys desc with Some _ => _ | None => _ end)
    as [properties required].
  cbn [fst] in Hloop.
  assert (Hrules :
    forall (A : Type) (found : SchemaObject -> A) (missing : A),
      match
        match Joi.rules desc with
        | Some rs =>
            filter (fun r => fst r =? "pattern") (map (Joi.ruleValue convert opts depth) rs)
        | None => []
        end
      with
      | (_, Some converted) :: _ => found converted
      | _ => missing
      end
      = match firstPatternValue (entriesOf (Joi.rules desc)) with
        | Some valueDesc => found (convert valueDesc opts (depth + 1)%Z)
        | None => missing
        end).
  { intros A found missing.
    destruct (Joi.rules desc) as [rs |]; [apply patternRules_first | reflexivity]. }
  rewrite Hrules. clear Hrules.
  assert (Hpattern :
    forall valueDesc,
      firstPatternValue (entriesOf (Joi.rules desc)) = Some valueDesc ->
      wellTyped (convert valueDesc opts (depth + 1)%Z) = true).
  { intros valueDesc Hfirst. apply Hvisited, in_or_app. right. rewrite Hfirst. now left. }
  destruct (firstPatternValue (entriesOf (Joi.rules desc))) as [valueDesc |];
    [pose proof (Hpattern valueDesc eq_refl) |];
    destruct (Joi.flagAllowUnknown desc) as [[|] |];
    destruct (0 <? List.length properties)%nat;
    destruct (0 <? List.length required)%nat; typed.
Qed.

Lemma wellTyped_plainArray :
  forall desc,
    (forall c, In c (entriesOf (Joi.items desc)) ->
       wellTyped (convert c opts (depth + 1)%Z) = true) ->
    wellTyped (Joi.plainArray convert desc opts depth) = true.
Proof.
  intros desc Hitems. unfold Joi.plainArray. cbv zeta.
  assert (Hrules :
    forall n, wellTyped n = true ->
              wellTyped match Joi.rules desc with
                        | Some rs => fold_left Joi.arrayRule rs n
                        | None => n
                        end = true).
  { intros n Hn. destruct (Joi.rules desc) as [rs |]; [| exact Hn].
    apply (fold_left_invariant _ _ (fun n => wellTyped n = true)); [| exact Hn].
    intros a rule. apply wellTyped_arrayRule. }
  apply Hrules.
  destruct (Joi.items desc) as [[| item [| item' its]] |]; cbn [entriesOf] in Hitems.
  - typed.
  - pose proof (Hitems item (or_introl eq_refl)). typed.
  - apply wellTyped_with_items; [| typed]. cbn [wellTypedIn].
    apply wellTyped_with_anyOf; [| typed]. now apply forallb_map_typed.
  - typed.
Qed.

Lemma wellTyped_convertArray :
  forall desc,
    (forall c, In c (visitedItems desc) ->
       wellTyped (convert c opts (depth + 1)%Z) = true) ->
    wellTyped (Joi.convertArray convert desc opts depth) = true.
Proof.
  intros desc Hitems. unfold Joi.convertArray. cbv zeta.
  unfold visitedItems in Hitems.
  destruct (Joi.ordered desc) as [slots |]; [| now apply wellTyped_plainArray].
  destruct (0 <? List.length slots)%nat; [| now apply wellTyped_plainArray].
  unfold lengthOf. autorewrite with typed.
  apply wellTyped_with_items; [reflexivity |].
  apply wellTyped_with_prefixItems; [| typed]. now apply forallb_map_typed.
Qed.

Lemma wellTyped_convertAlternatives :
  forall desc,
    (forall c, In c (matchSchemas desc) ->
       wellTyped (convert c opts (depth + 1)%Z) = true) ->
    wellTyped (Joi.convertAlternatives convert desc opts depth) = true.
Proof.
  intros desc Hschemas. unfold Joi.convertAlternatives. cbv zeta.
  unfold matchSchemas in Hschemas.
  destruct (Joi.matches desc) as [ms |]; [| reflexivity]. cbn [entriesOf] in Hschemas.
  assert (Hall :
    forallb wellTyped
      (Joi.present
         (map (fun m => match Joi.schema m with
                        | Some s => Some (convert s opts (depth + 1)%Z)
                        | None => None
                        end) ms)) = true).
  { apply forallb_present_typed. intros n Hn.
    apply in_map_iff in Hn. destruct Hn as [m [Hm Hin]].
    destruct (Joi.schema m) as [s |] eqn:Hs; [| discriminate].
    injection Hm as <-. apply Hschemas, in_flat_map. exists m. split; [exact Hin |].
    rewrite Hs. now left. }
  destruct (Joi.present _) as [| only [| second rest]]; [reflexivity | |].
  - cbn [forallb] in Hall. now destruct (wellTyped only).
  - typed.
Qed.

Lemma wellTyped_typeSchema :
  forall desc,
    (forall c, In c (joiVisited desc) -> wellTyped (convert c opts (depth + 1)%Z) = true) ->
    wellTyped (Joi.typeSchema convert desc opts depth) = true.
Proof.
  intros desc Hvisited. unfold Joi.typeSchema. unfold joiVisited in Hvisited.
  cbv zeta in *.
  destruct (Joi.type desc =? "string").
  { unfold Joi.convertString. cbv zeta.
    apply (fold_left_invariant _ _ (fun n => wellTyped n = true)); [| typed].
    intros n rule. apply wellTyped_stringRule. }
  destruct (Joi.type desc =? "number"); [apply wellTyped_convertNumber |].
  destruct (Joi.type desc =? "boolean"); [reflexivity |].
  destruct (Joi.type desc =? "object"); [now apply wellTyped_convertObject |].
  destruct (Joi.type desc =? "array"); [now apply wellTyped_convertArray |].
  destruct (Joi.type desc =? "alternatives"); [now apply wellTyped_convertAlternatives |].
  split_conditions; typed.
Qed.
End JoiTyped.

Lemma wellTyped_applyNullable :
  forall combined, wellTyped combined = true -> wellTyped (Joi.applyNullable combined) = true.
Proof.
  intros combined Hcombined. unfold Joi.applyNullable. cbv zeta.
  assert (Hwrap :
    wellTyped (if hasKeys combined then Joi.orNull combined else combined) = true).
  { destruct (hasKeys combined); [| exact Hcombined].
    unfold Joi.orNull. apply wellTyped_with_anyOf; [| reflexivity].
    cbn [forallb]. now rewrite Hcombined. }
  pose proof Hcombined as Htype. rewrite wellTyped_unfold in Htype.
  destruct (OpenAPI.type combined) as [[t | ts] |]; [| | exact Hwrap].
  - destruct (truthyString t); [| exact Hwrap].
    apply wellTyped_with_type; [| exact Hcombined].
    cbn [holds validType] in Htype. cbn [validType forallb].
    destruct (isJsonType t); [reflexivity | discriminate].
  - destruct (negb (existsb (String.eqb "null") ts)); [| exact Hcombined].
    apply wellTyped_with_type; [| exact Hcombined].
    cbn [holds validType] in Htype. cbn [validType].
    rewrite forallb_app. cbn [forallb].
    destruct (forallb isJsonType ts); [reflexivity | discriminate].
Qed.

Lemma wellTyped_joi :
  forall desc opts depth, wellTyped (Joi.convertJoiDescription desc opts depth) = true.
Proof.
  intros desc. induction desc as [desc IH] using joi_children_ind.
  intros opts depth. rewrite convertJoiDescription_unfold.
  destruct (depth >? Joi.maxDepth opts)%Z; [reflexivity |].
  pose proof (wellTyped_joi_collected opts desc) as Hcollected.
  destruct (Joi.isEnum desc).
  { rewrite convertEnum_whole_list. typed. }
  assert (Hcombined :
    wellTyped (Joi.combinedSchema Joi.convertJoiDescription desc opts depth) = true).
  { unfold Joi.combinedSchema. apply wellTyped_spread; [exact Hcollected |].
    apply wellTyped_typeSchema. intros c Hc. apply IH. now apply joiVisited_children. }
  cbv zeta. destruct (Joi.hasNullAllow desc && negb (Joi.flagOnly desc));
    [now apply wellTyped_applyNullable | exact Hcombined].
Qed.

(** X15.  Every [type] in the node returned by either adapter, at any
    depth of the node, is made of JSON Schema type names: one of
    [string], [number], [integer], [boolean], [object], [array],
    [null], or an array of them. *)
Theorem every_type_is_a_json_type :
  (forall schema opts depth,
      wellTyped (Zod.convertZodType schema opts depth) = true)
  /\ (forall desc opts depth,
         wellTyped (Joi.convertJoiDescription desc opts depth) = true).
Proof.
  split; [exact wellTyped_zod | exact wellTyped_joi].
Qed.

(** *** The builder *)

Lemma propertyEntries_property :
  forall name schema required this,
    propertyEntries (Builder.property name schema required this)
    = setProperty name schema (propertyEntries this).
Proof.
  intros name schema required this. unfold Builder.property. cbv zeta.
  destruct (0 <? _)%nat; now destruct this.
Qed.

Lemma requiredNames_property :
  forall name schema required this,
    requiredNames (Builder.property name schema required this)
    = if required && negb (existsb (String.eqb name) (requiredNames this))
      then (requiredNames this ++ [name])%list
      else requiredNames this.
Proof.
  intros name schema required this. unfold Builder.property. cbv zeta.
  fold (requiredNames this).
  destruct (required && negb (existsb (String.eqb name) (requiredNames this))).
  - destruct (requiredNames this); now destruct this.
  - unfold requiredNames. destruct this as [? ? ? ? ? ? ? ? ? ? [[| x names] |]];
      reflexivity.
Qed.

(** X16.  [property] keeps an object node consistent: when the
    [required] list was duplicate-free and named properties only, it
    still is afterwards.  The property is stored under its name, no
    required name is ever dropped, and the name is required afterwards
    when asked for. *)
Theorem builder_property_keeps_required_consistent :
  forall name schema required this,
    requiredAreProperties this ->
    requiredAreProperties (Builder.property name schema required this)
    /\ propertyOf name (propertyEntries (Builder.property name schema required this))
       = Some schema
    /\ incl (requiredNames this)
            (requiredNames (Builder.property name schema required this))
    /\ (required = true ->
        In name (requiredNames (Builder.property name schema required this))).
Proof.
  intros name schema required this [Hfresh Hnamed].
  unfold requiredAreProperties.
  rewrite propertyEntries_property, requiredNames_property.
  assert (Hkeys :
    forall x, In x (map fst (propertyEntries this)) ->
              In x (map fst (setProperty name schema (propertyEntries this)))).
  { intros x Hx. apply setProperty_keys. now right. }
  destruct required; cbn [andb].
  - destruct (existsb (String.eqb name) (requiredNames this)) eqn:Hlisted; cbn [negb].
    + repeat split.
      * exact Hfresh.
      * intros x Hx. apply Hkeys, Hnamed, Hx.
      * apply propertyOf_setProperty_same.
      * apply incl_refl.
      * intros _. apply existsb_exists in Hlisted. destruct Hlisted as [x [Hx Hsame]].
        apply String.eqb_eq in Hsame. now subst x.
    + assert (Hnew : ~ In name (requiredNames this)).
      { intros Hin.
        assert (Hfound : existsb (String.eqb name) (requiredNames this) = true).
        { apply existsb_exists. exists name. split; [exact Hin | apply String.eqb_refl]. }
        rewrite Hfound in Hlisted. discriminate. }
      repeat split.
      * apply NoDup_app; [exact Hfresh | repeat constructor; intros [] | ].
        intros x Hx [<- | []]. now apply Hnew.
      * intros x Hx. apply in_app_or in Hx. destruct Hx as [Hx | [<- | []]].
        -- apply Hkeys, Hnamed, Hx.
        -- apply setProperty_keys. now left.
      * apply propertyOf_setProperty_same.
      * intros x Hx. apply in_or_app. now left.
      * intros _. apply in_or_app. right. now left.
  - repeat split.
    + exact Hfresh.
    + intros x Hx. apply Hkeys, Hnamed, Hx.
    + apply propertyOf_setProperty_same.
    + apply incl_refl.
    + discriminate.
Qed.

Lemma builder_property_witness :
  requiredAreProperties (Builder.property "name" emptySchema true withId)
  /\ propertyOf "name" (propertyEntries (Builder.property "name" emptySchema true withId))
     = Some emptySchema
  /\ incl (requiredNames withId)
          (requiredNames (Builder.property "name" emptySchema true withId))
  /\ (true = true ->
      In "name" (requiredNames (Builder.property "name" emptySchema true withId))).
Proof.
  refine (builder_property_keeps_required_consistent "name" emptySchema true withId _).
  split.
  - repeat constructor. simpl. tauto.
  - intros x Hx. exact Hx.
Defined.

(** X17.  On a node with one truthy type name, the three ways of
    making a schema nullable agree: the builder's [nullable()], the
    nullable arm of the Zod adapter (for a wrapper without collected
    description) and the null fold of the Joi adapter all replace
    [type] by the pair of the name and ["null"]. *)
Theorem nullable_agrees_on_typed_nodes :
  (forall innerType opts depth t,
      (depth <= Zod.maxDepth opts)%Z ->
      Zod.scalarType (Zod.convertZodType innerType opts (depth + 1)%Z) = Some t ->
      Zod.convertZodType (zod (Zod.ZodNullable innerType)) opts depth
      = Builder.nullable (Zod.convertZodType innerType opts (depth + 1)%Z))
  /\ (forall combined t,
         Zod.scalarType combined = Some t ->
         Joi.applyNullable combined = Builder.nullable combined).
Proof.
  split.
  - intros innerType opts depth t Hdepth Hscalar.
    cbn [zod Zod.convertZodType Zod._def]. rewrite (within_bound _ _ Hdepth).
    cbv zeta. rewrite Hscalar.
    unfold Zod.collected. cbn [Zod._description]. rewrite spread_empty_l.
    unfold Builder.nullable. unfold Zod.scalarType in Hscalar.
    destruct (OpenAPI.type (Zod.convertZodType innerType opts (depth + 1)%Z))
      as [[name | names] |]; try discriminate.
    destruct (truthyString name); [| discriminate]. now injection Hscalar as ->.
  - intros combined t Hscalar. unfold Joi.applyNullable, Builder.nullable. cbv zeta.
    unfold Zod.scalarType in Hscalar.
    destruct (OpenAPI.type combined) as [[name | names] |]; try discriminate.
    destruct (truthyString name); [reflexivity | discriminate].
Qed.

Lemma nullable_agrees_witness :
  Zod.convertZodType (zod (Zod.ZodNullable (zod (Zod.ZodString [])))) zodDefaults 0
  = Builder.nullable (Zod.convertZodType (zod (Zod.ZodString [])) zodDefaults 1)
  /\ Joi.applyNullable (emptySchema |> with_type (TypeName "number"))
     = Builder.nullable (emptySchema |> with_type (TypeName "number")).
Proof.
  split.
  - refine (proj1 nullable_agrees_on_typed_nodes (zod (Zod.ZodString [])) zodDefaults 0%Z
              "string" _ _).
    + simpl. lia.
    + reflexivity.
  - refine (proj2 nullable_agrees_on_typed_nodes _ "number" _). reflexivity.
Defined.

(** *** Where the collected metadata ends up *)

Create Rewrite HintDb metadata.

Lemma metadata_with_type :
  forall v n, metadata (with_type v n) = metadata n.
Proof. intros v n. now destruct n. Qed.
#[local] Hint Rewrite metadata_with_type : metadata.

Lemma metadata_with_format :
  forall v n, metadata (with_format v n) = metadata n.
Proof. intros v n. now destruct n. Qed.
#[local] Hint Rewrite metadata_with_format : metadata.

Lemma metadata_with_const :
  forall v n, metadata (with_const v n) = metadata n.
Proof. intros v n. now destruct n. Qed.
#[local] Hint Rewrite metadata_with_const : metadata.

Lemma metadata_with_enum :
  forall v n, metadata (with_enum v n) = metadata n.
Proof. intros v n. now destruct n. Qed.
#[local] Hint Rewrite metadata_with_enum : metadata.

Lemma metadata_with_not :
  forall v n, metadata (with_not v n) = metadata n.
Proof. intros v n. now destruct n. Qed.
#[local] Hint Rewrite metadata_with_not : metadata.

Lemma metadata_with_anyOf :
  forall v n, metadata (with_anyOf v n) = metadata n.
Proof. intros v n. now destruct n. Qed.
#[local] Hint Rewrite metadata_with_anyOf : metadata.

Lemma metadata_with_allOf :
  forall v n, metadata (with_allOf v n) = metadata n.
Proof. intros v n. now destruct n. Qed.
#[local] Hint Rewrite metadata_with_allOf : metadata.

Lemma metadata_with_properties :
  forall v n, metadata (with_properties v n) = metadata n.
Proof. intros v n. now destruct n. Qed.
#[local] Hint Rewrite metadata_with_properties : metadata.

Lemma metadata_with_required :
  forall v n, metadata (with_required v n) = metadata n.
Proof. intros v n. now destruct n. Qed.
#[local] Hint Rewrite metadata_with_required : metadata.

Lemma metadata_with_additionalProperties :
  forall v n, metadata (with_additionalProperties v n) = metadata n.
Proof. intros v n. now destruct n. Qed.
#[local] Hint Rewrite metadata_with_additionalProperties : metadata.

Lemma metadata_with_items :
  forall v n, metadata (with_items v n) = metadata n.
Proof. intros v n. now destruct n. Qed.
#[local] Hint Rewrite metadata_with_items : metadata.

Lemma metadata_with_prefixItems :
  forall v n, metadata (with_prefixItems v n) = metadata n.
Proof. intros v n. now destruct n. Qed.
#[local] Hint Rewrite metadata_with_prefixItems : metadata.

Lemma metadata_with_minItems :
  forall v n, metadata (with_minItems v n) = metadata n.
Proof. intros v n. now destruct n. Qed.
#[local] Hint Rewrite metadata_with_minItems : metadata.

Lemma metadata_with_maxItems :
  forall v n, metadata (with_maxItems v n) = metadata n.
Proof. intros v n. now destruct n. Qed.
#[local] Hint Rewrite metadata_with_maxItems : metadata.

Lemma metadata_with_uniqueItems :
  forall v n, metadata (with_uniqueItems v n) = metadata n.
Proof. intros v n. now destruct n. Qed.
#[local] Hint Rewrite metadata_with_uniqueItems : metadata.

Lemma metadata_with_minLength :
  forall v n, metadata (with_minLength v n) = metadata n.
Proof. intros v n. now destruct n. Qed.
#[local] Hint Rewrite metadata_with_minLength : metadata.

Lemma metadata_with_maxLength :
  forall v n, metadata (with_maxLength v n) = metadata n.
Proof. intros v n. now destruct n. Qed.
#[local] Hint Rewrite metadata_with_maxLength : metadata.

Lemma metadata_with_pattern :
  forall v n, metadata (with_pattern v n) = metadata n.
Proof. intros v n. now destruct n. Qed.
#[local] Hint Rewrite metadata_with_pattern : metadata.

Lemma metadata_with_contentEncoding :
  forall v n, metadata (with_contentEncoding v n) = metadata n.
Proof. intros v n. now destruct n. Qed.
#[local] Hint Rewrite metadata_with_contentEncoding : metadata.

Lemma metadata_with_minimum :
  forall v n, metadata (with_minimum v n) = metadata n.
Proof. intros v n. now destruct n. Qed.
#[local] Hint Rewrite metadata_with_minimum : metadata.

Lemma metadata_with_maximum :
  forall v n, metadata (with_maximum v n) = metadata n.
Proof. intros v n. now destruct n. Qed.
#[local] Hint Rewrite metadata_with_maximum : metadata.

Lemma metadata_with_exclusiveMinimum :
  forall v n, metadata (with_exclusiveMinimum v n) = metadata n.
Proof. intros v n. now destruct n. Qed.
#[local] Hint Rewrite metadata_with_exclusiveMinimum : metadata.

Lemma metadata_with_exclusiveMaximum :
  forall v n, metadata (with_exclusiveMaximum v n) = metadata n.
Proof. intros v n. now destruct n. Qed.
#[local] Hint Rewrite metadata_with_exclusiveMaximum : metadata.

Lemma metadata_with_multipleOf :
  forall v n, metadata (with_multipleOf v n) = metadata n.
Proof. intros v n. now destruct n. Qed.
#[local] Hint Rewrite metadata_with_multipleOf : metadata.

Lemma metadata_with_readOnly :
  forall v n, metadata (with_readOnly v n) = metadata n.
Proof. intros v n. now destruct n. Qed.
#[local] Hint Rewrite metadata_with_readOnly : metadata.

Lemma metadata_spread :
  forall a b, metadata b = (None, None) -> metadata (spread a b) = metadata a.
Proof.
  intros a b Hb. unfold metadata in *. injection Hb as Hdescription Hdefault.
  unfold spread. cbn [OpenAPI.description OpenAPI.default].
  now rewrite Hdescription, Hdefault.
Qed.

Lemma metadata_fold :
  forall (A : Type) (f : SchemaObject -> A -> SchemaObject),
    (forall n x, metadata (f n x) = metadata n) ->
    forall xs n, metadata (fold_left f xs n) = metadata n.
Proof.
  intros A f Hf xs. induction xs as [| x xs IH]; intros n; cbn [fold_left];
    [reflexivity |].
  now rewrite IH, Hf.
Qed.

Lemma metadata_stringRule :
  forall n (rule : Joi.JoiRule Joi.JoiDescription),
    metadata (Joi.stringRule n rule) = metadata n.
Proof.
  intros n rule. unfold Joi.stringRule. cbv zeta.
  destruct (Joi.regex (Joi.argsOf rule)) as [| | | | text | r | | |];
    try destruct (Joi.execDelimited text);
    split_conditions; autorewrite with metadata; reflexivity.
Qed.

Lemma metadata_arrayRule :
  forall n (rule : Joi.JoiRule Joi.JoiDescription),
    metadata (Joi.arrayRule n rule) = metadata n.
Proof.
  intros n rule. unfold Joi.arrayRule. cbv zeta.
  split_conditions; autorewrite with metadata; reflexivity.
Qed.

Lemma convertNumber_node :
  forall desc,
    metadata (Joi.convertNumber desc) = (None, None)
    /\ exists t,
         OpenAPI.type (Joi.convertNumber desc) = Some (TypeName t)
         /\ truthyString t = true.
Proof.
  intros desc. unfold Joi.convertNumber. cbv zeta.
  assert (Hloop :
    metadata
      (snd (fold_left Joi.numberRule
              match Joi.rules desc with Some rs => rs | None => [] end
              (false, emptySchema))) = (None, None)).
  { apply (fold_left_invariant _ _ (fun state => metadata (snd state) = (None, None)));
      [| reflexivity].
    intros [isInteger n] rule Hn. cbn [snd] in Hn.
    unfold Joi.numberRule. cbv zeta.
    split_conditions; cbn [snd]; autorewrite with metadata; exact Hn. }
  destruct (fold_left _ _ _) as [isInteger n]. cbn [snd] in Hloop.
  split; [now autorewrite with metadata |].
  rewrite type_with_type. destruct isInteger; eexists; split; reflexivity.
Qed.

(** The node of a typed kind carries one truthy type name and none of
    the two metadata keys. *)
Lemma typeSchema_typed_kind :
  forall convert desc opts depth,
    joiTypedKind (Joi.type desc) = true ->
    metadata (Joi.typeSchema convert desc opts depth) = (None, None)
    /\ exists t,
         OpenAPI.type (Joi.typeSchema convert desc opts depth) = Some (TypeName t)
         /\ truthyString t = true.
Proof.
  intros convert desc opts depth Hkind. unfold Joi.typeSchema. cbv zeta.
  unfold joiTypedKind in Hkind. cbn [existsb] in Hkind.
  destruct (Joi.type desc =? "string").
  { split; [| exists "string"; split; [apply type_convertString | reflexivity]].
    unfold Joi.convertString. cbv zeta.
    now rewrite (metadata_fold _ _ metadata_stringRule). }
  destruct (Joi.type desc =? "number"); [apply convertNumber_node |].
  destruct (Joi.type desc =? "boolean").
  { split; [reflexivity | exists "boolean"; now split]. }
  destruct (Joi.type desc =? "object").
  { split; [| exists "object"; split; [apply type_convertObject | reflexivity]].
    unfold Joi.convertObject. cbv zeta.
    destruct (match Joi.keys desc with Some _ => _ | None => _ end)
      as [properties required].
    destruct (match Joi.rules desc with Some _ => _ | None => _ end)
      as [| [n [c |]] rest];
      destruct (Joi.flagAllowUnknown desc) as [[|] |];
      destruct (0 <? List.length properties)%nat;
      destruct (0 <? List.length required)%nat;
      autorewrite with metadata; reflexivity. }
  destruct (Joi.type desc =? "array").
  { split; [| exists "array"; split; [apply type_convertArray | reflexivity]].
    unfold Joi.convertArray. cbv zeta.
    assert (Hplain : metadata (Joi.plainArray convert desc opts depth) = (None, None)).
    { unfold Joi.plainArray. cbv zeta.
      destruct (Joi.rules desc) as [rs |];
        [rewrite (metadata_fold _ _ metadata_arrayRule) |];
        destruct (Joi.items desc) as [[| item [| item' its]] |];
        autorewrite with metadata; reflexivity. }
    destruct (Joi.ordered desc) as [slots |]; [| exact Hplain].
    destruct (0 <? List.length slots)%nat; [| exact Hplain].
    autorewrite with metadata. reflexivity. }
  destruct (Joi.type desc =? "alternatives") eqn:Halternatives.
  { destruct (Joi.type desc =? "date") eqn:Hdate;
      [apply String.eqb_eq in Halternatives, Hdate; congruence |].
    destruct (Joi.type desc =? "binary") eqn:Hbinary;
      [apply String.eqb_eq in Halternatives, Hbinary; congruence | discriminate]. }
  destruct (Joi.type desc =? "date").
  { split; [reflexivity | exists "string"; now split]. }
  destruct (Joi.type desc =? "binary"); [| discriminate].
  split; [reflexivity | exists "string"; now split].
Qed.

(** X18.  Where the metadata collected at the start of a conversion
    ends up, within the depth bound.  For a Zod schema outside the
    wrapper arms, the description of the node is the collected one.  For
    a Joi description that is an enum or of a typed kind ([string],
    [number], [boolean], [object], [array], [date], [binary]), the
    description and the default of the node are the collected ones,
    whether or not the description allows [null]. *)
Theorem collected_metadata_is_kept :
  (forall schema opts depth,
      (depth <= Zod.maxDepth opts)%Z ->
      isWrapperName (Zod.typeName schema) = false ->
      OpenAPI.description (Zod.convertZodType schema opts depth)
      = OpenAPI.description (Zod.collected opts schema))
  /\ (forall desc opts depth,
         (depth <= Joi.maxDepth opts)%Z ->
         Joi.isEnum desc || joiTypedKind (Joi.type desc) = true ->
         metadata (Joi.convertJoiDescription desc opts depth)
         = metadata (Joi.collected opts desc)).
Proof.
  split.
  - intros [d def] opts depth Hdepth Hdef. apply within_bound in Hdepth.
    destruct def; try discriminate Hdef;
      cbn [Zod.convertZodType Zod._def]; rewrite Hdepth;
      rewrite ?description_spread, ?description_convertZodString,
        ?description_convertZodNumber, ?description_convertZodObject,
        ?description_convertZodArray, ?description_convertZodTuple;
      try reflexivity;
      try (now destruct (Zod.collected opts _));
      destruct valueType; now destruct (Zod.collected opts _).
  - intros desc opts depth Hdepth Hkind. apply within_bound in Hdepth.
    rewrite convertJoiDescription_unfold, Hdepth.
    destruct (Joi.isEnum desc).
    { rewrite convertEnum_whole_list. now autorewrite with metadata. }
    cbn [orb] in Hkind. cbv zeta. unfold Joi.combinedSchema.
    destruct (typeSchema_typed_kind Joi.convertJoiDescription desc opts depth Hkind)
      as [Hmetadata [t [Htype Htruthy]]].
    destruct (Joi.hasNullAllow desc && negb (Joi.flagOnly desc));
      [| now apply metadata_spread].
    unfold Joi.applyNullable. cbv zeta.
    rewrite type_spread, Htype. cbn [later]. rewrite Htruthy.
    autorewrite with metadata. now apply metadata_spread.
Qed.

Lemma collected_metadata_is_kept_witness :
  OpenAPI.description (Zod.convertZodType describedArray zodDefaults 0) = Some "tags"
  /\ metadata (Joi.convertJoiDescription describedCode joiDefaults 0)
     = (Some "code", Some (JString "xx")).
Proof.
  split.
  - refine (proj1 collected_metadata_is_kept describedArray zodDefaults 0%Z _ _).
    + simpl. lia.
    + reflexivity.
  - refine (proj2 collected_metadata_is_kept describedCode joiDefaults 0%Z _ _).
    + simpl. lia.
    + reflexivity.
Defined.

(** *** The entry points and the depth bound *)


